(** * Nuclei_Classification: the early-stopping callback and the model wrapper

    A shallow embedding of [newModel.py]: the [EarlyStop] callback of
    [Model.train] (its loss history, the gate of line 140 and the two
    ratios of lines 141-145), the layer list built by [Model.create_model],
    the [AlwaysDropout] layer, and the file-system side of [Model.train] and
    [Model.__copy__].

    Python values are modelled as follows.
    - [int] is [Z]; [%] is [Z.modulo] (both take the sign of the divisor)
      and raises [ZeroDivisionError] on a zero divisor.
    - [float] is kept abstract behind the class [Number], with two
      instances: the kernel's binary64 floats ([PrimFloat.float], which is
      what a Python float is) and the rationals [Q] (exact arithmetic).
      The structural results hold for every instance; the sign arguments
      are proved for every instance that obeys the order laws of
      [OrderedNumber]. Both instances obey them: [Q] by field arithmetic,
      binary64 by the kernel's specification of its operations (round to
      nearest, ties to even; a NaN compares false with everything). The
      sample runs, the witnesses and the counterexamples are evaluated on
      binary64.
    - the losses the framework puts in [logs] are numpy scalars, so
      [x / y] on them is the IEEE division: a zero divisor gives an
      infinity or a NaN (numpy warns) and nothing is raised.
    - a raised exception is a value [Raise e] of [result]. *)

From Stdlib Require Import ZArith QArith Lqa.
From Stdlib Require Import Floats.
From Stdlib Require Import Ascii DecimalString DecimalZ DecimalPos.
From stdpp Require Import base option list strings gmap.

Local Open Scope Z_scope.

(** ** Python primitives used by the source *)

Module Py.

Inductive exn : Type :=
| ValueError          (* min() of an empty sequence *)
| ZeroDivisionError   (* n % 0 on ints *)
| IndexError          (* l[-1] on an empty list *)
| OSError             (* open() or load_weights() on a missing path *)
| TypeError           (* '{:.4f}'.format(None) *)
| AttributeError.     (* None.get *)

Inductive result (A : Type) : Type :=
| Ok (a : A)
| Raise (e : exn).
Arguments Ok {A} a.
Arguments Raise {A} e.

Definition bind {A B} (r : result A) (k : A -> result B) : result B :=
  match r with
  | Ok a => k a
  | Raise e => Raise e
  end.

Definition raises {A} (r : result A) : bool :=
  match r with
  | Ok _ => false
  | Raise _ => true
  end.

(** [PySlice_AdjustIndices] for a step of one: a negative index counts
    from the end, and both ends are clamped into [0, len]. *)
Definition adjust (len i : Z) : Z :=
  if i <? 0 then Z.max 0 (i + len) else Z.min i len.

(** [l[start:stop]]; [None] is an omitted bound. *)
Definition slice {A} (l : list A) (start stop : option Z) : list A :=
  let len := Z.of_nat (length l) in
  let lo := from_option (adjust len) 0 start in
  let hi := from_option (adjust len) len stop in
  take (Z.to_nat (hi - lo)) (drop (Z.to_nat lo) l).

(** [l[-1]] *)
Definition get_last {A} (l : list A) : result A :=
  match last l with
  | Some x => Ok x
  | None => Raise IndexError
  end.

(** [n % d] on ints *)
Definition mod_ (n d : Z) : result Z :=
  if d =? 0 then Raise ZeroDivisionError else Ok (n mod d).

End Py.

Export Py.

Notation "x <- r ;; k" := (Py.bind r (fun x => k))
  (at level 100, r at next level, right associativity, only parsing).

(** ** Numbers: what the callback asks of a loss value *)

Class Number (F : Type) : Type := {
  of_int : Z -> F;            (* the int operands 0, 1, 2, 100, 1000 *)
  add : F -> F -> F;
  sub : F -> F -> F;
  mul : F -> F -> F;
  quot : F -> F -> F;         (* [x / y] *)
  lt : F -> F -> bool;        (* [x < y] *)
  is_zero : F -> bool         (* [y == 0] *)
}.

Section Arithmetic.
Context {F : Type} `{Number F}.

(** [x / y] on the numpy scalars of [logs]: the quotient, for a zero
    divisor too; no exception is raised. *)
Definition truediv (x y : F) : result F := Ok (quot x y).

(** [x > y] is [y < x]. *)
Definition gt (x y : F) : bool := lt y x.

(** [min(l)]: keeps the first item, replaces it by a later one that
    compares strictly smaller; [ValueError] on the empty list. *)
Definition min_step (m x : F) : F := if lt x m then x else m.

Definition min_ (l : list F) : result F :=
  match l with
  | [] => Raise ValueError
  | x :: rest => Ok (fold_left min_step rest x)
  end.

(** [sum(l)]: starts from the int [0] and adds from the left. *)
Definition sum_ (l : list F) : F := fold_left add l (of_int 0).

End Arithmetic.

(** *** binary64 *)

Module Float64.

Fixpoint of_pos (p : positive) : float :=
  match p with
  | xH => 1%float
  | xO p' => (2 * of_pos p')%float
  | xI p' => (2 * of_pos p' + 1)%float
  end.

Definition of_Z (z : Z) : float :=
  match z with
  | Z0 => 0%float
  | Zpos p => of_pos p
  | Zneg p => (- of_pos p)%float
  end.

End Float64.

#[export] Instance float_number : Number float := {|
  of_int := Float64.of_Z;
  add := PrimFloat.add;
  sub := PrimFloat.sub;
  mul := PrimFloat.mul;
  quot := PrimFloat.div;
  lt := PrimFloat.ltb;
  is_zero := fun y => PrimFloat.eqb y 0%float
|}.

(** *** exact rationals

    [Qdiv] takes a quotient by zero to be zero; no run evaluated on [Q]
    divides by zero. *)

#[export] Instance Q_number : Number Q := {|
  of_int := inject_Z;
  add := Qplus;
  sub := Qminus;
  mul := Qmult;
  quot := Qdiv;
  lt := fun x y => negb (Qle_bool y x);
  is_zero := fun y => Qeq_bool y 0
|}.

(** *** Order laws

    [x <= y] is read off [<] as "not [y < x]". The laws below are what the
    sign arguments use of the arithmetic: the order passes through a
    positive value and through zero, a quotient by a positive value
    compares with one as its operands compare, and subtracting one and
    taking a hundredfold keep the side of zero. Each is stated in the form
    that rounding, NaN and the infinities keep; they hold in exact
    arithmetic and on binary64 (both instances are proved below). *)

Definition le {F : Type} `{Number F} (x y : F) : bool := negb (lt y x).

Class OrderedNumber (F : Type) `{Number F} : Prop := {
  le_through_positive (x y z : F) :
    lt (of_int 0) y = true -> le x y = true -> le y z = true -> le x z = true;
  le_through_zero (x z : F) :
    le x (of_int 0) = true -> le (of_int 0) z = true -> le x z = true;
  pos_not_zero (y : F) : lt (of_int 0) y = true -> is_zero y = false;
  quot_le_one (x y : F) :
    lt (of_int 0) y = true -> le x y = true -> le (quot x y) (of_int 1) = true;
  quot_gt_one (x y : F) :
    lt (of_int 0) y = true -> lt y x = true -> lt (of_int 1) (quot x y) = true;
  quot_le_zero (x y : F) :
    le x (of_int 0) = true -> lt (of_int 0) y = true ->
    le (quot x y) (of_int 0) = true;
  pred_le_zero (r : F) :
    le r (of_int 1) = true -> le (sub r (of_int 1)) (of_int 0) = true;
  pred_gt_zero (r : F) :
    lt (of_int 1) r = true -> lt (of_int 0) (sub r (of_int 1)) = true;
  percent_le_zero (x : F) :
    le x (of_int 0) = true -> le (mul (of_int 100) x) (of_int 0) = true;
  percent_gt_zero (x : F) :
    lt (of_int 0) x = true -> lt (of_int 0) (mul (of_int 100) x) = true
}.

Section Sequences.
Context {F : Type} `{Number F}.

(** Each item is no larger than the one before it. *)
Fixpoint decreasing (l : list F) : bool :=
  match l with
  | [] => true
  | x :: rest =>
      match rest with
      | [] => true
      | y :: _ => le y x && decreasing rest
      end
  end.

Definition all_positive (l : list F) : bool := forallb (lt (of_int 0)) l.

End Sequences.

(** ** The [EarlyStop] callback (lines 120-147) *)

Module EarlyStop.
Section Callback.
Context {F : Type} `{Number F}.

(** The three values the callback reads from [logs], once lines 133-135
    have formatted them. The framework provides the three keys, as numpy
    scalars, for a model compiled with [metrics=['accuracy']] and fitted
    with validation data (lines 109 and 161-163). *)
Record Logs : Type := {
  loss : F;
  val_acc : F;
  val_loss : F
}.

(** What the callback writes. The texts are built by [str.format]; a line
    is kept as the values it is formatted from (the elapsed time of
    [time.clock] is left out). *)
Inductive line : Type :=
| Message (epoch : Z) (logs : Logs)   (* log_fn('Epoch: ... Time: ...') *)
| Progress (q : F)                    (* print('Training Progress: ...') *)
| Stopped (epoch : Z).                (* print('Stopped at epoch ...') *)

Record t : Type := {
  val_losses : list F;
  train_losses : list F;
  min_epochs : Z;
  batch : Z;
  target : F;
  stop_training : bool;               (* self.model.stop_training *)
  out : list line
}.

(** [EarlyStop(min_epochs, batch, target, log_fn)]; the framework clears
    [stop_training] when a fit starts. [log_fn] is not kept in the
    record: [on_epoch_end_with] takes it as a parameter. *)
Definition __init__ (min_epochs batch : Z) (target : F) : t := {|
  val_losses := [];
  train_losses := [];
  min_epochs := min_epochs;
  batch := batch;
  target := target;
  stop_training := false;
  out := []
|}.

Definition emit (self : t) (l : line) : t := {|
  val_losses := val_losses self;
  train_losses := train_losses self;
  min_epochs := min_epochs self;
  batch := batch self;
  target := target self;
  stop_training := stop_training self;
  out := out self ++ [l]
|}.

(** lines 138-139: the two [append]s *)
Definition record (self : t) (logs : Logs) : t := {|
  val_losses := val_losses self ++ [val_loss logs];
  train_losses := train_losses self ++ [loss logs];
  min_epochs := min_epochs self;
  batch := batch self;
  target := target self;
  stop_training := stop_training self;
  out := out self
|}.

(** line 147: [self.model.stop_training = True] *)
Definition halt (self : t) : t := {|
  val_losses := val_losses self;
  train_losses := train_losses self;
  min_epochs := min_epochs self;
  batch := batch self;
  target := target self;
  stop_training := true;
  out := out self
|}.

(** line 140: [(epoch + 1) % self.batch == 0 and (epoch + 1) >= self.min_epochs] *)
Definition due (self : t) (epoch : Z) : result bool :=
  r <- Py.mod_ (epoch + 1) (batch self) ;;
  Ok ((r =? 0) && (min_epochs self <=? epoch + 1)).

(** line 141 *)
Definition g_loss (self : t) : result F :=
  latest <- Py.get_last (val_losses self) ;;
  best <- min_ (Py.slice (val_losses self) None (Some (-1))) ;;
  ratio <- truediv latest best ;;
  Ok (mul (of_int 100) (sub ratio (of_int 1))).

(** lines 142-143, the start index of the second slice as it is written:
    [--(self.batch+1)] *)
Definition numerator_window (self : t) : list F :=
  Py.slice (train_losses self) (Some (- (batch self + 1))) (Some (-1)).

Definition denominator_window (self : t) : list F :=
  Py.slice (train_losses self) (Some (- - (batch self + 1))) (Some (-1)).

Definition t_progress (self : t) : result F :=
  let total := sum_ (numerator_window self) in
  least <- min_ (denominator_window self) ;;
  ratio <- truediv total (mul (of_int 2) least) ;;
  Ok (mul (of_int 1000) (sub ratio (of_int 1))).

(** [g_loss / t_progress], lines 144 and 145 *)
Definition progress_quotient (self : t) : result F :=
  g <- g_loss self ;;
  p <- t_progress self ;;
  truediv g p.

(** lines 141-147, the body of the [if] of line 140 *)
Definition evaluate (self : t) (epoch : Z) : t * result unit :=
  match progress_quotient self with
  | Raise e => (self, Raise e)
  | Ok q =>
      let self := emit self (Progress q) in
      if gt q (target self)
      then (halt (emit self (Stopped (epoch + 1))), Ok tt)
      else (self, Ok tt)
  end.

(** The call from the return of [log_fn] on (lines 138-147), the message
    of line 137 noted on [out]. This is the whole call when [logs] holds
    the three values and [log_fn] returns, as the default [print] does;
    [on_epoch_end_with] below starts at line 132 and covers a [log_fn]
    or a formatting that raises. *)
Definition on_epoch_end (self : t) (epoch : Z) (logs : Logs) : t * result unit :=
  let self := emit self (Message (epoch + 1) logs) in
  let self := record self logs in
  match due self epoch with
  | Raise e => (self, Raise e)
  | Ok true => evaluate self epoch
  | Ok false => (self, Ok tt)
  end.

(** Whether a call at [epoch] with [logs] meets the condition of line 145:
    the epoch is an evaluated boundary and [g_loss / t_progress > target]. *)
Definition exceeds (self : t) (epoch : Z) (logs : Logs) : bool :=
  let self := record (emit self (Message (epoch + 1) logs)) logs in
  match due self epoch with
  | Ok true =>
      match progress_quotient self with
      | Ok q => gt q (target self)
      | Raise _ => false
      end
  | _ => false
  end.

(** The framework's epoch loop as far as the callback sees it: one call
    per epoch with that epoch's logs, the loop left when the callback
    raises or when [stop_training] is found set after the call. *)
Fixpoint epochs (self : t) (epoch : Z) (ls : list Logs) : t * result unit :=
  match ls with
  | [] => (self, Ok tt)
  | logs :: rest =>
      match on_epoch_end self epoch logs with
      | (self', Raise e) => (self', Raise e)
      | (self', Ok _) =>
          if stop_training self' then (self', Ok tt)
          else epochs self' (epoch + 1) rest
      end
  end.

(** [n] successive calls, whatever each of them reports. *)
Fixpoint calls (self : t) (epoch : Z) (ls : list Logs) : t :=
  match ls with
  | [] => self
  | logs :: rest => calls (fst (on_epoch_end self epoch logs)) (epoch + 1) rest
  end.

(** *** The method from its first line (lines 132-147)

    [logs] is the argument as it is passed: [None] by default, otherwise
    a dict, of which the callback asks three keys with [get]. [log_fn] is
    the callable the callback was built with; it acts on a state [W] of
    its own (the terminal for [print], the log file for [Model.log]) and
    may raise. *)

(** What [logs.get] gives for the three keys: [None] for a key the dict
    lacks. *)
Record Dict : Type := {
  get_loss : option F;
  get_val_acc : option F;
  get_val_loss : option F
}.

(** ['{:.4f}'.format(x)]: [None] has no such format. *)
Definition format4 (x : option F) : result F :=
  match x with
  | Some v => Ok v
  | None => Raise TypeError
  end.

(** lines 133-135: the three reads, in the order of the source *)
Definition formatted (logs : option Dict) : result Logs :=
  match logs with
  | None => Raise AttributeError
  | Some d =>
      l <- format4 (get_loss d) ;;
      a <- format4 (get_val_acc d) ;;
      v <- format4 (get_val_loss d) ;;
      Ok {| loss := l; val_acc := a; val_loss := v |}
  end.

Section Method.
Context {W : Type}.
Variable log_fn : line -> W -> W * result unit.

(** A raise in lines 133-137 leaves the callback as it was: the appends
    of lines 138-139 come after. *)
Definition on_epoch_end_with (self : t) (w : W) (epoch : Z) (logs : option Dict)
    : t * W * result unit :=
  match formatted logs with
  | Raise e => (self, w, Raise e)
  | Ok values =>
      match log_fn (Message (epoch + 1) values) w with
      | (w', Raise e) => (self, w', Raise e)
      | (w', Ok _) =>
          (fst (on_epoch_end self epoch values), w',
           snd (on_epoch_end self epoch values))
      end
  end.

(** Successive calls, whatever each of them reports. *)
Fixpoint calls_with (self : t) (w : W) (epoch : Z) (ls : list (option Dict))
    : t * W :=
  match ls with
  | [] => (self, w)
  | logs :: rest =>
      let after := fst (on_epoch_end_with self w epoch logs) in
      calls_with (fst after) (snd after) (epoch + 1) rest
  end.

(** The values of those of the calls in which lines 133-137 returned. *)
Fixpoint logged (w : W) (epoch : Z) (ls : list (option Dict)) : list Logs :=
  match ls with
  | [] => []
  | logs :: rest =>
      match formatted logs with
      | Raise _ => logged w (epoch + 1) rest
      | Ok values =>
          match log_fn (Message (epoch + 1) values) w with
          | (w', Raise _) => logged w' (epoch + 1) rest
          | (w', Ok _) => values :: logged w' (epoch + 1) rest
          end
      end
  end.

(** The framework's epoch loop over the method: left when a call raises
    or when [stop_training] is found set after it. *)
Fixpoint epochs_with (self : t) (w : W) (epoch : Z) (ls : list (option Dict))
    : t * W * result unit :=
  match ls with
  | [] => (self, w, Ok tt)
  | logs :: rest =>
      match on_epoch_end_with self w epoch logs with
      | (self', w', Raise e) => (self', w', Raise e)
      | (self', w', Ok _) =>
          if stop_training self' then (self', w', Ok tt)
          else epochs_with self' w' (epoch + 1) rest
      end
  end.

End Method.

(** The dict the framework passes for the three values. *)
Definition dict (logs : Logs) : option Dict :=
  Some {| get_loss := Some (loss logs);
          get_val_acc := Some (val_acc logs);
          get_val_loss := Some (val_loss logs) |}.

(** [print] as [log_fn]: the text goes to the terminal, nothing is raised. *)
Definition print (l : line) (terminal : list line) : list line * result unit :=
  (terminal ++ [l], Ok tt).

End Callback.

Arguments Logs F : clear implicits.
Arguments Dict F : clear implicits.
Arguments line F : clear implicits.
Arguments t F : clear implicits.

End EarlyStop.

(** ** The configuration object *)

Module Config.

(** The fields of the [config] object the source reads. *)
Record t : Type := {
  input_height : Z;
  input_width : Z;
  input_channels : Z;
  num_classes : Z;
  verbose : bool;
  log_file : string;
  bayesian : bool;
  learning_rate : float;
  rho : float;
  epsilon : float;
  decay : float;
  model_tuning : bool;
  mode : string;
  model_path : string;
  data_dir : string;
  batch_size : Z;
  max_epochs : Z;
  min_epochs : Z;
  batch_epochs : Z;
  training_threshold : float
}.

End Config.

(** ** The model wrapper (lines 11-170) *)

Module Model.

Inductive activation : Type := relu | softmax.

(** The layers [create_model] adds; every convolution and pooling layer of
    the source has [padding='same']. *)
Inductive layer : Type :=
| Conv2D (filters : Z) (kernel_size : Z * Z) (act : activation)
    (input_shape : option (list Z))
| BatchNormalization
| MaxPool2D
| AlwaysDropout (rate : float)
| Flatten
| Dense (units : Z) (act : activation).

Definition is_always_dropout (l : layer) : bool :=
  match l with
  | AlwaysDropout _ => true
  | _ => false
  end.

Record Adadelta : Type := {
  lr : float;
  opt_rho : float;
  opt_epsilon : float;
  opt_decay : float
}.

(** lines 69-70, 78-79, 89-90, 96-97 *)
Definition dropout_if (bayesian : bool) : list layer :=
  if bayesian then [AlwaysDropout 0.25%float] else [].

(** lines 62-100: the layers in the order they are added *)
Definition create_layers (config : Config.t) : list layer :=
  (* Block 1 *)
  [ Conv2D 64 (3, 3) relu
      (Some [Config.input_height config; Config.input_width config; Config.input_channels config]);
    BatchNormalization;
    Conv2D 64 (3, 3) relu None;
    BatchNormalization;
    MaxPool2D ]
  ++ dropout_if (Config.bayesian config) ++
  (* Block 2 *)
  [ Conv2D 128 (3, 3) relu None;
    BatchNormalization;
    Conv2D 128 (3, 3) relu None;
    BatchNormalization;
    MaxPool2D ]
  ++ dropout_if (Config.bayesian config) ++
  (* Block 3 *)
  [ Conv2D 256 (3, 3) relu None;
    BatchNormalization;
    Conv2D 256 (3, 3) relu None;
    BatchNormalization;
    Conv2D 256 (3, 3) relu None;
    BatchNormalization;
    MaxPool2D ]
  ++ dropout_if (Config.bayesian config) ++
  (* Block 4 *)
  [ Flatten;
    Dense 1024 relu;
    BatchNormalization ]
  ++ dropout_if (Config.bayesian config) ++
  [ Dense 1024 relu;
    BatchNormalization;
    Dense (Config.num_classes config) softmax ].

(** lines 102-106 *)
Definition create_optimiser (config : Config.t) : Adadelta := {|
  lr := Config.learning_rate config;
  opt_rho := Config.rho config;
  opt_epsilon := Config.epsilon config;
  opt_decay := Config.decay config
|}.

Section Dropout.
(** The tensors and the backend's dropout belong to the framework. *)
Context {Tensor NoiseShape Seed : Type}.
Variable get_noise_shape : Tensor -> NoiseShape.
Variable backend_dropout : Tensor -> float -> NoiseShape -> Seed -> Tensor.

(** lines 56-60: [AlwaysDropout.call(self, inputs, training=None)];
    [0. < self.rate < 1.] is [0. < self.rate and self.rate < 1.] *)
Definition call (rate : float) (seed : Seed) (inputs : Tensor)
    (training : option bool) : Tensor :=
  if PrimFloat.ltb 0%float rate && PrimFloat.ltb rate 1%float
  then backend_dropout inputs rate (get_noise_shape inputs) seed
  else inputs.

End Dropout.

Section Effects.
(** The weights, the dataset, the initialisers and the optimiser's pass
    over one epoch belong to the framework (and to [generator.ImageLoader]):
    [initialise] draws fresh weights for a layer list from the random
    state, [run_epoch] gives the weights after an epoch and its logs. *)
Context {Weights Data : Type}.
Variable initialise : nat -> list layer -> Weights.

Record Sequential : Type := {
  layers : list layer;
  optimizer : Adadelta;
  loss_fn : string;
  metrics : list string;
  weights : Weights;
  stop_training : bool
}.

Variable run_epoch :
  Config.t -> Sequential -> Data -> Z -> Weights * EarlyStop.Logs float.

(** A [Model] object. *)
Record t : Type := {
  input_shape : list Z;
  num_classes : Z;
  verbose : bool;
  config : Config.t;
  model : Sequential
}.

(** What is printed: a literal text, or a line the callback formats. *)
Inductive message : Type :=
| Str (s : string)
| Line (l : EarlyStop.line float).

(** What a file holds: lines printed into it, or a pickled history. *)
Inductive chunk : Type :=
| Text (m : message)
| Pickled (history : list (EarlyStop.Logs float)).

Inductive event : Type :=
| GraphReset                    (* tf.reset_default_graph() *)
| Printed (m : message)         (* print(message) *)
| Summary                       (* the table model.summary() prints *)
| LoadWeights (path : string)   (* model.load_weights(path) is called *)
| FitStart (w : Weights).       (* fit_generator starts from these weights *)

(** The process environment: what the operating system answers
    ([isdir], and [can_open] for [open(path, 'a')] and [open(path, 'wb')]),
    the files written, the weight files [load_weights] can read, the
    initialisers' random state and the calls made so far. *)
Record World : Type := {
  isdir : string -> bool;
  can_open : string -> bool;
  files : gmap string (list chunk);
  checkpoints : gmap string Weights;
  rng : nat;
  trace : list event
}.

Definition M (A : Type) : Type := World -> World * result A.

Definition ret {A} (a : A) : M A := fun w => (w, Ok a).

Definition raise {A} (e : exn) : M A := fun w => (w, Raise e).

Definition bindM {A B} (m : M A) (k : A -> M B) : M B :=
  fun w =>
    match m w with
    | (w', Ok a) => k a w'
    | (w', Raise e) => (w', Raise e)
    end.

Notation "x <~ m ;; k" := (bindM m (fun x => k))
  (at level 100, m at next level, right associativity, only parsing).
Notation "m ;;; k" := (bindM m (fun _ => k))
  (at level 100, right associativity, only parsing).

Definition emit (e : event) : M unit := fun w =>
  ({| isdir := isdir w; can_open := can_open w; files := files w;
      checkpoints := checkpoints w; rng := rng w;
      trace := trace w ++ [e] |}, Ok tt).

Definition set_files (fs : gmap string (list chunk)) (w : World) : World :=
  {| isdir := isdir w; can_open := can_open w; files := fs;
     checkpoints := checkpoints w; rng := rng w; trace := trace w |}.

(** [print(message, file=open(path, 'a'))] *)
Definition append_file (path : string) (m : message) : M unit := fun w =>
  if can_open w path
  then (set_files (<[path := default [] (files w !! path) ++ [Text m]]> (files w)) w, Ok tt)
  else (w, Raise OSError).

(** [with open(path, 'wb') as f: pickle.dump(history, f)] *)
Definition dump (path : string) (history : list (EarlyStop.Logs float)) : M unit :=
  fun w =>
    if can_open w path
    then (set_files (<[path := [Pickled history]]> (files w)) w, Ok tt)
    else (w, Raise OSError).

Definition os_path_isdir (path : string) : M bool := fun w => (w, Ok (isdir w path)).

Definition fresh_weights (ls : list layer) : M Weights := fun w =>
  ({| isdir := isdir w; can_open := can_open w; files := files w;
      checkpoints := checkpoints w; rng := S (rng w); trace := trace w |},
   Ok (initialise (rng w) ls)).

Definition newline : string := String (Ascii.ascii_of_nat 10) EmptyString.

(** lines 39-47 *)
Definition log (config : Config.t) (m : message) : M unit :=
  (if Config.verbose config then emit (Printed m) else ret tt) ;;;
  if negb (String.eqb (Config.log_file config) "")
  then append_file (Config.log_file config) m
  else ret tt.

(** lines 49-110 *)
Definition create_model (config : Config.t) : M Sequential :=
  w <~ fresh_weights (create_layers config) ;;
  ret {| layers := create_layers config;
         optimizer := create_optimiser config;
         loss_fn := "categorical_crossentropy";
         metrics := ["accuracy"];
         weights := w;
         stop_training := false |}.

(** lines 12-29: [Model(config)]; [summary()] prints its table and
    returns [None], which is what the second [log] receives. *)
Definition __init__ (config : Config.t) : M t :=
  emit GraphReset ;;;
  m <~ create_model config ;;
  log config (Str ("Model has been created" +:+ newline)) ;;;
  emit Summary ;;;
  log config (Str "None") ;;;
  ret {| input_shape := [Config.input_height config; Config.input_width config;
                         Config.input_channels config];
         num_classes := Config.num_classes config;
         verbose := Config.verbose config;
         config := config;
         model := m |}.

(** lines 31-37 *)
Definition __copy__ (self : t) : M t :=
  emit GraphReset ;;;
  __init__ (config self).

Definition set_weights (m : Sequential) (w : Weights) : Sequential :=
  {| layers := layers m; optimizer := optimizer m; loss_fn := loss_fn m;
     metrics := metrics m; weights := w; stop_training := stop_training m |}.

Definition set_stop_training (m : Sequential) (b : bool) : Sequential :=
  {| layers := layers m; optimizer := optimizer m; loss_fn := loss_fn m;
     metrics := metrics m; weights := weights m; stop_training := b |}.

Definition set_model (self : t) (m : Sequential) : t :=
  {| input_shape := input_shape self; num_classes := num_classes self;
     verbose := verbose self; config := config self; model := m |}.

(** [model.load_weights(path)] *)
Definition load_weights (m : Sequential) (path : string) : M Sequential :=
  emit (LoadWeights path) ;;;
  fun w =>
    match checkpoints w !! path with
    | Some ws => (w, Ok (set_weights m ws))
    | None => (w, Raise OSError)
    end.

(** [print] of the lines the callback added after its message *)
Fixpoint prints (ls : list (EarlyStop.line float)) : M unit :=
  match ls with
  | [] => ret tt
  | l :: rest => emit (Printed (Line l)) ;;; prints rest
  end.

(** The epoch loop of [fit_generator] with the one callback: [range(epochs)],
    left early when the callback raises or sets [stop_training]; the
    history gets the logs of every epoch that ended. The callback's
    [log_fn] is [self.log] (line 167): its call of line 137 comes first and
    may raise; what the callback prints after it goes to the output. *)
Fixpoint fit_loop (config : Config.t) (data : Data) (n : nat) (m : Sequential)
    (cb : EarlyStop.t float) (epoch : Z) (history : list (EarlyStop.Logs float))
    : M (Sequential * list (EarlyStop.Logs float)) :=
  match n with
  | O => ret (m, history)
  | S n' =>
      let '(w, logs) := run_epoch config m data epoch in
      let m := set_weights m w in
      log config (Line (EarlyStop.Message (epoch + 1) logs)) ;;;
      match EarlyStop.on_epoch_end cb epoch logs with
      | (_, Raise e) => raise e
      | (cb', Ok _) =>
          prints (drop (S (length (EarlyStop.out cb))) (EarlyStop.out cb')) ;;;
          if EarlyStop.stop_training cb'
          then ret (set_stop_training m true, history ++ [logs])
          else fit_loop config data n' m cb' (epoch + 1) (history ++ [logs])
      end
  end.

(** lines 161-167 *)
Definition fit_generator (config : Config.t) (m : Sequential) (data : Data)
    : M (Sequential * list (EarlyStop.Logs float)) :=
  emit (FitStart (weights m)) ;;;
  fit_loop config data (Z.to_nat (Config.max_epochs config))
    (set_stop_training m false)
    (EarlyStop.__init__ (Config.min_epochs config) (Config.batch_epochs config)
       (Config.training_threshold config))
    0 [].

(** line 169 *)
Definition history_path (experiment : string) : string :=
  "/History/" +:+ experiment.

(** [os.path.isabs] on a POSIX path *)
Definition isabs (path : string) : bool := String.prefix "/" path.

(** The condition of line 150, as a proposition. *)
Definition tuning (self : t) (w : World) : Prop :=
  Config.model_tuning (config self) = true /\
  Config.mode (config self) <> "supervised" /\
  isdir w (Config.model_path (config self)) = true.

(** lines 149-152: [and] asks [os.path.isdir] only when the first two
    operands are true; gives the Keras model as the block leaves it *)
Definition restore_weights (self : t) : M Sequential :=
  restore <~ (if Config.model_tuning (config self)
                 && negb (String.eqb (Config.mode (config self)) "supervised")
              then os_path_isdir (Config.model_path (config self))
              else ret false) ;;
  if (restore : bool)
  then (m <~ load_weights (model self)
               (Config.model_path (config self) +:+ "/weights") ;;
        log (config self) (Str "Model Restored") ;;;
        ret m)
  else ret (model self).

(** lines 112-170; gives back [self] as the call leaves it *)
Definition train (self : t) (data : Data) (test : bool) (experiment : string)
    : M t :=
  m <~ restore_weights self ;;
  fitted <~ fit_generator (config self) m data ;;
  dump (history_path experiment) (snd fitted) ;;;
  ret (set_model self (fst fitted)).

(** An action that only appends events, none of them a call of
    [load_weights]. *)
Definition quiet {A} (m : M A) : Prop :=
  forall w, exists evs,
    trace (fst (m w)) = trace w ++ evs /\
    forall path, LoadWeights path ∉ evs.

End Effects.

Arguments Sequential Weights : clear implicits.
Arguments t Weights : clear implicits.
Arguments event Weights : clear implicits.
Arguments message : clear implicits.
Arguments chunk : clear implicits.
Arguments World Weights : clear implicits.
Arguments M Weights A : clear implicits.

End Model.

(** ** Sample runs on binary64 *)

Definition logs64 (loss val_loss : float) : EarlyStop.Logs float :=
  {| EarlyStop.loss := loss; EarlyStop.val_acc := 0.5%float;
     EarlyStop.val_loss := val_loss |}.

(** five epochs of falling losses *)
Definition five_epochs : list (EarlyStop.Logs float) :=
  [logs64 8 8; logs64 4 4; logs64 2 2; logs64 1 1; logs64 0.5 0.5].

(** eight epochs, the training loss dipping at the fourth *)
Definition eight_epochs : list (EarlyStop.Logs float) :=
  [logs64 8 8; logs64 7 7; logs64 6 6; logs64 1 5;
   logs64 5 4; logs64 4 3; logs64 3 2; logs64 2 1].

(** four epochs, both losses halving *)
Definition falling_epochs : list (EarlyStop.Logs float) :=
  [logs64 8 8; logs64 4 4; logs64 2 2; logs64 1 1].

(** six epochs, the validation loss reaching zero at the fourth *)
Definition zero_loss_epochs : list (EarlyStop.Logs float) :=
  [logs64 8 4; logs64 7 2; logs64 6 1; logs64 5 0; logs64 4 0.5; logs64 3 1].

(** six epochs of falling losses *)
Definition steady_epochs64 : list (EarlyStop.Logs float) :=
  [logs64 8 6; logs64 7 5; logs64 6 4; logs64 5 3; logs64 4 2; logs64 3 1].

(** eight epochs, the validation loss turning up after the fifth and
    jumping at the eighth *)
Definition rising_epochs64 : list (EarlyStop.Logs float) :=
  [logs64 8 6; logs64 7 5; logs64 6 4; logs64 5 3;
   logs64 4 2; logs64 3 2.5; logs64 2 2.25; logs64 1 8].

(** ** Sample runs on the rationals *)

Definition logsQ (loss val_loss : Q) : EarlyStop.Logs Q :=
  {| EarlyStop.loss := loss; EarlyStop.val_acc := 1 # 2;
     EarlyStop.val_loss := val_loss |}.

(** eight epochs, the validation loss turning up after the fifth and
    jumping at the eighth *)
Definition rising_epochs : list (EarlyStop.Logs Q) :=
  [logsQ 8 6; logsQ 7 5; logsQ 6 4; logsQ 5 3;
   logsQ 4 2; logsQ 3 (5 # 2); logsQ 2 (9 # 4); logsQ 1 8].

(** ** A sample environment for the model wrapper

    Weights are a count of optimiser passes; every epoch logs the same
    losses; no directory exists and every file can be opened. *)

Definition sample_config : Config.t := {|
  Config.input_height := 27;
  Config.input_width := 27;
  Config.input_channels := 3;
  Config.num_classes := 4;
  Config.verbose := true;
  Config.log_file := "";
  Config.bayesian := true;
  Config.learning_rate := 1%float;
  Config.rho := 0.5%float;
  Config.epsilon := 0.0625%float;
  Config.decay := 0%float;
  Config.model_tuning := true;
  Config.mode := "active";
  Config.model_path := "Models";
  Config.data_dir := "Data";
  Config.batch_size := 32;
  Config.max_epochs := 3;
  Config.min_epochs := 10;
  Config.batch_epochs := 5;
  Config.training_threshold := 1%float
|}.

Definition sample_initialise (seed : nat) (ls : list Model.layer) : nat := seed.

Definition sample_run_epoch (config : Config.t) (m : Model.Sequential nat)
    (data : unit) (epoch : Z) : nat * EarlyStop.Logs float :=
  (S (Model.weights m), logs64 1 1).

Definition sample_keras_model (weights : nat) : Model.Sequential nat := {|
  Model.layers := Model.create_layers sample_config;
  Model.optimizer := Model.create_optimiser sample_config;
  Model.loss_fn := "categorical_crossentropy";
  Model.metrics := ["accuracy"];
  Model.weights := weights;
  Model.stop_training := false
|}.

(** a model that has seen seven passes *)
Definition sample_model : Model.t nat := {|
  Model.input_shape := [27; 27; 3];
  Model.num_classes := 4;
  Model.verbose := true;
  Model.config := sample_config;
  Model.model := sample_keras_model 7
|}.

Definition sample_world : Model.World nat := {|
  Model.isdir := fun _ => false;
  Model.can_open := fun _ => true;
  Model.files := ∅;
  Model.checkpoints := ∅;
  Model.rng := 0;
  Model.trace := []
|}.

(** what three more epochs leave *)
Definition sample_fitted : Model.Sequential nat * list (EarlyStop.Logs float) :=
  (sample_keras_model 10, [logs64 1 1; logs64 1 1; logs64 1 1]).

Definition sample_after_fit : Model.World nat :=
  fst (Model.fit_generator sample_run_epoch sample_config
         (Model.model sample_model) tt sample_world).

(** ** Binary64 read as integers

    The kernel specifies the operations of [PrimFloat.float] through
    [SpecFloat]: [Prim2SF] gives a float's sign, mantissa and exponent,
    and each operation is the matching [SpecFloat] function on those. To
    compare two floats as numbers, a finite float [m * 2^e] is read as
    the integer [m * 2^(e + 1074)] (the least exponent of the format is
    -1074), an infinity as a power of two beyond every finite value. *)

Definition val (m : positive) (e : Z) : Z := Zpos m * 2 ^ (e + 1074).
Arguments val : simpl never.

Definition big : Z := 2 ^ 2100.
Arguments big : simpl never.

Definition SF2Z (x : spec_float) : Z :=
  match x with
  | S754_zero _ => 0
  | S754_nan => 0
  | S754_infinity s => if s then - big else big
  | S754_finite s m e => if s then - val m e else val m e
  end.

Definition SFis_nan (x : spec_float) : bool :=
  match x with
  | S754_nan => true
  | _ => false
  end.

Definition Fnan (x : float) : bool := SFis_nan (Prim2SF x).
Definition F2Z (x : float) : Z := SF2Z (Prim2SF x).

(** The constants of lines 141-143 that the sign arguments meet. *)
Definition SF64one : spec_float := S754_finite false 4503599627370496 (-52).
Definition SF64hundred : spec_float := S754_finite false 7036874417766400 (-46).

(** A float is positive: it is a positive finite value or plus infinity. *)
Definition SFpositive (x : spec_float) : Prop :=
  (exists m e, x = S754_finite false m e) \/ x = S754_infinity false.

(** [shr] after [k >= 1] steps from [(m, r0, s0)]: the mantissa is
    [m / 2^k], the round bit is bit [k-1] of [m], the sticky bit tells
    whether anything below it was set. *)
Definition shifted (m : Z) (r0 s0 : bool) (k : nat) (mrs : shr_record) : Prop :=
  shr_m mrs = m / 2 ^ Z.of_nat k /\
  shr_r mrs = Z.odd (m / 2 ^ (Z.of_nat k - 1)) /\
  shr_s mrs = r0 || s0 || negb (m mod 2 ^ (Z.of_nat k - 1) =? 0).

(** The number of bits one stage of [binary_round_aux] drops. *)
Definition stage_shift (m e : Z) : Z :=
  Z.max (fexp prec emax (Zdigits2 m + e) - e) 0.

Definition inexact (l : location) : bool :=
  match l with
  | loc_Exact => false
  | loc_Inexact _ => true
  end.

(** The exponent [SFdiv_core_binary] gives the integer quotient. *)
Definition div_exponent (mx my : positive) (ex ey : Z) : Z :=
  Z.min (fexp prec emax (Zdigits2 (Zpos mx) + ex - (Zdigits2 (Zpos my) + ey))) (ex - ey).

(** ** Notions used by the further results *)

(** An action that leaves every file but [keep] as it was. *)
Definition writes_only {Weights A : Type} (keep : string)
    (m : Model.M Weights A) : Prop :=
  forall w path, path <> keep ->
    Model.files (fst (m w)) !! path = Model.files w !! path.

(** What [log] prints for a message. *)
Definition printed {Weights : Type} (config : Config.t) (m : Model.message)
    : list (Model.event Weights) :=
  if Config.verbose config then [Model.Printed m] else [].

(** The line of line 137 for the [i]-th epoch of a fit that starts at
    [epoch]. *)
Definition epoch_line (epoch : Z) (i : nat) (logs : EarlyStop.Logs float)
    : Model.chunk :=
  Model.Text (Model.Line (EarlyStop.Message (epoch + Z.of_nat i + 1) logs)).

Definition is_conv (l : Model.layer) : bool :=
  match l with
  | Model.Conv2D _ _ _ _ => true
  | _ => false
  end.

(** The message of line 28. *)
Definition created : Model.message :=
  Model.Str ("Model has been created" +:+ Model.newline).

Definition is_softmax (l : Model.layer) : bool :=
  match l with
  | Model.Conv2D _ _ Model.softmax _ => true
  | Model.Dense _ Model.softmax => true
  | _ => false
  end.

(** The layers that are not [AlwaysDropout] layers. *)
Definition without_dropout (ls : list Model.layer) : list Model.layer :=
  filter (fun l => Model.is_always_dropout l = false) ls.

Definition is_pool (l : Model.layer) : bool :=
  match l with
  | Model.MaxPool2D => true
  | _ => false
  end.

(** ** Further sample runs *)

(** The sample configuration with another log file, flags and epoch
    settings. *)
Definition sample_config_with (log_file : string) (verbose bayesian : bool)
    (min_epochs batch_epochs max_epochs : Z) : Config.t := {|
  Config.input_height := 27;
  Config.input_width := 27;
  Config.input_channels := 3;
  Config.num_classes := 4;
  Config.verbose := verbose;
  Config.log_file := log_file;
  Config.bayesian := bayesian;
  Config.learning_rate := 0.5%float;
  Config.rho := 0.5%float;
  Config.epsilon := 0.0625%float;
  Config.decay := 0%float;
  Config.model_tuning := true;
  Config.mode := "active";
  Config.model_path := "Models";
  Config.data_dir := "Data";
  Config.batch_size := 32;
  Config.max_epochs := max_epochs;
  Config.min_epochs := min_epochs;
  Config.batch_epochs := batch_epochs;
  Config.training_threshold := 1%float
|}.

(** a quiet run of three epochs that logs to a file *)
Definition logged_config : Config.t := sample_config_with "train.log" false false 10 5 3.

(** interval 2 from the first epoch on, three epochs *)
Definition boundary_config : Config.t := sample_config_with "" true true 0 2 3.

Definition sample_model_with (config : Config.t) : Model.t nat := {|
  Model.input_shape := [27; 27; 3];
  Model.num_classes := 4;
  Model.verbose := Config.verbose config;
  Model.config := config;
  Model.model := sample_keras_model 7
|}.

(** The directory [Models] exists; [checkpoints] says what it holds. *)
Definition tuned_world (checkpoints : gmap string nat) : Model.World nat := {|
  Model.isdir := fun path => String.eqb path "Models";
  Model.can_open := fun _ => true;
  Model.files := ∅;
  Model.checkpoints := checkpoints;
  Model.rng := 0;
  Model.trace := []
|}.

(** six epochs, the validation loss of the sixth not a number *)
Definition diverged_epochs : list (EarlyStop.Logs float) :=
  [logs64 8 6; logs64 7 5; logs64 6 4; logs64 5 3; logs64 4 2; logs64 3 nan].

(** six epochs, the training loss of the fifth not a number *)
Definition unstable_epochs : list (EarlyStop.Logs float) :=
  [logs64 8 6; logs64 7 5; logs64 6 4; logs64 5 3; logs64 nan 2; logs64 3 1].

(** A line the callback writes with [print] (lines 144 and 146), as
    opposed to the message it hands to [log_fn] (line 137). *)
Definition callback_line {F : Type} (l : EarlyStop.line F) : bool :=
  match l with
  | EarlyStop.Message _ _ => false
  | EarlyStop.Progress _ => true
  | EarlyStop.Stopped _ => true
  end.

Definition callback_print {Weights : Type} (e : Model.event Weights) : Prop :=
  match e with
  | Model.Printed (Model.Line l) => callback_line l = true
  | _ => False
  end.

(** An optimiser whose epochs log the items of [script] in turn. *)
Definition scripted_run_epoch (script : list (EarlyStop.Logs float))
    (config : Config.t) (m : Model.Sequential nat) (data : unit) (epoch : Z)
    : nat * EarlyStop.Logs float :=
  (S (Model.weights m), nth (Z.to_nat epoch) script (logs64 1 1)).

(** six silent epochs, evaluated at the sixth *)
Definition silent_config : Config.t := sample_config_with "" false false 5 2 6.

(** No directory [/History]: the history file cannot be opened. *)
Definition rootless_world : Model.World nat := {|
  Model.isdir := fun _ => false;
  Model.can_open := fun path => negb (String.prefix "/History/" path);
  Model.files := ∅;
  Model.checkpoints := ∅;
  Model.rng := 0;
  Model.trace := []
|}.

(** six epochs, the training loss level over the fourth and fifth, the
    validation loss turning up at the sixth *)
Definition flat_epochs : list (EarlyStop.Logs float) :=
  [logs64 8 6; logs64 7 5; logs64 6 4; logs64 5 3; logs64 5 2; logs64 3 4].

(** No file can be opened for writing. *)
Definition readonly_world : Model.World nat := {|
  Model.isdir := fun _ => false;
  Model.can_open := fun _ => false;
  Model.files := ∅;
  Model.checkpoints := ∅;
  Model.rng := 0;
  Model.trace := []
|}.

(** [self.log] as the callback's [log_fn] (line 167). *)
Definition self_log (config : Config.t) (l : EarlyStop.line float)
    : Model.M nat unit :=
  Model.log config (Model.Line l).

(** A dict without the key ['val_loss'], as for a fit without validation
    data. *)
Definition training_only (loss : float) : option (EarlyStop.Dict float) :=
  Some {| EarlyStop.get_loss := Some loss;
          EarlyStop.get_val_acc := None;
          EarlyStop.get_val_loss := None |}.

Definition is_load {Weights : Type} (e : Model.event Weights) : bool :=
  match e with
  | Model.LoadWeights _ => true
  | _ => false
  end.

(** ** The texts of lines 132 and 146 *)

(** [str(n)] on an int: the decimal digits, after a [-] for a negative
    number. *)
Definition str (n : Z) : string := NilZero.string_of_int (Z.to_int n).

Fixpoint zeros (k : nat) : string :=
  match k with
  | O => ""
  | S k' => String "0"%char (zeros k')
  end.

(** [s.zfill(width)]: zeros on the left up to [width] characters, put
    after a leading sign; a string that is long enough is left alone. *)
Definition zfill (s : string) (width : Z) : string :=
  let fill := zeros (Z.to_nat (width - Z.of_nat (String.length s))) in
  match s with
  | String c rest =>
      if Ascii.eqb c "+"%char || Ascii.eqb c "-"%char
      then String c (fill +:+ rest)
      else fill +:+ s
  | EmptyString => fill
  end.

(** line 132: ['Epoch: ' + str(epoch + 1).zfill(4)] *)
Definition epoch_text (epoch : Z) : string := "Epoch: " +:+ zfill (str (epoch + 1)) 4.

(** line 146: ['Stopped at epoch ' + str(epoch + 1)] *)
Definition stopped_text (epoch : Z) : string := "Stopped at epoch " +:+ str (epoch + 1).

(** The digits of a number that is not negative. *)
Definition digits (n : Z) : Decimal.uint :=
  match Z.to_int n with
  | Decimal.Pos d => d
  | Decimal.Neg d => d
  end.

(** * Results *)

(** ** The rationals obey the order laws *)

Lemma Q_lt_iff (x y : Q) : lt x y = true <-> (x < y)%Q.
Proof.
  cbn. rewrite negb_true_iff, <- not_true_iff_false, Qle_bool_iff.
  split; [apply Qnot_le_lt | apply Qlt_not_le].
Qed.

Lemma Q_le_iff (x y : Q) : le x y = true <-> (x <= y)%Q.
Proof.
  unfold le. cbn. rewrite negb_involutive. apply Qle_bool_iff.
Qed.

Lemma Q_is_zero_false (y : Q) : is_zero y = false <-> ~ (y == 0)%Q.
Proof.
  cbn. rewrite <- not_true_iff_false, Qeq_bool_iff. reflexivity.
Qed.

Ltac Q_laws :=
  rewrite ?Q_lt_iff, ?Q_le_iff, ?Q_is_zero_false;
  change (@of_int Q Q_number) with inject_Z;
  change (@quot Q Q_number) with Qdiv;
  change (@sub Q Q_number) with Qminus;
  change (@mul Q Q_number) with Qmult;
  change (inject_Z 0) with 0%Q; change (inject_Z 1) with 1%Q.

#[export] Instance Q_ordered : OrderedNumber Q.
Proof.
  split.
  - intros x y z. Q_laws. intros _. apply Qle_trans.
  - intros x z. Q_laws. apply Qle_trans.
  - intros y. Q_laws. intros Hy Hz. rewrite Hz in Hy. lra.
  - intros x y. Q_laws. intros Hy Hxy.
    apply Qle_shift_div_r; [assumption|]. lra.
  - intros x y. Q_laws. intros Hy Hxy.
    apply Qlt_shift_div_l; [assumption|]. lra.
  - intros x y. Q_laws. intros Hx Hy.
    apply Qle_shift_div_r; [assumption|]. lra.
  - intros r. Q_laws. lra.
  - intros r. Q_laws. lra.
  - intros x. Q_laws. change (inject_Z 100) with 100%Q. lra.
  - intros x. Q_laws. change (inject_Z 100) with 100%Q. lra.
Qed.

(** ** Binary64 obeys the order laws

    Every law of [OrderedNumber] is proved for [PrimFloat.float] from the
    kernel's specification of its operations ([FloatAxioms]): comparisons
    are comparisons of the integers [F2Z], a NaN compares false with
    everything, and division, subtraction and multiplication round the
    exact result to nearest, ties to even, through [binary_round_aux]. *)

Lemma pow2_pos (n : Z) : 0 <= n -> 0 < 2 ^ n.
Proof. intros. apply Z.pow_pos_nonneg; lia. Qed.

Lemma digits2_pos_bounds (p : positive) :
  2 ^ (Zpos (digits2_pos p) - 1) <= Zpos p < 2 ^ Zpos (digits2_pos p).
Proof.
  induction p as [p IH|p IH|]; cbn [digits2_pos].
  - rewrite Pos2Z.inj_succ.
    replace (Z.succ (Zpos (digits2_pos p)) - 1) with (Zpos (digits2_pos p) - 1 + 1) by lia.
    rewrite Z.pow_succ_r by lia.
    assert (0 <= Zpos (digits2_pos p) - 1) by lia.
    rewrite Z.pow_add_r by lia. change (2 ^ 1) with 2. lia.
  - rewrite Pos2Z.inj_succ.
    replace (Z.succ (Zpos (digits2_pos p)) - 1) with (Zpos (digits2_pos p) - 1 + 1) by lia.
    rewrite Z.pow_succ_r by lia.
    rewrite Z.pow_add_r by lia. change (2 ^ 1) with 2. lia.
  - cbn. lia.
Qed.

(** valid finite floats: the exponent and the number of digits *)
Lemma bounded_spec (m : positive) (e : Z) :
  bounded prec emax m e = true ->
  -1074 <= e <= 971 /\ Zpos (digits2_pos m) <= 53 /\
  (Zpos (digits2_pos m) = 53 \/ e = -1074).
Proof.
  unfold bounded, canonical_mantissa, fexp, SpecFloat.emin, prec, emax.
  intros H. apply andb_true_iff in H as [Hc He].
  apply Z.eqb_eq in Hc. apply Z.leb_le in He. lia.
Qed.

Lemma val_pos m e : -1074 <= e -> 0 < val m e.
Proof. intros. unfold val. pose proof (pow2_pos (e + 1074)). nia. Qed.

Lemma val_lt_exp (m1 m2 : positive) (e1 e2 : Z) :
  bounded prec emax m1 e1 = true -> bounded prec emax m2 e2 = true ->
  e1 < e2 -> val m1 e1 < val m2 e2.
Proof.
  intros H1 H2 Hlt.
  apply bounded_spec in H1 as (He1 & Hd1 & _).
  apply bounded_spec in H2 as (He2 & Hd2 & Hn2).
  assert (Hd : Zpos (digits2_pos m2) = 53) by lia.
  unfold val.
  replace (e2 + 1074) with ((e1 + 1074) + (e2 - e1)) by lia.
  rewrite (Z.pow_add_r 2 (e1 + 1074) (e2 - e1)) by lia.
  assert (Hstep : 2 ^ 1 <= 2 ^ (e2 - e1)) by (apply Z.pow_le_mono_r; lia).
  change (2 ^ 1) with 2 in Hstep.
  assert (Hbase : 0 < 2 ^ (e1 + 1074)) by (apply pow2_pos; lia).
  pose proof (digits2_pos_bounds m1) as [_ Hu].
  pose proof (digits2_pos_bounds m2) as [Hl _].
  rewrite Hd in Hl. change (53 - 1) with 52 in Hl.
  assert (Hm1 : Zpos m1 < 2 ^ 53).
  { eapply Z.lt_le_trans; [exact Hu|]. apply Z.pow_le_mono_r; lia. }
  clear Hu He1 He2 Hd1 Hd2 Hn2 Hd Hlt.
  set (a := 2 ^ (e1 + 1074)) in *. set (b := 2 ^ (e2 - e1)) in *.
  set (t := 2 ^ 52) in *.
  assert (Ht : 2 ^ 53 = 2 * t) by reflexivity. rewrite Ht in Hm1.
  clearbody t a b.
  assert (H1 : Zpos m1 * a < 2 * t * a) by (apply Z.mul_lt_mono_pos_r; lia).
  assert (H2 : 2 * t * a <= Zpos m2 * 2 * a) by (apply Z.mul_le_mono_nonneg_r; lia).
  assert (H3 : Zpos m2 * 2 * a <= Zpos m2 * (a * b)).
  { rewrite <- Z.mul_assoc. apply Z.mul_le_mono_nonneg_l; [lia|].
    rewrite (Z.mul_comm a b). apply Z.mul_le_mono_nonneg_r; lia. }
  lia.
Qed.

Lemma compare_cont_Eq (m1 m2 : positive) :
  Pos.compare_cont Eq m1 m2 = (Zpos m1 ?= Zpos m2).
Proof. reflexivity. Qed.

Lemma val_compare (m1 m2 : positive) (e1 e2 : Z) :
  bounded prec emax m1 e1 = true -> bounded prec emax m2 e2 = true ->
  match Z.compare e1 e2 with
  | Lt => Lt
  | Gt => Gt
  | Eq => Pos.compare_cont Eq m1 m2
  end = (val m1 e1 ?= val m2 e2).
Proof.
  intros H1 H2. symmetry.
  destruct (Z.compare_spec e1 e2) as [Heq|Hlt|Hgt].
  - subst e2. rewrite compare_cont_Eq. unfold val.
    pose proof (bounded_spec _ _ H1) as (He & _).
    pose proof (pow2_pos (e1 + 1074)).
    destruct (Z.compare_spec (Zpos m1) (Zpos m2)) as [E|L|G].
    + rewrite E. apply Z.compare_refl.
    + apply Z.compare_lt_iff. nia.
    + apply Z.compare_gt_iff. nia.
  - apply Z.compare_lt_iff. now apply val_lt_exp.
  - apply Z.compare_gt_iff. now apply val_lt_exp.
Qed.

Lemma val_lt_big (m : positive) (e : Z) :
  bounded prec emax m e = true -> val m e < big.
Proof.
  intros H. apply bounded_spec in H as (He & Hd & _).
  pose proof (digits2_pos_bounds m) as [_ Hu].
  assert (Hm : Zpos m < 2 ^ 53).
  { eapply Z.lt_le_trans; [exact Hu|]. apply Z.pow_le_mono_r; lia. }
  assert (Hp : 2 ^ (e + 1074) <= 2 ^ 2045) by (apply Z.pow_le_mono_r; lia).
  assert (Hq : 0 < 2 ^ (e + 1074)) by (apply pow2_pos; lia).
  unfold val, big.
  replace 2100 with (53 + 2 + 2045) by reflexivity.
  rewrite (Z.pow_add_r 2 (53 + 2) 2045), (Z.pow_add_r 2 53 2) by lia.
  set (a := 2 ^ (e + 1074)) in *. set (b := 2 ^ 2045) in *. set (c := 2 ^ 53) in *.
  change (2 ^ 2) with 4. clearbody a b c.
  assert (H1 : Zpos m * a < c * a) by (apply Z.mul_lt_mono_pos_r; lia).
  assert (H2 : c * a <= c * b) by (apply Z.mul_le_mono_nonneg_l; lia).
  nia.
Qed.

Lemma big_pos : 0 < big.
Proof. apply pow2_pos. lia. Qed.

Lemma SFcompare_SF2Z (x y : spec_float) :
  valid_binary x = true -> valid_binary y = true ->
  SFis_nan x = false -> SFis_nan y = false ->
  SFcompare x y = Some (SF2Z x ?= SF2Z y).
Proof.
  pose proof big_pos as Hbig.
  destruct x as [sx|sx| |sx mx ex], y as [sy|sy| |sy my ey];
    try discriminate; intros Hx Hy _ _; cbn [SFcompare SF2Z valid_binary] in *.
  all: try (pose proof (val_lt_big _ _ Hx));
       try (pose proof (val_lt_big _ _ Hy));
       try (pose proof (proj1 (bounded_spec _ _ Hx)));
       try (pose proof (proj1 (bounded_spec _ _ Hy)));
       try (pose proof (val_pos mx ex ltac:(lia)));
       try (pose proof (val_pos my ey ltac:(lia))).
  all: try (destruct sx); try (destruct sy); f_equal; symmetry;
       try (apply Z.compare_eq_iff; lia);
       try (apply Z.compare_lt_iff; lia);
       try (apply Z.compare_gt_iff; lia).
  - rewrite Z.compare_opp, (Z.compare_antisym (val mx ex)),
      <- (val_compare _ _ _ _ Hx Hy).
    destruct (ex ?= ey); reflexivity.
  - rewrite <- (val_compare _ _ _ _ Hx Hy). reflexivity.
Qed.

Lemma ltb_true_iff (x y : float) :
  PrimFloat.ltb x y = true <-> Fnan x = false /\ Fnan y = false /\ F2Z x < F2Z y.
Proof.
  rewrite FloatAxioms.ltb_spec. unfold SFltb, Fnan, F2Z.
  destruct (SFis_nan (Prim2SF x)) eqn:Hx.
  { destruct (Prim2SF x); try discriminate. cbn. split; [discriminate|]. now intros [? _]. }
  destruct (SFis_nan (Prim2SF y)) eqn:Hy.
  { destruct (Prim2SF y); try discriminate.
    destruct (Prim2SF x); cbn; (split; [discriminate|]); now intros (_ & ? & _). }
  rewrite (SFcompare_SF2Z _ _ (Prim2SF_valid x) (Prim2SF_valid y) Hx Hy).
  destruct (Z.compare_spec (SF2Z (Prim2SF x)) (SF2Z (Prim2SF y))) as [E|L|G].
  - split; [discriminate|]. intros (_ & _ & Hlt). lia.
  - split; [intros _; repeat split; exact L|reflexivity].
  - split; [discriminate|]. intros (_ & _ & Hlt). lia.
Qed.

Lemma ltb_false_iff (x y : float) :
  PrimFloat.ltb x y = false <-> Fnan x = true \/ Fnan y = true \/ F2Z y <= F2Z x.
Proof.
  rewrite <- not_true_iff_false, ltb_true_iff.
  destruct (Fnan x), (Fnan y); split; intros H;
    try (left; reflexivity); try (right; left; reflexivity);
    try (intros (? & ? & ?); discriminate).
  - right. right. destruct (Z.le_gt_cases (F2Z y) (F2Z x)) as [Hle|Hgt]; [exact Hle|].
    exfalso. apply H. repeat split. exact Hgt.
  - intros (_ & _ & Hlt). destruct H as [?|[?|Hle]]; try discriminate. lia.
Qed.

Lemma le_iff (x y : float) :
  le x y = true <-> Fnan x = true \/ Fnan y = true \/ F2Z x <= F2Z y.
Proof.
  unfold le. cbn [lt float_number]. rewrite negb_true_iff, ltb_false_iff. tauto.
Qed.

Lemma lt_iff (x y : float) :
  lt x y = true <-> Fnan x = false /\ Fnan y = false /\ F2Z x < F2Z y.
Proof. apply ltb_true_iff. Qed.

Lemma eqb_true_iff (x y : float) :
  PrimFloat.eqb x y = true <-> Fnan x = false /\ Fnan y = false /\ F2Z x = F2Z y.
Proof.
  rewrite FloatAxioms.eqb_spec. unfold SFeqb, Fnan, F2Z.
  destruct (SFis_nan (Prim2SF x)) eqn:Hx.
  { destruct (Prim2SF x); try discriminate. cbn. split; [discriminate|]. now intros [? _]. }
  destruct (SFis_nan (Prim2SF y)) eqn:Hy.
  { destruct (Prim2SF y); try discriminate.
    destruct (Prim2SF x); cbn; (split; [discriminate|]); now intros (_ & ? & _). }
  rewrite (SFcompare_SF2Z _ _ (Prim2SF_valid x) (Prim2SF_valid y) Hx Hy).
  destruct (Z.compare_spec (SF2Z (Prim2SF x)) (SF2Z (Prim2SF y))) as [E|L|G].
  - split; [intros _; repeat split; exact E|reflexivity].
  - split; [discriminate|]. intros (_ & _ & Heq). lia.
  - split; [discriminate|]. intros (_ & _ & Heq). lia.
Qed.

(** The constants of the callback. *)
Lemma Prim2SF_zero : Prim2SF (of_int 0) = S754_zero false.
Proof. reflexivity. Qed.

Lemma Prim2SF_one : Prim2SF (of_int 1) = S754_finite false 4503599627370496 (-52).
Proof. reflexivity. Qed.

Lemma Prim2SF_hundred : Prim2SF (of_int 100) = S754_finite false 7036874417766400 (-46).
Proof. vm_compute. reflexivity. Qed.

Lemma F2Z_zero : F2Z (of_int 0) = 0.
Proof. reflexivity. Qed.

Lemma Fnan_zero : Fnan (of_int 0) = false.
Proof. reflexivity. Qed.

Lemma Fnan_one : Fnan (of_int 1) = false.
Proof. reflexivity. Qed.

Lemma float_le_through_positive (x y z : float) :
  lt (of_int 0) y = true -> le x y = true -> le y z = true -> le x z = true.
Proof.
  rewrite lt_iff, !le_iff. intros (_ & Hy & _) Hxy Hyz.
  destruct Hxy as [?|[?|?]]; [tauto|congruence|].
  destruct Hyz as [?|[?|?]]; [congruence|tauto|].
  right. right. lia.
Qed.

Lemma float_le_through_zero (x z : float) :
  le x (of_int 0) = true -> le (of_int 0) z = true -> le x z = true.
Proof.
  rewrite !le_iff, Fnan_zero. intros Hx Hz.
  destruct Hx as [?|[?|?]]; [tauto|discriminate|].
  destruct Hz as [?|[?|?]]; [discriminate|tauto|].
  right. right. lia.
Qed.

Lemma float_pos_not_zero (y : float) :
  lt (of_int 0) y = true -> is_zero y = false.
Proof.
  rewrite lt_iff. intros (_ & Hy & Hpos).
  cbn [is_zero float_number]. apply not_true_iff_false.
  rewrite eqb_true_iff. intros (_ & _ & Heq).
  change (F2Z 0%float) with 0 in Heq. rewrite F2Z_zero in Hpos. lia.
Qed.

Lemma val_nonneg (m : positive) (e : Z) : 0 <= val m e.
Proof. unfold val. pose proof (Z.pow_nonneg 2 (e + 1074)). nia. Qed.

(** The rounded result carries the sign it is given. *)
Lemma binary_round_aux_sign (s : bool) (m e : Z) (l : location) :
  let r := binary_round_aux prec emax s m e l in
  SFis_nan r = true \/ (if s then SF2Z r <= 0 else 0 <= SF2Z r).
Proof.
  pose proof big_pos as Hbig.
  unfold binary_round_aux.
  destruct (shr_fexp prec emax m e l) as [mrs' e'].
  destruct (shr_fexp prec emax _ e' loc_Exact) as [mrs'' e''].
  destruct (shr_m mrs'') as [|p|p]; cbn.
  - right. destruct s; lia.
  - destruct (e'' <=? _); cbn; right.
    + pose proof (val_nonneg p e''). destruct s; lia.
    + destruct s; lia.
  - left. reflexivity.
Qed.

Lemma SFdiv_nonpos (x y : spec_float) :
  valid_binary x = true -> valid_binary y = true ->
  SFis_nan x = true \/ SF2Z x <= 0 ->
  SFis_nan y = false -> 0 < SF2Z y ->
  SFis_nan (SF64div x y) = true \/ SF2Z (SF64div x y) <= 0.
Proof.
  pose proof big_pos as Hbig.
  intros Vx Vy Hx Hy Hpos. unfold SF64div.
  destruct y as [sy|sy| |sy my ey]; cbn in Hy, Hpos; try discriminate; try lia;
    destruct sy; try lia;
    try (pose proof (val_nonneg my ey); lia).
  - (* y = +inf *)
    destruct x as [sx|sx| |sx mx ex]; cbn; try (left; reflexivity); right; lia.
  - (* y positive finite *)
    destruct x as [sx|sx| |sx mx ex]; cbn in Hx |- *.
    + right. lia.
    + right. destruct sx; cbn in *; [lia|]. destruct Hx as [?|?]; [discriminate|lia].
    + left. reflexivity.
    + destruct sx.
      * destruct (SFdiv_core_binary prec emax (Zpos mx) ex (Zpos my) ey) as [[mz ez] lz].
        apply (binary_round_aux_sign true).
      * exfalso. destruct Hx as [?|Hx]; [discriminate|].
        cbn in Vx. pose proof (val_pos mx ex (proj1 (proj1 (bounded_spec _ _ Vx)))). lia.
Qed.

Lemma SFmul_nonpos (c x : spec_float) :
  valid_binary c = true -> valid_binary x = true ->
  SFis_nan c = false -> 0 < SF2Z c ->
  SFis_nan x = true \/ SF2Z x <= 0 ->
  SFis_nan (SF64mul c x) = true \/ SF2Z (SF64mul c x) <= 0.
Proof.
  pose proof big_pos as Hbig.
  intros Vc Vx Hc Hpos Hx. unfold SF64mul.
  destruct c as [sc|sc| |sc mc ec]; cbn in Hc, Hpos; try discriminate; try lia;
    destruct sc; try lia;
    try (pose proof (val_nonneg mc ec); lia).
  - (* c = +inf *)
    destruct x as [sx|sx| |sx mx ex]; cbn in Hx |- *; try (left; reflexivity); right.
    + destruct sx; cbn in *; [lia|]. destruct Hx as [?|?]; [discriminate|lia].
    + destruct sx; cbn in *; [lia|]. destruct Hx as [?|Hx]; [discriminate|].
      cbn in Vx. pose proof (val_pos mx ex (proj1 (proj1 (bounded_spec _ _ Vx)))). lia.
  - (* c positive finite *)
    destruct x as [sx|sx| |sx mx ex]; cbn in Hx |- *.
    + right. lia.
    + right. destruct sx; cbn in *; [lia|]. destruct Hx as [?|?]; [discriminate|lia].
    + left. reflexivity.
    + destruct sx.
      * apply (binary_round_aux_sign true).
      * exfalso. destruct Hx as [?|Hx]; [discriminate|].
        cbn in Vx. pose proof (val_pos mx ex (proj1 (proj1 (bounded_spec _ _ Vx)))). lia.
Qed.

Lemma float_quot_le_zero (x y : float) :
  le x (of_int 0) = true -> lt (of_int 0) y = true -> le (quot x y) (of_int 0) = true.
Proof.
  rewrite lt_iff, !le_iff, !Fnan_zero, !F2Z_zero. intros Hx (_ & Hy & Hpos).
  cbn [quot float_number]. unfold Fnan, F2Z in *. rewrite div_spec.
  destruct (SFdiv_nonpos (Prim2SF x) (Prim2SF y) (Prim2SF_valid x) (Prim2SF_valid y))
    as [Hn|Hle]; try assumption.
  - destruct Hx as [?|[?|?]]; [left; assumption|discriminate|right; assumption].
  - left. exact Hn.
  - right. right. exact Hle.
Qed.

Lemma float_percent_le_zero (x : float) :
  le x (of_int 0) = true -> le (mul (of_int 100) x) (of_int 0) = true.
Proof.
  rewrite !le_iff, !Fnan_zero, !F2Z_zero. intros Hx.
  cbn [mul float_number]. unfold Fnan, F2Z in *. rewrite mul_spec.
  destruct (SFmul_nonpos (Prim2SF (of_int 100)) (Prim2SF x)
              (Prim2SF_valid _) (Prim2SF_valid x)) as [Hn|Hle].
  - rewrite Prim2SF_hundred. reflexivity.
  - rewrite Prim2SF_hundred. cbn. apply val_pos. lia.
  - destruct Hx as [?|[?|?]]; [left; assumption|discriminate|right; assumption].
  - left. exact Hn.
  - right. right. exact Hle.
Qed.

(** *** Shifting right *)

Lemma shr_1_m (mrs : shr_record) :
  0 <= shr_m mrs -> shr_m (shr_1 mrs) = shr_m mrs / 2 /\ 0 <= shr_m (shr_1 mrs).
Proof.
  destruct mrs as [m r s]. cbn [shr_m]. intros Hm.
  destruct m as [|[p|p|]|p]; cbn [shr_1 shr_m].
  - split; [reflexivity|lia].
  - split; [|lia]. rewrite Pos2Z.inj_xI.
    apply (Z.div_unique_pos _ _ _ 1); lia.
  - split; [|lia]. rewrite Pos2Z.inj_xO.
    apply (Z.div_unique_pos _ _ _ 0); lia.
  - split; [reflexivity|lia].
  - lia.
Qed.

Lemma iter_shr_1_m (p : positive) :
  forall mrs : shr_record,
    0 <= shr_m mrs ->
    shr_m (SpecFloat.iter_pos shr_1 p mrs) = shr_m mrs / 2 ^ Zpos p /\
    0 <= shr_m (SpecFloat.iter_pos shr_1 p mrs).
Proof.
  induction p as [p IH|p IH|]; intros mrs Hm; cbn [SpecFloat.iter_pos].
  - destruct (shr_1_m mrs Hm) as [E1 P1].
    destruct (IH _ P1) as [E2 P2]. destruct (IH _ P2) as [E3 P3].
    split; [|exact P3]. rewrite E3, E2, E1.
    rewrite !Z.div_div by (try apply pow2_pos; lia).
    f_equal. rewrite Pos2Z.inj_xI.
    replace (2 * Zpos p + 1) with (1 + Zpos p + Zpos p) by lia.
    rewrite !Z.pow_add_r by lia. change (2 ^ 1) with 2. lia.
  - destruct (IH _ Hm) as [E2 P2]. destruct (IH _ P2) as [E3 P3].
    split; [|exact P3]. rewrite E3, E2.
    rewrite !Z.div_div by (try apply pow2_pos; lia).
    f_equal. replace (Zpos p~0) with (Zpos p + Zpos p) by lia.
    rewrite Z.pow_add_r by lia. reflexivity.
  - destruct (shr_1_m mrs Hm) as [E1 P1]. split; [|exact P1].
    rewrite E1. reflexivity.
Qed.

(** The mantissa and the exponent after [shr]. *)
Lemma shr_spec (mrs : shr_record) (e n : Z) :
  0 <= shr_m mrs ->
  shr_m (fst (shr mrs e n)) = shr_m mrs / 2 ^ Z.max n 0 /\
  snd (shr mrs e n) = e + Z.max n 0.
Proof.
  intros Hm. destruct n as [|p|p]; cbn [shr fst snd].
  - rewrite Z.div_1_r. split; [reflexivity|lia].
  - rewrite (Z.max_l (Zpos p) 0) by lia.
    split; [apply (iter_shr_1_m p mrs Hm)|reflexivity].
  - change (Z.max (Zneg p) 0) with 0. rewrite Z.div_1_r. split; [reflexivity|lia].
Qed.

Lemma shr_m_record_of_loc (m : Z) (l : location) :
  shr_m (shr_record_of_loc m l) = m.
Proof. destruct l as [|[ | | ]]; reflexivity. Qed.

Lemma shr_fexp_spec (m e : Z) (l : location) :
  0 <= m ->
  let n := Z.max (fexp prec emax (Zdigits2 m + e) - e) 0 in
  shr_m (fst (shr_fexp prec emax m e l)) = m / 2 ^ n /\
  snd (shr_fexp prec emax m e l) = e + n.
Proof.
  intros Hm n. unfold shr_fexp.
  pose proof (shr_spec (shr_record_of_loc m l) e
                (fexp prec emax (Zdigits2 m + e) - e)) as H.
  rewrite shr_m_record_of_loc in H. apply H. exact Hm.
Qed.

Lemma Zdigits2_bounds (m : Z) :
  0 < m -> 2 ^ (Zdigits2 m - 1) <= m < 2 ^ Zdigits2 m /\ 0 < Zdigits2 m.
Proof.
  destruct m as [|p|p]; try lia. intros _. cbn [Zdigits2].
  split; [apply digits2_pos_bounds|lia].
Qed.

Lemma round_nearest_even_bounds (m : Z) (l : location) :
  m <= round_nearest_even m l <= m + 1.
Proof.
  destruct l as [|[ | | ]]; cbn [round_nearest_even]; try lia.
  destruct (Z.even m); lia.
Qed.

Lemma div_pow2_pos (m n : Z) :
  0 < m -> 0 <= n -> n < Zdigits2 m -> 0 < m / 2 ^ n.
Proof.
  intros Hm Hn Hlt. destruct (Zdigits2_bounds m Hm) as [[Hl _] _].
  apply Z.div_str_pos. split; [apply pow2_pos; lia|].
  eapply Z.le_trans; [|exact Hl]. apply Z.pow_le_mono_r; lia.
Qed.

(** A positive mantissa that keeps a digit is rounded to a positive
    value. *)
Lemma binary_round_aux_pos (m e : Z) (l : location) :
  0 < m ->
  fexp prec emax (Zdigits2 m + e) - e < Zdigits2 m ->
  (exists m' e', binary_round_aux prec emax false m e l = S754_finite false m' e') \/
  binary_round_aux prec emax false m e l = S754_infinity false.
Proof.
  intros Hm Hkeep. unfold binary_round_aux.
  pose proof (shr_fexp_spec m e l ltac:(lia)) as [Hm1 He1]. cbv zeta in Hm1, He1.
  destruct (shr_fexp prec emax m e l) as [mrs' e']. cbn [fst snd] in Hm1, He1.
  set (n1 := Z.max (fexp prec emax (Zdigits2 m + e) - e) 0) in *.
  assert (Hpos1 : 0 < shr_m mrs').
  { rewrite Hm1. destruct (Zdigits2_bounds m Hm) as [_ Hd].
    apply div_pow2_pos; unfold n1; lia. }
  set (m2 := round_nearest_even (shr_m mrs') (loc_of_shr_record mrs')).
  assert (Hpos2 : 0 < m2).
  { pose proof (round_nearest_even_bounds (shr_m mrs') (loc_of_shr_record mrs')).
    unfold m2. lia. }
  pose proof (shr_fexp_spec m2 e' loc_Exact ltac:(lia)) as [Hm3 He3].
  cbv zeta in Hm3, He3.
  destruct (shr_fexp prec emax m2 e' loc_Exact) as [mrs'' e'']. cbn [fst snd] in Hm3, He3.
  assert (Hfloor : -1074 <= e').
  { rewrite He1. unfold n1, fexp, SpecFloat.emin, prec, emax. lia. }
  assert (Hpos3 : 0 < shr_m mrs'').
  { rewrite Hm3. destruct (Zdigits2_bounds m2 Hpos2) as [_ Hd].
    apply div_pow2_pos; try lia.
    unfold fexp, SpecFloat.emin, prec, emax. lia. }
  destruct (shr_m mrs'') as [|p|p]; try lia.
  destruct (e'' <=? emax - prec); [left; eauto|right; reflexivity].
Qed.

(** *** Aligning exponents *)

Lemma iter_xO (d m : positive) : Zpos (Pos.iter xO m d) = Zpos m * 2 ^ Zpos d.
Proof.
  induction d as [|d IH] using Pos.peano_ind.
  - cbn [Pos.iter]. lia.
  - rewrite Pos.iter_succ, Pos2Z.inj_xO, IH, Pos2Z.inj_succ.
    rewrite Z.pow_succ_r by lia. lia.
Qed.

Lemma shl_align_spec (mx : positive) (ex ex' : Z) :
  snd (shl_align mx ex ex') = Z.min ex ex' /\
  Zpos (fst (shl_align mx ex ex')) = Zpos mx * 2 ^ (ex - Z.min ex ex').
Proof.
  unfold shl_align. destruct (ex' - ex) as [|d|d] eqn:Hd; cbn [fst snd].
  - replace (Z.min ex ex') with ex by lia. rewrite Z.sub_diag. lia.
  - replace (Z.min ex ex') with ex by lia. rewrite Z.sub_diag. lia.
  - replace (Z.min ex ex') with ex' by lia.
    replace (ex - ex') with (Zpos d) by lia. split; [reflexivity|apply iter_xO].
Qed.

Lemma val_align (m : positive) (e ez : Z) :
  -1074 <= ez -> ez <= e ->
  Zpos (fst (shl_align m e ez)) * 2 ^ (ez + 1074) = val m e.
Proof.
  intros Hfloor Hle. destruct (shl_align_spec m e ez) as [_ Hm]. rewrite Hm.
  replace (Z.min e ez) with ez by lia. unfold val.
  replace (e + 1074) with ((e - ez) + (ez + 1074)) by lia.
  rewrite (Z.pow_add_r 2 (e - ez) (ez + 1074)) by lia. lia.
Qed.

Lemma Zdigits2_unique (m d : Z) :
  2 ^ (d - 1) <= m < 2 ^ d -> 0 < d -> Zdigits2 m = d.
Proof.
  intros [Hl Hu] Hd.
  assert (Hm : 0 < m).
  { eapply Z.lt_le_trans; [|exact Hl]. apply pow2_pos. lia. }
  destruct (Zdigits2_bounds m Hm) as [[Hl' Hu'] Hd'].
  assert (H1 : 2 ^ (d - 1) < 2 ^ Zdigits2 m) by lia.
  assert (H2 : 2 ^ (Zdigits2 m - 1) < 2 ^ d) by lia.
  apply Z.pow_lt_mono_r_iff in H1; [|lia|lia].
  apply Z.pow_lt_mono_r_iff in H2; [|lia|lia].
  lia.
Qed.

Lemma Zdigits2_shift (m k : Z) :
  0 < m -> 0 <= k -> Zdigits2 (m * 2 ^ k) = Zdigits2 m + k.
Proof.
  intros Hm Hk. destruct (Zdigits2_bounds m Hm) as [[Hl Hu] Hd].
  apply Zdigits2_unique; [|lia].
  replace (Zdigits2 m + k - 1) with ((Zdigits2 m - 1) + k) by lia.
  rewrite (Z.pow_add_r 2 (Zdigits2 m - 1) k), (Z.pow_add_r 2 (Zdigits2 m) k) by lia.
  pose proof (pow2_pos k Hk). split.
  - apply Z.mul_le_mono_nonneg_r; lia.
  - apply Z.mul_lt_mono_pos_r; lia.
Qed.

Lemma Zdigits2_lower (m k : Z) : 0 <= k -> 2 ^ k <= m -> k < Zdigits2 m.
Proof.
  intros Hk Hle.
  assert (Hm : 0 < m).
  { eapply Z.lt_le_trans; [|exact Hle]. now apply pow2_pos. }
  destruct (Zdigits2_bounds m Hm) as [[_ Hu] Hd].
  assert (H : 2 ^ k < 2 ^ Zdigits2 m) by lia.
  apply Z.pow_lt_mono_r_iff in H; lia.
Qed.

(** Rounding a positive integer at an exponent of the format gives a
    positive value. *)
Lemma binary_round_pos (m : positive) (e : Z) :
  -1074 <= e ->
  (exists m' e', binary_round prec emax false m e = S754_finite false m' e') \/
  binary_round prec emax false m e = S754_infinity false.
Proof.
  intros Hfloor. unfold binary_round.
  destruct (shl_align_spec m e (fexp prec emax (Zpos (digits2_pos m) + e)))
    as [He Hm].
  destruct (shl_align m e _) as [mz ez]. cbn [fst snd] in He, Hm.
  apply binary_round_aux_pos; [lia|].
  change (Zpos (digits2_pos m)) with (Zdigits2 (Zpos m)) in *.
  set (d := Zdigits2 (Zpos m)) in *.
  assert (Hd : 0 < d) by (apply (Zdigits2_bounds (Zpos m)); lia).
  rewrite Hm, Zdigits2_shift by lia. fold d. rewrite He.
  replace (d + (e - Z.min e (fexp prec emax (d + e))) + Z.min e (fexp prec emax (d + e)))
    with (d + e) by lia.
  unfold fexp, SpecFloat.emin, prec, emax. lia.
Qed.

Lemma binary_round_sign (s : bool) (m : positive) (e : Z) :
  let r := binary_round prec emax s m e in
  SFis_nan r = true \/ (if s then SF2Z r <= 0 else 0 <= SF2Z r).
Proof.
  unfold binary_round. destruct (shl_align m e _) as [mz ez].
  apply binary_round_aux_sign.
Qed.

Lemma SF64one_valid : valid_binary SF64one = true.
Proof. reflexivity. Qed.

Lemma SFpositive_spec (x : spec_float) :
  valid_binary x = true -> SFpositive x -> SFis_nan x = false /\ 0 < SF2Z x.
Proof.
  intros Vx [(m & e & ->)| ->]; cbn.
  - split; [reflexivity|]. cbn in Vx. apply val_pos.
    apply (bounded_spec _ _ Vx).
  - split; [reflexivity|apply big_pos].
Qed.

Lemma SFpositive_of (x : spec_float) :
  SFis_nan x = false -> 0 < SF2Z x -> SFpositive x.
Proof.
  pose proof big_pos.
  destruct x as [s|s| |s m e]; cbn; intros Hn Hpos; try discriminate; try lia.
  - destruct s; [lia|]. right. reflexivity.
  - destruct s; [pose proof (val_nonneg m e); lia|]. left. eauto.
Qed.

(** The difference of two aligned finite values, as [SFsub] forms it. *)
Lemma SFsub_finite (mx my : positive) (ex ey : Z) :
  bounded prec emax mx ex = true -> bounded prec emax my ey = true ->
  exists D : Z,
    SF64sub (S754_finite false mx ex) (S754_finite false my ey) =
      binary_normalize prec emax D (Z.min ex ey) false /\
    D * 2 ^ (Z.min ex ey + 1074) = val mx ex - val my ey.
Proof.
  intros Vx Vy.
  pose proof (proj1 (bounded_spec _ _ Vx)) as Hex.
  pose proof (proj1 (bounded_spec _ _ Vy)) as Hey.
  eexists. split; [reflexivity|]. cbn [cond_Zopp].
  rewrite Z.mul_sub_distr_r, !val_align by lia. reflexivity.
Qed.

Lemma SFsub_one_nonpos (r : spec_float) :
  valid_binary r = true ->
  SFis_nan r = true \/ SF2Z r <= SF2Z SF64one ->
  SFis_nan (SF64sub r SF64one) = true \/ SF2Z (SF64sub r SF64one) <= 0.
Proof.
  pose proof big_pos as Hbig.
  pose proof (val_lt_big _ _ SF64one_valid) as Hone.
  intros Vr Hr. destruct r as [s|s| |s m e].
  - right. cbn. pose proof (val_nonneg 4503599627370496 (-52)). lia.
  - right. destruct s; cbn in Hr |- *; [lia|].
    destruct Hr as [?|?]; [discriminate|lia].
  - left. reflexivity.
  - destruct s.
    + (* a negative value less one *)
      unfold SF64sub, SFsub, SF64one. cbn [cond_Zopp].
      match goal with
      | |- context [binary_normalize _ _ ?D ?ez _] =>
          assert (HD : D < 0) by lia; destruct D as [|p|p]; try lia
      end.
      cbn [binary_normalize]. apply (binary_round_sign true).
    + cbn in Vr. unfold SF64one in *.
      destruct (SFsub_finite m 4503599627370496 e (-52) Vr SF64one_valid)
        as (D & -> & HD).
      assert (Hle : val m e <= val 4503599627370496 (-52)).
      { destruct Hr as [?|?]; [discriminate|assumption]. }
      pose proof (proj1 (bounded_spec _ _ Vr)) as He.
      assert (Hp : 0 < 2 ^ (Z.min e (-52) + 1074)) by (apply pow2_pos; lia).
      assert (HD' : D <= 0) by nia.
      destruct D as [|p|p]; try lia; cbn [binary_normalize].
      * right. cbn. lia.
      * apply (binary_round_sign true).
Qed.

Lemma SFsub_one_pos (r : spec_float) :
  valid_binary r = true ->
  SFis_nan r = false -> SF2Z SF64one < SF2Z r ->
  SFpositive (SF64sub r SF64one).
Proof.
  pose proof big_pos as Hbig.
  intros Vr Hn Hr.
  assert (Hone : 0 < SF2Z SF64one) by (apply val_pos; lia).
  destruct (SFpositive_of r Hn ltac:(lia)) as [(m & e & ->)| ->].
  - cbn in Vr. unfold SF64one in *.
    destruct (SFsub_finite m 4503599627370496 e (-52) Vr SF64one_valid)
      as (D & -> & HD).
    cbn [SF2Z] in Hr.
    pose proof (proj1 (bounded_spec _ _ Vr)) as He.
    assert (Hp : 0 < 2 ^ (Z.min e (-52) + 1074)) by (apply pow2_pos; lia).
    assert (HD' : 0 < D) by nia.
    destruct D as [|p|p]; try lia. cbn [binary_normalize].
    apply binary_round_pos. lia.
  - right. reflexivity.
Qed.

Lemma SFmul_hundred_pos (x : spec_float) :
  valid_binary x = true -> SFpositive x -> SFpositive (SF64mul SF64hundred x).
Proof.
  intros Vx [(m & e & ->)| ->]; [|right; reflexivity].
  cbn in Vx. pose proof (proj1 (bounded_spec _ _ Vx)) as He.
  unfold SF64mul, SFmul, SF64hundred. cbn [xorb].
  apply binary_round_aux_pos; [lia|].
  assert (Hd : 52 < Zdigits2 (Zpos (7036874417766400 * m))).
  { apply Zdigits2_lower; [lia|]. rewrite Pos2Z.inj_mul.
    assert (2 ^ 52 <= 7036874417766400) by (vm_compute; discriminate).
    nia. }
  unfold fexp, SpecFloat.emin, prec, emax. lia.
Qed.

(** *** Subtracting one and taking a hundredfold, on floats *)

Lemma Fpositive (x : float) :
  lt (of_int 0) x = true <-> SFpositive (Prim2SF x).
Proof.
  rewrite lt_iff, Fnan_zero, F2Z_zero. unfold Fnan, F2Z. split.
  - intros (_ & Hn & Hpos). now apply SFpositive_of.
  - intros Hp. destruct (SFpositive_spec _ (Prim2SF_valid x) Hp). tauto.
Qed.

Lemma F2Z_one : F2Z (of_int 1) = SF2Z SF64one.
Proof. reflexivity. Qed.

Lemma float_pred_le_zero (r : float) :
  le r (of_int 1) = true -> le (sub r (of_int 1)) (of_int 0) = true.
Proof.
  rewrite !le_iff, Fnan_zero, Fnan_one, F2Z_zero, F2Z_one. intros Hr.
  cbn [sub float_number]. unfold Fnan, F2Z in *. rewrite sub_spec.
  change (Prim2SF (of_int 1)) with SF64one.
  destruct (SFsub_one_nonpos (Prim2SF r) (Prim2SF_valid r)) as [Hn|Hle].
  - destruct Hr as [?|[?|?]]; [left; assumption|discriminate|right; assumption].
  - left. exact Hn.
  - right. right. exact Hle.
Qed.

Lemma float_pred_gt_zero (r : float) :
  lt (of_int 1) r = true -> lt (of_int 0) (sub r (of_int 1)) = true.
Proof.
  rewrite Fpositive, lt_iff, F2Z_one. intros (_ & Hn & Hr).
  cbn [sub float_number]. rewrite sub_spec.
  change (Prim2SF (of_int 1)) with SF64one.
  now apply SFsub_one_pos; [apply Prim2SF_valid| |].
Qed.

Lemma float_percent_gt_zero (x : float) :
  lt (of_int 0) x = true -> lt (of_int 0) (mul (of_int 100) x) = true.
Proof.
  rewrite !Fpositive. intros Hx.
  cbn [mul float_number]. rewrite mul_spec, Prim2SF_hundred.
  now apply SFmul_hundred_pos; [apply Prim2SF_valid|].
Qed.

(** *** The bits [shr] keeps *)

Lemma iter_pos_nat {A} (f : A -> A) (p : positive) :
  forall x, SpecFloat.iter_pos f p x = Nat.iter (Pos.to_nat p) f x.
Proof.
  induction p as [p IH|p IH|]; intros x; cbn [SpecFloat.iter_pos].
  - rewrite !IH, Pos2Nat.inj_xI.
    replace (S (2 * Pos.to_nat p)) with (Pos.to_nat p + (Pos.to_nat p + 1))%nat by lia.
    rewrite !Nat.iter_add. reflexivity.
  - rewrite !IH, Pos2Nat.inj_xO.
    replace (2 * Pos.to_nat p)%nat with (Pos.to_nat p + Pos.to_nat p)%nat by lia.
    rewrite Nat.iter_add. reflexivity.
  - reflexivity.
Qed.

Lemma shr_1_record (m : Z) (r s : bool) :
  0 <= m -> shr_1 (Build_shr_record m r s) = Build_shr_record (m / 2) (Z.odd m) (r || s).
Proof.
  intros Hm. destruct m as [|[p|p|]|p]; cbn [shr_1]; try lia; try reflexivity.
  - f_equal. rewrite Pos2Z.inj_xI. apply (Z.div_unique_pos _ _ _ 1); lia.
  - f_equal. rewrite Pos2Z.inj_xO. apply (Z.div_unique_pos _ _ _ 0); lia.
Qed.

Lemma shifted_first (m : Z) (r0 s0 : bool) :
  0 <= m -> shifted m r0 s0 1 (shr_1 (Build_shr_record m r0 s0)).
Proof.
  intros Hm. rewrite shr_1_record by exact Hm. unfold shifted. cbn [shr_m shr_r shr_s].
  change (Z.of_nat 1 - 1) with 0. change (2 ^ Z.of_nat 1) with 2. change (2 ^ 0) with 1.
  rewrite Z.div_1_r, Z.mod_1_r. cbn. rewrite orb_false_r. repeat split.
Qed.

Lemma mod_pow2_succ (m k : Z) :
  0 <= m -> 0 <= k ->
  m mod 2 ^ (k + 1) = m mod 2 ^ k + (if Z.odd (m / 2 ^ k) then 2 ^ k else 0).
Proof.
  intros Hm Hk. pose proof (pow2_pos k Hk) as Hp.
  rewrite Z.pow_add_r by lia. change (2 ^ 1) with 2.
  rewrite Z.rem_mul_r by lia.
  rewrite (Zmod_odd (m / 2 ^ k)). destruct (Z.odd _); lia.
Qed.

Lemma shifted_step (m : Z) (r0 s0 : bool) (k : nat) (mrs : shr_record) :
  0 <= m -> (1 <= k)%nat ->
  shifted m r0 s0 k mrs -> shifted m r0 s0 (S k) (shr_1 mrs).
Proof.
  intros Hm Hk (Em & Er & Es). destruct mrs as [mk rk sk]. cbn [shr_m shr_r shr_s] in *.
  assert (Hmk : 0 <= mk).
  { rewrite Em. apply Z.div_pos; [lia|]. apply pow2_pos. lia. }
  rewrite shr_1_record by exact Hmk. unfold shifted. cbn [shr_m shr_r shr_s].
  replace (Z.of_nat (S k) - 1) with (Z.of_nat k) by lia.
  replace (Z.of_nat (S k)) with (Z.of_nat k + 1) by lia.
  split; [|split].
  - rewrite Em, Z.div_div by (try apply pow2_pos; lia).
    rewrite Z.pow_add_r by lia. reflexivity.
  - now rewrite Em.
  - rewrite Er, Es.
    replace (Z.of_nat k) with ((Z.of_nat k - 1) + 1) at 3 by lia.
    rewrite mod_pow2_succ by lia.
    assert (Hmod : 0 <= m mod 2 ^ (Z.of_nat k - 1)).
    { apply Z.mod_pos_bound. apply pow2_pos. lia. }
    assert (Hp : 0 < 2 ^ (Z.of_nat k - 1)) by (apply pow2_pos; lia).
    destruct (Z.odd (m / 2 ^ (Z.of_nat k - 1))), r0, s0; cbn;
      try reflexivity;
      destruct (Z.eqb_spec (m mod 2 ^ (Z.of_nat k - 1)) 0) as [E|E]; cbn;
      try reflexivity;
      try (symmetry; apply negb_true_iff, Z.eqb_neq; lia);
      try (symmetry; apply negb_false_iff, Z.eqb_eq; lia).
Qed.

Lemma shifted_iter (m : Z) (r0 s0 : bool) (k : nat) :
  0 <= m ->
  shifted m r0 s0 (S k) (Nat.iter (S k) shr_1 (Build_shr_record m r0 s0)).
Proof.
  intros Hm. induction k as [|k IH].
  - apply shifted_first. exact Hm.
  - change (Nat.iter (S (S k)) shr_1 ?x) with (shr_1 (Nat.iter (S k) shr_1 x)).
    apply shifted_step; [exact Hm|lia|exact IH].
Qed.

Lemma shr_shifted (m : Z) (r0 s0 : bool) (e : Z) (p : positive) :
  0 <= m ->
  shifted m r0 s0 (Pos.to_nat p) (fst (shr (Build_shr_record m r0 s0) e (Zpos p))).
Proof.
  intros Hm. cbn [shr fst]. rewrite iter_pos_nat.
  destruct (Pos2Nat.is_succ p) as [k Hk]. rewrite Hk. now apply shifted_iter.
Qed.

(** *** The two stages of [binary_round_aux] *)

Lemma binary_round_aux_stages (m e : Z) (l : location) :
  0 <= m ->
  let n1 := stage_shift m e in
  let l1 := loc_of_shr_record (fst (shr_fexp prec emax m e l)) in
  let m2 := round_nearest_even (m / 2 ^ n1) l1 in
  let n2 := stage_shift m2 (e + n1) in
  binary_round_aux prec emax false m e l =
    match m2 / 2 ^ n2 with
    | Z0 => S754_zero false
    | Zpos p =>
        if e + n1 + n2 <=? emax - prec then S754_finite false p (e + n1 + n2)
        else S754_infinity false
    | Zneg _ => S754_nan
    end.
Proof.
  intros Hm. cbv zeta. unfold binary_round_aux, stage_shift.
  pose proof (shr_fexp_spec m e l Hm) as [Hm1 He1]. cbv zeta in Hm1, He1.
  destruct (shr_fexp prec emax m e l) as [mrs' e']. cbn [fst snd] in *.
  rewrite <- Hm1, <- He1.
  set (m2 := round_nearest_even (shr_m mrs') (loc_of_shr_record mrs')).
  assert (Hm2 : 0 <= m2).
  { pose proof (round_nearest_even_bounds (shr_m mrs') (loc_of_shr_record mrs')).
    assert (0 <= shr_m mrs'); [|unfold m2; lia].
    rewrite Hm1. apply Z.div_pos; [lia|]. apply pow2_pos. lia. }
  pose proof (shr_fexp_spec m2 e' loc_Exact Hm2) as [Hm3 He3]. cbv zeta in Hm3, He3.
  destruct (shr_fexp prec emax m2 e' loc_Exact) as [mrs'' e'']. cbn [fst snd] in *.
  rewrite <- Hm3, <- He3. reflexivity.
Qed.

Lemma loc_of_record_of_loc (m : Z) (l : location) :
  loc_of_shr_record (shr_record_of_loc m l) = l.
Proof. destruct l as [|[]]; reflexivity. Qed.

Lemma shr_fexp_loc (m e : Z) (l : location) :
  0 <= m ->
  let n := fexp prec emax (Zdigits2 m + e) - e in
  let mrs := fst (shr_fexp prec emax m e l) in
  (n <= 0 -> loc_of_shr_record mrs = l) /\
  (0 < n ->
   shr_r mrs = Z.odd (m / 2 ^ (n - 1)) /\
   shr_s mrs = inexact l || negb (m mod 2 ^ (n - 1) =? 0)).
Proof.
  intros Hm. cbv zeta. unfold shr_fexp.
  destruct (fexp prec emax (Zdigits2 m + e) - e) as [|p|p] eqn:En.
  - split; [intros _|lia]. cbn [shr fst]. apply loc_of_record_of_loc.
  - split; [lia|intros _].
    assert (Hrec : exists r0 s0, shr_record_of_loc m l = Build_shr_record m r0 s0 /\
                                 r0 || s0 = inexact l).
    { destruct l as [|[]]; cbn; eauto. }
    destruct Hrec as (r0 & s0 & -> & <-).
    pose proof (shr_shifted m r0 s0 e p Hm) as (_ & Hr & Hs).
    rewrite positive_nat_Z in Hr, Hs. split; assumption.
  - split; [intros _|lia]. cbn [shr fst]. apply loc_of_record_of_loc.
Qed.

(** *** The integer quotient behind [SFdiv] *)

Lemma new_location_exact (nb : Z) : new_location nb 0 = loc_Exact.
Proof.
  unfold new_location. destruct (Z.even nb); unfold new_location_even, new_location_odd;
    reflexivity.
Qed.

Lemma new_location_inexact (nb k : Z) : k <> 0 -> inexact (new_location nb k) = true.
Proof.
  intros Hk. apply Z.eqb_neq in Hk.
  unfold new_location. destruct (Z.even nb); unfold new_location_even, new_location_odd;
    rewrite Hk; reflexivity.
Qed.

Lemma new_location_above (nb k : Z) :
  nb < 2 * k -> 0 < k -> new_location nb k = loc_Inexact Gt.
Proof.
  intros Hhalf Hk.
  assert (E : (k =? 0) = false) by (apply Z.eqb_neq; lia).
  unfold new_location. destruct (Z.even nb); unfold new_location_even, new_location_odd;
    rewrite E.
  - f_equal. apply Z.compare_gt_iff. lia.
  - assert (C : Z.compare (2 * k + 1) nb = Gt) by (apply Z.compare_gt_iff; lia).
    now rewrite C.
Qed.

Lemma SFdiv_core_spec (mx my : positive) (ex ey : Z) :
  let e' := div_exponent mx my ex ey in
  exists q rem : Z,
    SFdiv_core_binary prec emax (Zpos mx) ex (Zpos my) ey =
      (q, e', new_location (Zpos my) rem) /\
    Zpos mx * 2 ^ (ex - ey - e') = Zpos my * q + rem /\
    0 <= rem < Zpos my /\ 0 <= q.
Proof.
  cbv zeta. unfold SFdiv_core_binary. fold (div_exponent mx my ex ey).
  set (e' := div_exponent mx my ex ey).
  assert (Hs : 0 <= ex - ey - e') by (unfold e', div_exponent; lia).
  set (m' := match ex - ey - e' with
             | 0 => Zpos mx
             | Zpos _ => Z.shiftl (Zpos mx) (ex - ey - e')
             | Zneg _ => 0
             end).
  assert (Hm' : m' = Zpos mx * 2 ^ (ex - ey - e')).
  { unfold m'. destruct (ex - ey - e') as [|p|p] eqn:Es; try lia.
    rewrite Z.shiftl_mul_pow2 by lia. reflexivity. }
  pose proof (Z_div_mod m' (Zpos my) ltac:(lia)) as Hdiv.
  destruct (Z.div_eucl m' (Zpos my)) as [q rem]. destruct Hdiv as [Hq Hrem].
  exists q, rem. split; [reflexivity|]. split; [lia|]. split; [lia|].
  assert (0 <= m') by (rewrite Hm'; pose proof (pow2_pos _ Hs); nia).
  nia.
Qed.

(** *** Magnitude and number of digits *)

Lemma pow2_le (a b : Z) : 0 <= a -> a <= b -> 2 ^ a <= 2 ^ b.
Proof. intros. apply Z.pow_le_mono_r; lia. Qed.

Lemma pow2_lt (a b : Z) : 0 <= a -> a < b -> 2 ^ a < 2 ^ b.
Proof. intros. apply Z.pow_lt_mono_r; lia. Qed.

Lemma pow2_split (a b : Z) : 0 <= a -> 0 <= b -> 2 ^ (a + b) = 2 ^ a * 2 ^ b.
Proof. intros. apply Z.pow_add_r; lia. Qed.

Lemma val_digits_le (m1 m2 : positive) (e1 e2 : Z) :
  -1074 <= e1 -> -1074 <= e2 ->
  val m1 e1 <= val m2 e2 ->
  Zpos (digits2_pos m1) + e1 <= Zpos (digits2_pos m2) + e2.
Proof.
  intros H1 H2 Hle. unfold val in Hle.
  pose proof (digits2_pos_bounds m1) as [L1 _].
  pose proof (digits2_pos_bounds m2) as [_ U2].
  destruct (Z_le_gt_dec (Zpos (digits2_pos m1) + e1) (Zpos (digits2_pos m2) + e2))
    as [?|Hgt]; [assumption|exfalso].
  assert (A : 2 ^ (Zpos (digits2_pos m2) + (e2 + 1074)) <=
              2 ^ ((Zpos (digits2_pos m1) - 1) + (e1 + 1074))) by (apply pow2_le; lia).
  rewrite (pow2_split (Zpos (digits2_pos m2)) (e2 + 1074)) in A by lia.
  rewrite (pow2_split (Zpos (digits2_pos m1) - 1) (e1 + 1074)) in A by lia.
  pose proof (pow2_pos (e1 + 1074) ltac:(lia)) as P1.
  pose proof (pow2_pos (e2 + 1074) ltac:(lia)) as P2.
  assert (B : Zpos m2 * 2 ^ (e2 + 1074) < 2 ^ Zpos (digits2_pos m2) * 2 ^ (e2 + 1074)).
  { apply Z.mul_lt_mono_pos_r; assumption. }
  assert (C : 2 ^ (Zpos (digits2_pos m1) - 1) * 2 ^ (e1 + 1074) <= Zpos m1 * 2 ^ (e1 + 1074)).
  { apply Z.mul_le_mono_nonneg_r; lia. }
  lia.
Qed.

Lemma Zdigits2_upper (m k : Z) : 0 <= k -> 0 <= m -> m <= 2 ^ k -> Zdigits2 m <= k + 1.
Proof.
  intros Hk Hm Hle. destruct (Z.eq_dec m 0) as [->|Hz]; [cbn; lia|].
  destruct (Zdigits2_bounds m ltac:(lia)) as [[L _] Hd].
  destruct (Z_le_gt_dec (Zdigits2 m) (k + 1)) as [?|Hgt]; [assumption|exfalso].
  assert (2 ^ k < 2 ^ (Zdigits2 m - 1)) by (apply pow2_lt; lia). lia.
Qed.

Lemma Zdigits2_pos (p : positive) : Zdigits2 (Zpos p) = Zpos (digits2_pos p).
Proof. reflexivity. Qed.

(** *** A quotient of at most one rounds to at most one *)

Lemma SF2Z_one : SF2Z SF64one = 2 ^ 1074.
Proof. unfold SF64one, SF2Z, val. change 4503599627370496 with (2 ^ 52). 
  change (-52 + 1074) with 1022. rewrite <- (pow2_split 52 1022) by lia. reflexivity. Qed.

(** Scaling the two values to the quotient's exponent. *)
Lemma div_scaled (mx my : positive) (ex ey e' : Z) :
  -1074 <= ex -> -1074 <= ey -> e' <= 0 -> e' <= ex - ey ->
  Zpos mx * 2 ^ (ex - ey - e') * 2 ^ (ey + 1074) = val mx ex * 2 ^ (- e').
Proof.
  intros Hx Hy He Hs. unfold val.
  rewrite <- !Z.mul_assoc. f_equal.
  rewrite <- !pow2_split by lia. f_equal. lia.
Qed.

Lemma round_le_one (q e' : Z) (lz : location) :
  0 <= q -> e' <= -53 -> q <= 2 ^ (- e') ->
  (q = 2 ^ (- e') -> lz = loc_Exact) ->
  SF2Z (binary_round_aux prec emax false q e' lz) <= 2 ^ 1074.
Proof.
  intros Hq He Hle Hexact.
  rewrite (binary_round_aux_stages q e' lz Hq). cbv zeta.
  set (n1 := stage_shift q e').
  set (l1 := loc_of_shr_record (fst (shr_fexp prec emax q e' lz))).
  set (m1 := q / 2 ^ n1).
  set (m2 := round_nearest_even m1 l1).
  set (n2 := stage_shift m2 (e' + n1)).
  pose proof (Zdigits2_upper q (- e') ltac:(lia) Hq Hle) as Hdq.
  assert (Hn1 : 0 <= n1) by (unfold n1, stage_shift; lia).
  assert (HE : -1074 <= e' + n1 <= -52).
  { unfold n1, stage_shift, fexp, SpecFloat.emin, prec, emax. lia. }
  pose proof (pow2_pos n1 Hn1) as Pn1.
  assert (HT : 2 ^ (- e') = 2 ^ (- (e' + n1)) * 2 ^ n1).
  { rewrite <- pow2_split by lia. f_equal. lia. }
  assert (Hm1 : 0 <= m1 <= 2 ^ (- (e' + n1))).
  { split; [apply Z.div_pos; lia|].
    apply Z.div_le_upper_bound; [lia|]. rewrite Z.mul_comm. lia. }
  assert (Hm2 : 0 <= m2 <= 2 ^ (- (e' + n1))).
  { pose proof (round_nearest_even_bounds m1 l1) as Hr. fold m2 in Hr.
    split; [lia|].
    destruct (Z.eq_dec m1 (2 ^ (- (e' + n1)))) as [Htop|Hlow]; [|lia].
    assert (Hqtop : q = 2 ^ (- e')).
    { pose proof (Z.mul_div_le q (2 ^ n1) Pn1) as Hfloor. fold m1 in Hfloor.
      rewrite Htop, Z.mul_comm, <- HT in Hfloor. lia. }
    assert (Hl1 : l1 = loc_Exact).
    { pose proof (shr_fexp_loc q e' lz Hq) as Hloc. cbv zeta in Hloc.
      unfold l1. revert Hloc. generalize (fst (shr_fexp prec emax q e' lz)).
      intros mrs [Hzero Hpos].
      destruct (Z_le_gt_dec (fexp prec emax (Zdigits2 q + e') - e') 0) as [Hn|Hn].
      - rewrite (Hzero Hn). apply Hexact, Hqtop.
      - destruct (Hpos ltac:(lia)) as [Hr' Hs'].
        assert (En : fexp prec emax (Zdigits2 q + e') - e' = n1).
        { unfold n1, stage_shift. lia. }
        rewrite En in Hr', Hs'.
        assert (Hq2 : q = 2 ^ (- (e' + n1)) * 2 * 2 ^ (n1 - 1)).
        { assert (Hw : 2 ^ n1 = 2 * 2 ^ (n1 - 1)).
          { rewrite <- (Z.pow_succ_r 2 (n1 - 1)) by lia. f_equal. lia. }
          rewrite Hqtop, HT, Hw. ring. }
        pose proof (pow2_pos (n1 - 1) ltac:(lia)) as Ph.
        assert (Hdivq : q / 2 ^ (n1 - 1) = 2 ^ (- (e' + n1)) * 2).
        { rewrite Hq2 at 1. apply Z.div_mul. lia. }
        assert (Hmodq : q mod 2 ^ (n1 - 1) = 0).
        { rewrite Hq2 at 1. apply Z.mod_mul. lia. }
        rewrite Hdivq in Hr'. rewrite Hmodq, (Hexact Hqtop) in Hs'. cbn in Hs'.
        rewrite Z.odd_mul in Hr'. change (Z.odd 2) with false in Hr'.
        rewrite Bool.andb_false_r in Hr'.
        destruct mrs as [m0 r0 s0]. cbn in Hr', Hs'. subst r0 s0. reflexivity. }
    unfold m2. rewrite Hl1. cbn. lia. }
  assert (Hn2 : 0 <= n2) by (unfold n2, stage_shift; lia).
  pose proof (Zdigits2_upper m2 (- (e' + n1)) ltac:(lia) (proj1 Hm2) (proj2 Hm2)) as Hd2.
  assert (He'' : -1074 <= e' + n1 + n2 <= -52).
  { unfold n2, stage_shift, fexp, SpecFloat.emin, prec, emax. lia. }
  pose proof (pow2_pos n2 Hn2) as Pn2.
  assert (Hm3 : 0 <= m2 / 2 ^ n2) by (apply Z.div_pos; lia).
  pose proof (Z.mul_div_le m2 (2 ^ n2) Pn2) as Hfloor3.
  destruct (m2 / 2 ^ n2) as [|p|p] eqn:E3; try lia.
  - cbn. apply Z.lt_le_incl, pow2_pos. lia.
  - assert (Hfin : (e' + n1 + n2 <=? emax - prec) = true).
    { apply Z.leb_le. unfold emax, prec. lia. }
    rewrite Hfin. cbn [SF2Z]. unfold val.
    replace (e' + n1 + n2 + 1074) with (n2 + (e' + n1 + 1074)) by lia.
    rewrite pow2_split by lia.
    pose proof (pow2_pos (e' + n1 + 1074) ltac:(lia)) as PE.
    assert (A : Zpos p * (2 ^ n2 * 2 ^ (e' + n1 + 1074)) <= m2 * 2 ^ (e' + n1 + 1074)).
    { rewrite Z.mul_assoc. apply Z.mul_le_mono_nonneg_r; lia. }
    assert (B : m2 * 2 ^ (e' + n1 + 1074) <=
                2 ^ (- (e' + n1)) * 2 ^ (e' + n1 + 1074)).
    { apply Z.mul_le_mono_nonneg_r; lia. }
    rewrite <- pow2_split in B by lia.
    replace (- (e' + n1) + (e' + n1 + 1074)) with 1074 in B by lia. lia.
Qed.

Lemma SFdiv_le_one (mx my : positive) (ex ey : Z) :
  bounded prec emax mx ex = true -> bounded prec emax my ey = true ->
  val mx ex <= val my ey ->
  SF2Z (SF64div (S754_finite false mx ex) (S754_finite false my ey)) <= SF2Z SF64one.
Proof.
  intros Bx By Hle. rewrite SF2Z_one.
  destruct (bounded_spec _ _ Bx) as ((Hex & _) & _).
  destruct (bounded_spec _ _ By) as ((Hey & _) & _).
  unfold SF64div, SFdiv. cbn [xorb].
  destruct (SFdiv_core_spec mx my ex ey) as (q & rem & -> & Hdiv & Hrem & Hq).
  cbv zeta in Hdiv. set (e' := div_exponent mx my ex ey) in *.
  pose proof (val_digits_le mx my ex ey Hex Hey Hle) as Hd.
  assert (He' : e' <= -53 /\ e' <= ex - ey).
  { unfold e', div_exponent, fexp, SpecFloat.emin, prec, emax. rewrite !Zdigits2_pos. lia. }
  pose proof (div_scaled mx my ex ey e' Hex Hey ltac:(lia) ltac:(lia)) as Hsc.
  pose proof (pow2_pos (ey + 1074) ltac:(lia)) as Py.
  pose proof (pow2_pos (- e') ltac:(lia)) as PT.
  assert (Hm' : Zpos my * q + rem <= Zpos my * 2 ^ (- e')).
  { rewrite <- Hdiv.
    apply (Z.mul_le_mono_pos_r _ _ (2 ^ (ey + 1074)) Py).
    rewrite Hsc.
    replace (Zpos my * 2 ^ (- e') * 2 ^ (ey + 1074))
      with (val my ey * 2 ^ (- e')) by (unfold val; ring).
    apply Z.mul_le_mono_nonneg_r; [lia|exact Hle]. }
  apply round_le_one; try lia.
  - nia.
  - intros Hqtop. rewrite Hqtop in Hm'.
    replace rem with 0 by lia. apply new_location_exact.
Qed.

(** *** A quotient above one rounds to a number above one *)

Lemma big_above_one : 2 ^ 1074 < big.
Proof. unfold big. apply pow2_lt; lia. Qed.

Lemma round_gt_one (q e' : Z) (lz : location) :
  2 ^ 52 <= q -> -53 <= e' -> 1 <= Zdigits2 q + e' ->
  (Zdigits2 q + e' = 1 -> q / 2 ^ (-52 - e') = 2 ^ 52 ->
   loc_of_shr_record (fst (shr_fexp prec emax q e' lz)) = loc_Inexact Gt) ->
  valid_binary (binary_round_aux prec emax false q e' lz) = true ->
  SFis_nan (binary_round_aux prec emax false q e' lz) = false /\
  2 ^ 1074 < SF2Z (binary_round_aux prec emax false q e' lz).
Proof.
  intros Hq He HP Htie Hvalid.
  pose proof (pow2_pos 52 ltac:(lia)) as P52.
  assert (Hq0 : 0 < q) by lia.
  pose proof (Zdigits2_lower q 52 ltac:(lia) Hq) as Hdq.
  destruct (binary_round_aux_pos q e' lz Hq0) as [(m3 & e3 & Hr)|Hr].
  { unfold fexp, SpecFloat.emin, prec, emax. lia. }
  2:{ rewrite Hr. cbn. split; [reflexivity|apply big_above_one]. }
  rewrite Hr in Hvalid |- *. cbn [SFis_nan SF2Z]. split; [reflexivity|].
  cbn in Hvalid. destruct (bounded_spec _ _ Hvalid) as (_ & _ & Hcanon).
  rewrite (binary_round_aux_stages q e' lz ltac:(lia)) in Hr. cbv zeta in Hr.
  set (n1 := stage_shift q e') in *.
  set (l1 := loc_of_shr_record (fst (shr_fexp prec emax q e' lz))) in *.
  set (m1 := q / 2 ^ n1) in *.
  set (m2 := round_nearest_even m1 l1) in *.
  set (n2 := stage_shift m2 (e' + n1)) in *.
  assert (Hm3 : m2 / 2 ^ n2 = Zpos m3 /\ e3 = e' + n1 + n2).
  { destruct (m2 / 2 ^ n2) as [|p|p]; try discriminate.
    destruct (e' + n1 + n2 <=? emax - prec); try discriminate.
    injection Hr as -> ->. split; reflexivity. }
  destruct Hm3 as [Hm3 He3]. clear Hr.
  assert (Hn1 : 0 <= n1) by (unfold n1, stage_shift; lia).
  assert (Hn2 : 0 <= n2) by (unfold n2, stage_shift; lia).
  assert (HE : -52 <= e' + n1).
  { unfold n1, stage_shift, fexp, SpecFloat.emin, prec, emax. lia. }
  destruct (Z_le_gt_dec e3 (-52)) as [Hlow|Hhigh].
  - (* the result has the exponent of one *)
    assert (Hn2z : n2 = 0) by lia.
    assert (HP1 : Zdigits2 q + e' = 1).
    { assert (Hf : fexp prec emax (Zdigits2 q + e') - e' <= n1)
        by (unfold n1, stage_shift; lia).
      unfold fexp, SpecFloat.emin, prec, emax in Hf. lia. }
    assert (En1 : n1 = -52 - e') by lia.
    assert (Hm2 : m2 = Zpos m3).
    { rewrite <- Hm3, Hn2z. change (2 ^ 0) with 1. now rewrite Z.div_1_r. }
    pose proof (pow2_pos n1 Hn1) as Pn1.
    assert (Hm1 : 2 ^ 52 <= m1).
    { apply Z.div_le_lower_bound; [lia|].
      destruct (Zdigits2_bounds q Hq0) as [[L _] _].
      replace (Zdigits2 q - 1) with (n1 + 52) in L by lia.
      rewrite pow2_split in L by lia. lia. }
    pose proof (round_nearest_even_bounds m1 l1) as Hround. fold m2 in Hround.
    assert (Hup : 2 ^ 52 + 1 <= m2).
    { destruct (Z.eq_dec m1 (2 ^ 52)) as [Htop|Hne]; [|lia].
      assert (Hl1 : l1 = loc_Inexact Gt).
      { apply Htie; [exact HP1|]. rewrite <- En1. exact Htop. }
      unfold m2. rewrite Hl1. cbn [round_nearest_even]. lia. }
    replace e3 with (-52) by lia. unfold val. change (-52 + 1074) with 1022.
    change 1074 with (52 + 1022). rewrite pow2_split by lia.
    pose proof (pow2_pos 1022 ltac:(lia)) as P1022.
    apply Z.mul_lt_mono_pos_r; lia.
  - (* the result has a larger exponent *)
    destruct Hcanon as [Hd|?]; [|lia].
    pose proof (digits2_pos_bounds m3) as [L _]. rewrite Hd in L.
    change (53 - 1) with 52 in L. unfold val.
    assert (A : 2 ^ 1074 < 2 ^ (52 + (e3 + 1074))) by (apply pow2_lt; lia).
    rewrite pow2_split in A by lia.
    pose proof (pow2_pos (e3 + 1074) ltac:(lia)) as Pe.
    assert (B : 2 ^ 52 * 2 ^ (e3 + 1074) <= Zpos m3 * 2 ^ (e3 + 1074)).
    { apply Z.mul_le_mono_nonneg_r; lia. }
    lia.
Qed.

Lemma SFdiv_gt_one (mx my : positive) (ex ey : Z) :
  bounded prec emax mx ex = true -> bounded prec emax my ey = true ->
  val my ey < val mx ex ->
  let r := SF64div (S754_finite false mx ex) (S754_finite false my ey) in
  valid_binary r = true ->
  SFis_nan r = false /\ SF2Z SF64one < SF2Z r.
Proof.
  intros Bx By Hlt. cbv zeta. rewrite SF2Z_one.
  destruct (bounded_spec _ _ Bx) as ((Hex & _) & Hdx & _).
  destruct (bounded_spec _ _ By) as ((Hey & _) & Hdy & _).
  unfold SF64div, SFdiv. cbn [xorb].
  destruct (SFdiv_core_spec mx my ex ey) as (q & rem & -> & Hdiv & Hrem & Hq).
  cbv zeta in Hdiv. set (e' := div_exponent mx my ex ey) in *.
  pose proof (val_digits_le my mx ey ex Hey Hex ltac:(lia)) as Hd.
  assert (Hexy : ey <= ex).
  { destruct (Z_le_gt_dec ey ex) as [?|Hgt]; [assumption|].
    pose proof (val_lt_exp mx my ex ey Bx By ltac:(lia)). lia. }
  assert (He' : -53 <= e' /\ e' <= ex - ey /\
                e' <= Zpos (digits2_pos mx) + ex - (Zpos (digits2_pos my) + ey) - 53).
  { unfold e', div_exponent, fexp, SpecFloat.emin, prec, emax. rewrite !Zdigits2_pos. lia. }
  destruct He' as (Hlow & Hs & Hprec).
  pose proof (pow2_pos 52 ltac:(lia)) as P52.
  pose proof (digits2_pos_bounds mx) as [Lx _].
  pose proof (digits2_pos_bounds my) as [_ Uy].
  assert (Hy53 : Zpos my < 2 ^ 53).
  { apply (Z.lt_le_trans _ _ _ Uy). apply pow2_le; lia. }
  (* the integer [X] with [x = X * 2^ey] *)
  set (X := Zpos mx * 2 ^ (ex - ey)).
  assert (HX : Zpos my + 1 <= X).
  { assert (A : val mx ex = X * 2 ^ (ey + 1074)).
    { unfold val, X. rewrite <- Z.mul_assoc, <- pow2_split by lia. do 2 f_equal. lia. }
    rewrite A in Hlt. unfold val in Hlt.
    pose proof (pow2_pos (ey + 1074) ltac:(lia)) as Py.
    apply Z.mul_lt_mono_pos_r in Hlt; lia. }
  set (s := ex - ey - e') in *.
  pose proof (pow2_pos s ltac:(lia)) as Ps.
  (* (a) the quotient has at least 53 bits *)
  assert (Hq52 : 2 ^ 52 <= q).
  { assert (A : 2 ^ (Zpos (digits2_pos my) + 52) <= 2 ^ ((Zpos (digits2_pos mx) - 1) + s))
      by (apply pow2_le; lia).
    rewrite !pow2_split in A by lia.
    assert (B : 2 ^ (Zpos (digits2_pos mx) - 1) * 2 ^ s <= Zpos mx * 2 ^ s)
      by (apply Z.mul_le_mono_nonneg_r; lia).
    assert (C : Zpos my * 2 ^ 52 < 2 ^ Zpos (digits2_pos my) * 2 ^ 52)
      by (apply Z.mul_lt_mono_pos_r; lia).
    nia. }
  pose proof (Zdigits2_lower q 52 ltac:(lia) Hq52) as Hdq.
  (* (c) the quotient is at least one *)
  assert (HP : 1 <= Zdigits2 q + e').
  { destruct (Z_le_gt_dec e' 0) as [Hneg|Hpos]; [|lia].
    assert (Hm' : Zpos mx * 2 ^ s = X * 2 ^ (- e')).
    { unfold X. rewrite <- Z.mul_assoc, <- pow2_split by lia. do 2 f_equal; try (unfold s; lia). }
    pose proof (pow2_pos (- e') ltac:(lia)) as PT.
    assert (Hge : 2 ^ (- e') <= q) by nia.
    pose proof (Zdigits2_lower q (- e') ltac:(lia) Hge). lia. }
  apply round_gt_one; try assumption.
  (* (d) at the exponent of one the quotient rounds up *)
  intros HP1 Htop.
  set (n1 := -52 - e') in *.
  assert (Hn1 : 0 <= n1) by (unfold n1; lia).
  pose proof (pow2_pos n1 Hn1) as Pw.
  assert (Hm' : Zpos mx * 2 ^ s = X * 2 ^ 52 * 2 ^ n1).
  { unfold X. rewrite <- !Z.mul_assoc, <- !pow2_split by lia. do 2 f_equal;
      try (unfold s, n1; lia). }
  assert (K : (2 ^ 53 + 1) * Zpos my * 2 ^ n1 < 2 * (Zpos my * q + rem)).
  { rewrite <- Hdiv, Hm'. change (2 ^ 53) with (2 * 2 ^ 52) in *. nia. }
  pose proof (Z.div_mod q (2 ^ n1) ltac:(lia)) as Hqr. rewrite Htop in Hqr.
  pose proof (Z.mod_pos_bound q (2 ^ n1) Pw) as Hrho.
  set (rho := q mod 2 ^ n1) in *.
  pose proof (shr_fexp_loc q e' (new_location (Zpos my) rem) ltac:(lia)) as Hloc.
  cbv zeta in Hloc. revert Hloc.
  generalize (fst (shr_fexp prec emax q e' (new_location (Zpos my) rem))).
  intros mrs [Hzero Hpos].
  assert (En : fexp prec emax (Zdigits2 q + e') - e' = n1).
  { rewrite HP1. unfold fexp, SpecFloat.emin, prec, emax, n1. lia. }
  rewrite En in Hzero, Hpos.
  destruct (Z.eq_dec n1 0) as [Hz|Hnz].
  - rewrite Hzero by lia. rewrite Hz in *. change (2 ^ 0) with 1 in *.
    apply new_location_above; change (2 ^ 53) with (2 * 2 ^ 52) in *; nia.
  - destruct (Hpos ltac:(lia)) as [Hr Hsticky].
    pose proof (pow2_pos (n1 - 1) ltac:(lia)) as Ph.
    assert (Hw : 2 ^ n1 = 2 * 2 ^ (n1 - 1)).
    { rewrite <- (Z.pow_succ_r 2 (n1 - 1)) by lia. f_equal. lia. }
    set (h := 2 ^ (n1 - 1)) in *.
    assert (Hhalf : h <= rho).
    { rewrite Hw in K, Hqr, Hrho. change (2 ^ 53) with (2 * 2 ^ 52) in *. nia. }
    assert (Hdivh : q / h = 2 * 2 ^ 52 + 1).
    { symmetry. apply (Z.div_unique_pos q h (2 * 2 ^ 52 + 1) (rho - h)); [lia|].
      rewrite Hqr, Hw. ring. }
    assert (Hmodh : q mod h = rho - h).
    { symmetry. apply (Z.mod_unique_pos q h (2 * 2 ^ 52 + 1) (rho - h)); [lia|].
      rewrite Hqr, Hw. ring. }
    rewrite Hdivh in Hr. rewrite Hmodh in Hsticky.
    assert (Hs' : shr_s mrs = true).
    { rewrite Hsticky. destruct (Z.eqb_spec (rho - h) 0) as [E|E]; cbn.
      - rewrite orb_false_r. apply new_location_inexact.
        rewrite Hw in K, Hqr. change (2 ^ 53) with (2 * 2 ^ 52) in *. nia.
      - apply orb_true_r. }
    destruct mrs as [m0 r0 s0]. cbn in Hr, Hs'. subst r0 s0.
    vm_compute. reflexivity.
Qed.

Lemma SFdiv_le_one_all (x y : spec_float) :
  valid_binary x = true -> valid_binary y = true ->
  SFpositive y ->
  SFis_nan x = true \/ SF2Z x <= SF2Z y ->
  SFis_nan (SF64div x y) = true \/ SF2Z (SF64div x y) <= SF2Z SF64one.
Proof.
  pose proof big_pos as Hbig. pose proof big_above_one as Hone.
  intros Vx Vy Hy Hxy. rewrite SF2Z_one.
  destruct Hy as [(my & ey & ->)| ->].
  - (* y positive finite *)
    cbn in Vy. pose proof (val_lt_big my ey Vy) as Hylt.
    pose proof (val_nonneg my ey) as Hy0.
    destruct x as [sx|sx| |sx mx ex]; cbn [SFis_nan SF2Z] in Hxy.
    + right. cbn. lia.
    + destruct sx; [right; cbn; lia|].
      destruct Hxy as [?|?]; [discriminate|lia].
    + left. reflexivity.
    + destruct sx.
      * destruct (SFdiv_nonpos (S754_finite true mx ex) (S754_finite false my ey))
          as [Hn|Hle]; try assumption; try reflexivity.
        -- right. cbn. pose proof (val_nonneg mx ex). lia.
        -- cbn. cbn in Vx, Vy.
           apply val_pos. destruct (bounded_spec _ _ Vy) as ((? & _) & _). lia.
        -- left. exact Hn.
        -- right. lia.
      * destruct Hxy as [?|Hle]; [discriminate|].
        right. rewrite <- SF2Z_one. now apply SFdiv_le_one.
  - (* y = +inf *)
    destruct x as [sx|sx| |sx mx ex]; cbn; try (left; reflexivity); right; lia.
Qed.

Lemma float_quot_le_one (x y : float) :
  lt (of_int 0) y = true -> le x y = true -> le (quot x y) (of_int 1) = true.
Proof.
  intros Hy Hxy. pose proof Hy as Hpos. rewrite Fpositive in Hpos.
  rewrite lt_iff in Hy. destruct Hy as (_ & Hny & _).
  rewrite le_iff in Hxy |- *. rewrite Fnan_one, F2Z_one.
  cbn [quot float_number]. unfold Fnan, F2Z in *. rewrite div_spec.
  destruct (SFdiv_le_one_all (Prim2SF x) (Prim2SF y) (Prim2SF_valid x) (Prim2SF_valid y) Hpos)
    as [Hn|Hle].
  - destruct Hxy as [?|[Hc|?]]; [left; assumption| |right; assumption].
    rewrite Hny in Hc. discriminate.
  - left. exact Hn.
  - right. right. exact Hle.
Qed.

Lemma float_quot_gt_one (x y : float) :
  lt (of_int 0) y = true -> lt y x = true -> lt (of_int 1) (quot x y) = true.
Proof.
  pose proof big_pos as Hbig. pose proof big_above_one as Hone.
  intros Hy Hyx. rewrite Fpositive in Hy.
  rewrite lt_iff in Hyx |- *. rewrite Fnan_one, F2Z_one.
  destruct Hyx as (_ & Hnx & Hlt). split; [reflexivity|].
  pose proof (Prim2SF_valid (quot x y)) as Vr.
  cbn [quot float_number] in *. unfold Fnan, F2Z in *. rewrite div_spec in Vr |- *.
  pose proof (Prim2SF_valid x) as Vx. pose proof (Prim2SF_valid y) as Vy.
  destruct Hy as [(my & ey & Ey)|Ey]; rewrite Ey in *.
  - cbn in Vy. pose proof (val_lt_big my ey Vy) as Hylt.
    destruct (bounded_spec _ _ Vy) as ((Hey & _) & _).
    pose proof (val_pos my ey Hey) as Hy0.
    destruct (Prim2SF x) as [sx|sx| |sx mx ex]; cbn [SFis_nan SF2Z] in Hnx, Hlt;
      try discriminate; try lia.
    + destruct sx; [lia|]. rewrite SF2Z_one. unfold SF64div.
      cbn [SFdiv xorb SF2Z SFis_nan]. lia.
    + destruct sx; [pose proof (val_nonneg mx ex); lia|].
      now apply SFdiv_gt_one.
  - cbn [SF2Z] in Hlt. exfalso.
    destruct (Prim2SF x) as [sx|sx| |sx mx ex]; cbn [SFis_nan SF2Z] in Hnx, Hlt;
      try discriminate; try lia.
    + destruct sx; lia.
    + cbn in Vx. pose proof (val_lt_big mx ex Vx). pose proof (val_nonneg mx ex).
      destruct sx; lia.
Qed.

(** Binary64 with round-to-nearest-even satisfies the order laws. *)
#[export] Instance float_ordered : OrderedNumber float.
Proof.
  split.
  - exact float_le_through_positive.
  - exact float_le_through_zero.
  - exact float_pos_not_zero.
  - exact float_quot_le_one.
  - exact float_quot_gt_one.
  - exact float_quot_le_zero.
  - exact float_pred_le_zero.
  - exact float_pred_gt_zero.
  - exact float_percent_le_zero.
  - exact float_percent_gt_zero.
Qed.

(** ** The callback *)

Section EarlyStopFacts.
Context {F : Type} `{Number F}.

Lemma adjust_minus_one (len : Z) :
  0 <= len -> Py.adjust len (-1) = Z.max 0 (len - 1).
Proof. intros _. unfold Py.adjust. simpl. f_equal. lia. Qed.

(** [l[:-1]] drops the last item. *)
Lemma slice_init {A} (l : list A) :
  Py.slice l None (Some (-1)) = take (length l - 1) l.
Proof.
  unfold Py.slice. cbn [from_option].
  rewrite adjust_minus_one by lia.
  rewrite drop_0. f_equal. lia.
Qed.

Lemma slice_init_snoc {A} (l : list A) (x : A) :
  Py.slice (l ++ [x]) None (Some (-1)) = l.
Proof.
  rewrite slice_init, length_app. cbn [length].
  replace (length l + 1 - 1)%nat with (length l) by lia.
  apply take_app_length.
Qed.

Lemma get_last_snoc {A} (l : list A) (x : A) : Py.get_last (l ++ [x]) = Ok x.
Proof. unfold Py.get_last. now rewrite last_snoc. Qed.

(** The written start index [--(batch+1)] is [batch+1] itself. *)
Lemma denominator_window_start (self : EarlyStop.t F) :
  EarlyStop.denominator_window self =
  Py.slice (EarlyStop.train_losses self) (Some (EarlyStop.batch self + 1)) (Some (-1)).
Proof. unfold EarlyStop.denominator_window. now rewrite Z.opp_involutive. Qed.

Lemma on_epoch_end_state (self : EarlyStop.t F) (epoch : Z) (logs : EarlyStop.Logs F) :
  let recorded :=
    EarlyStop.record (EarlyStop.emit self (EarlyStop.Message (epoch + 1) logs)) logs in
  EarlyStop.on_epoch_end self epoch logs =
  match EarlyStop.due recorded epoch with
  | Raise e => (recorded, Raise e)
  | Ok true => EarlyStop.evaluate recorded epoch
  | Ok false => (recorded, Ok tt)
  end.
Proof. reflexivity. Qed.

Lemma evaluate_losses (self : EarlyStop.t F) (epoch : Z) :
  EarlyStop.val_losses (fst (EarlyStop.evaluate self epoch)) = EarlyStop.val_losses self /\
  EarlyStop.train_losses (fst (EarlyStop.evaluate self epoch)) = EarlyStop.train_losses self.
Proof.
  unfold EarlyStop.evaluate.
  destruct (EarlyStop.progress_quotient self) as [q|e]; [|done].
  destruct (gt q _); done.
Qed.

Lemma on_epoch_end_losses (self : EarlyStop.t F) (epoch : Z) (logs : EarlyStop.Logs F) :
  EarlyStop.val_losses (fst (EarlyStop.on_epoch_end self epoch logs)) =
    EarlyStop.val_losses self ++ [EarlyStop.val_loss logs] /\
  EarlyStop.train_losses (fst (EarlyStop.on_epoch_end self epoch logs)) =
    EarlyStop.train_losses self ++ [EarlyStop.loss logs].
Proof.
  rewrite on_epoch_end_state. cbv zeta.
  destruct (EarlyStop.due _ epoch) as [[|]|e]; [|done..].
  pose proof (evaluate_losses
    (EarlyStop.record (EarlyStop.emit self (EarlyStop.Message (epoch + 1) logs)) logs)
    epoch) as [-> ->].
  done.
Qed.

Lemma calls_lengths (ls : list (EarlyStop.Logs F)) :
  forall (self : EarlyStop.t F) (epoch : Z),
    length (EarlyStop.val_losses (EarlyStop.calls self epoch ls)) =
      (length (EarlyStop.val_losses self) + length ls)%nat /\
    length (EarlyStop.train_losses (EarlyStop.calls self epoch ls)) =
      (length (EarlyStop.train_losses self) + length ls)%nat.
Proof.
  induction ls as [|logs rest IH]; intros self epoch; cbn [EarlyStop.calls length].
  - split; lia.
  - destruct (IH (fst (EarlyStop.on_epoch_end self epoch logs)) (epoch + 1)) as [-> ->].
    destruct (on_epoch_end_losses self epoch logs) as [-> ->].
    rewrite !length_app. cbn [length]. split; lia.
Qed.

Lemma epochs_calls_prefix (ls : list (EarlyStop.Logs F)) :
  forall (self : EarlyStop.t F) (epoch : Z),
    exists n : nat,
      (n <= length ls)%nat /\
      fst (EarlyStop.epochs self epoch ls) = EarlyStop.calls self epoch (take n ls).
Proof.
  induction ls as [|logs rest IH]; intros self epoch.
  - exists 0%nat. split; [reflexivity|reflexivity].
  - cbn [EarlyStop.epochs].
    destruct (EarlyStop.on_epoch_end self epoch logs) as [self' [[]|e]] eqn:Hcall.
    + destruct (EarlyStop.stop_training self') eqn:Hstop.
      * exists 1%nat. cbn [length take EarlyStop.calls]. rewrite Hcall.
        split; [lia|reflexivity].
      * destruct (IH self' (epoch + 1)) as (n & Hn & Hrun).
        exists (S n). cbn [length take EarlyStop.calls]. rewrite Hcall.
        split; [lia|exact Hrun].
    + exists 1%nat. cbn [length take EarlyStop.calls]. rewrite Hcall.
      split; [lia|reflexivity].
Qed.

(** *** The method from its first line *)

Section MethodFacts.
Context {W : Type}.
Variable log_fn : EarlyStop.line F -> W -> W * result unit.

(** The call in which lines 133-137 return is the call from line 138 on. *)
Lemma on_epoch_end_with_returned
    (self : EarlyStop.t F) (w w' : W) (epoch : Z)
    (logs : option (EarlyStop.Dict F)) (values : EarlyStop.Logs F) :
  EarlyStop.formatted logs = Ok values ->
  log_fn (EarlyStop.Message (epoch + 1) values) w = (w', Ok tt) ->
  EarlyStop.on_epoch_end_with log_fn self w epoch logs =
    (fst (EarlyStop.on_epoch_end self epoch values), w',
     snd (EarlyStop.on_epoch_end self epoch values)).
Proof. intros Hvalues Hlog. unfold EarlyStop.on_epoch_end_with. now rewrite Hvalues, Hlog. Qed.

Lemma on_epoch_end_with_unformatted
    (self : EarlyStop.t F) (w : W) (epoch : Z)
    (logs : option (EarlyStop.Dict F)) (e : exn) :
  EarlyStop.formatted logs = Raise e ->
  EarlyStop.on_epoch_end_with log_fn self w epoch logs = (self, w, Raise e).
Proof. intros Hvalues. unfold EarlyStop.on_epoch_end_with. now rewrite Hvalues. Qed.

Lemma on_epoch_end_with_refused
    (self : EarlyStop.t F) (w w' : W) (epoch : Z)
    (logs : option (EarlyStop.Dict F)) (values : EarlyStop.Logs F) (e : exn) :
  EarlyStop.formatted logs = Ok values ->
  log_fn (EarlyStop.Message (epoch + 1) values) w = (w', Raise e) ->
  EarlyStop.on_epoch_end_with log_fn self w epoch logs = (self, w', Raise e).
Proof. intros Hvalues Hlog. unfold EarlyStop.on_epoch_end_with. now rewrite Hvalues, Hlog. Qed.

Ltac head_call Hf Hl :=
  cbn [take length EarlyStop.calls_with EarlyStop.logged EarlyStop.epochs_with];
  unfold EarlyStop.on_epoch_end_with;
  rewrite ?Hf, ?Hl, ?take_0;
  cbn [fst snd length map app EarlyStop.calls_with EarlyStop.logged].

Lemma calls_with_losses (ls : list (option (EarlyStop.Dict F))) :
  forall (self : EarlyStop.t F) (w : W) (epoch : Z),
    let after := fst (EarlyStop.calls_with log_fn self w epoch ls) in
    EarlyStop.val_losses after =
      EarlyStop.val_losses self ++ map EarlyStop.val_loss (EarlyStop.logged log_fn w epoch ls) /\
    EarlyStop.train_losses after =
      EarlyStop.train_losses self ++ map EarlyStop.loss (EarlyStop.logged log_fn w epoch ls).
Proof.
  induction ls as [|logs rest IH]; intros self w epoch; cbv zeta.
  - cbn [EarlyStop.calls_with EarlyStop.logged fst map]. now rewrite !app_nil_r.
  - destruct (EarlyStop.formatted logs) as [values|e] eqn:Hf.
    + destruct (log_fn (EarlyStop.Message (epoch + 1) values) w) as [w' [[]|e]] eqn:Hl;
        head_call Hf Hl.
      * destruct (IH (fst (EarlyStop.on_epoch_end self epoch values)) w' (epoch + 1))
          as [-> ->].
        destruct (on_epoch_end_losses self epoch values) as [-> ->].
        rewrite <- !app_assoc. split; reflexivity.
      * apply IH.
    + head_call Hf Hf. apply IH.
Qed.

Lemma logged_length (ls : list (option (EarlyStop.Dict F))) :
  forall (w : W) (epoch : Z),
    (length (EarlyStop.logged log_fn w epoch ls) <= length ls)%nat.
Proof.
  induction ls as [|logs rest IH]; intros w epoch; cbn [EarlyStop.logged length]; [lia|].
  destruct (EarlyStop.formatted logs) as [values|e].
  - destruct (log_fn _ w) as [w' [[]|e]]; cbn [length];
      specialize (IH w' (epoch + 1)); lia.
  - specialize (IH w (epoch + 1)). lia.
Qed.

(** The framework's loop makes the first [n] calls; all of them got past
    line 137 when the loop returns, all but perhaps the last when it
    raises. *)
Lemma epochs_with_prefix (ls : list (option (EarlyStop.Dict F))) :
  forall (self : EarlyStop.t F) (w : W) (epoch : Z),
    let run := EarlyStop.epochs_with log_fn self w epoch ls in
    exists n : nat,
      (n <= length ls)%nat /\
      fst run = EarlyStop.calls_with log_fn self w epoch (take n ls) /\
      (n <= S (length (EarlyStop.logged log_fn w epoch (take n ls))))%nat /\
      (snd run = Ok tt ->
       length (EarlyStop.logged log_fn w epoch (take n ls)) = n).
Proof.
  induction ls as [|logs rest IH]; intros self w epoch; cbv zeta.
  - exists 0%nat. cbn. repeat split; lia.
  - destruct (EarlyStop.formatted logs) as [values|e] eqn:Hf.
    + destruct (log_fn (EarlyStop.Message (epoch + 1) values) w) as [w' [[]|e]] eqn:Hl.
      * destruct (EarlyStop.on_epoch_end self epoch values) as [self' [[]|e]] eqn:Hc.
        -- destruct (EarlyStop.stop_training self') eqn:Hstop.
           ++ exists 1%nat. head_call Hf Hl. rewrite Hc. cbn [fst snd]. rewrite Hstop.
              cbn [fst snd]. repeat split; lia.
           ++ destruct (IH self' w' (epoch + 1)) as (n & Hn & Hrun & Hmost & Hall).
              exists (S n). head_call Hf Hl. rewrite Hc. cbn [fst snd]. rewrite Hstop.
              split; [lia|]. split; [exact Hrun|]. split; [lia|].
              intros Hok. f_equal. apply Hall, Hok.
        -- exists 1%nat. head_call Hf Hl. rewrite Hc. cbn [fst snd].
           repeat split; try lia; try discriminate.
      * exists 1%nat. head_call Hf Hl. repeat split; try lia; try discriminate.
    + exists 1%nat. head_call Hf Hf. repeat split; try lia; try discriminate.
Qed.

End MethodFacts.

(** With [print] and the dicts the framework passes, every call gets
    past line 137. *)
Lemma formatted_dict (logs : EarlyStop.Logs F) :
  EarlyStop.formatted (EarlyStop.dict logs) = Ok logs.
Proof. now destruct logs. Qed.

Lemma calls_with_print (ls : list (EarlyStop.Logs F)) :
  forall (self : EarlyStop.t F) (terminal : list (EarlyStop.line F)) (epoch : Z),
    EarlyStop.logged EarlyStop.print terminal epoch (map EarlyStop.dict ls) = ls /\
    fst (EarlyStop.calls_with EarlyStop.print self terminal epoch (map EarlyStop.dict ls)) =
      EarlyStop.calls self epoch ls.
Proof.
  induction ls as [|logs rest IH]; intros self terminal epoch; [split; reflexivity|].
  cbn [map EarlyStop.logged EarlyStop.calls_with EarlyStop.calls].
  unfold EarlyStop.on_epoch_end_with. rewrite formatted_dict.
  cbn [EarlyStop.print fst snd].
  destruct (IH (fst (EarlyStop.on_epoch_end self epoch logs))
              (terminal ++ [EarlyStop.Message (epoch + 1) logs]) (epoch + 1)) as [-> ->].
  split; reflexivity.
Qed.

(** C5 (amended). A call of [on_epoch_end] in which lines 133-137
    return (the three values are there to be formatted and [log_fn]
    returns) leaves [val_losses] and [train_losses] extended at the end by
    exactly the epoch's [val_loss] and [loss], nothing removed, also when
    the evaluation of lines 141-145 then raises. A call in which the
    formatting or [log_fn] raises leaves the callback as it was. So after
    any calls both lists have grown by the number of calls that got past
    line 137; and when the framework's loop on a new callback returns
    after [n] epochs, both lists have length [n] (when it raises, [n] or
    [n - 1], the same for both). *)
Theorem history_grows_by_one_per_epoch :
  (forall (W : Type) (log_fn : EarlyStop.line F -> W -> W * result unit)
          (self : EarlyStop.t F) (w : W) (epoch : Z)
          (logs : option (EarlyStop.Dict F)),
     let call := EarlyStop.on_epoch_end_with log_fn self w epoch logs in
     (forall (values : EarlyStop.Logs F) (w' : W),
        EarlyStop.formatted logs = Ok values ->
        log_fn (EarlyStop.Message (epoch + 1) values) w = (w', Ok tt) ->
        EarlyStop.val_losses (fst (fst call)) =
          EarlyStop.val_losses self ++ [EarlyStop.val_loss values] /\
        EarlyStop.train_losses (fst (fst call)) =
          EarlyStop.train_losses self ++ [EarlyStop.loss values]) /\
     (forall e : exn,
        EarlyStop.formatted logs = Raise e -> call = (self, w, Raise e)) /\
     (forall (values : EarlyStop.Logs F) (w' : W) (e : exn),
        EarlyStop.formatted logs = Ok values ->
        log_fn (EarlyStop.Message (epoch + 1) values) w = (w', Raise e) ->
        call = (self, w', Raise e))) /\
  (forall (W : Type) (log_fn : EarlyStop.line F -> W -> W * result unit)
          (self : EarlyStop.t F) (w : W) (epoch : Z)
          (ls : list (option (EarlyStop.Dict F))),
     let after := fst (EarlyStop.calls_with log_fn self w epoch ls) in
     let passed := length (EarlyStop.logged log_fn w epoch ls) in
     length (EarlyStop.val_losses after) =
       (length (EarlyStop.val_losses self) + passed)%nat /\
     length (EarlyStop.train_losses after) =
       (length (EarlyStop.train_losses self) + passed)%nat /\
     (passed <= length ls)%nat) /\
  (forall (W : Type) (log_fn : EarlyStop.line F -> W -> W * result unit)
          (min_epochs batch : Z) (target : F) (w : W)
          (ls : list (option (EarlyStop.Dict F))),
     let start := EarlyStop.__init__ min_epochs batch target in
     let run := EarlyStop.epochs_with log_fn start w 0 ls in
     let after := fst (fst run) in
     exists n : nat,
       (n <= length ls)%nat /\
       fst run = EarlyStop.calls_with log_fn start w 0 (take n ls) /\
       length (EarlyStop.val_losses after) = length (EarlyStop.train_losses after) /\
       (n <= S (length (EarlyStop.val_losses after)))%nat /\
       (length (EarlyStop.val_losses after) <= n)%nat /\
       (snd run = Ok tt -> length (EarlyStop.val_losses after) = n)).
Proof.
  split; [|split].
  - intros W log_fn self w epoch logs call. split; [|split].
    + intros values w' Hf Hl. unfold call.
      rewrite (on_epoch_end_with_returned log_fn self w w' epoch logs values Hf Hl).
      apply on_epoch_end_losses.
    + intros e Hf. now apply on_epoch_end_with_unformatted.
    + intros values w' e Hf Hl. now apply on_epoch_end_with_refused with values.
  - intros W log_fn self w epoch ls after passed.
    destruct (calls_with_losses log_fn ls self w epoch) as [Hval Htrain].
    unfold after. rewrite Hval, Htrain, !length_app, !length_map.
    split; [reflexivity|]. split; [reflexivity|]. apply logged_length.
  - intros W log_fn min_epochs batch target w ls start run after.
    destruct (epochs_with_prefix log_fn ls start w 0) as (n & Hn & Hrun & Hmost & Hall).
    destruct (calls_with_losses log_fn (take n ls) start w 0) as [Hval Htrain].
    fold run in Hrun, Hall. rewrite <- Hrun in Hval, Htrain. fold after in Hval, Htrain.
    cbn [EarlyStop.val_losses EarlyStop.train_losses EarlyStop.__init__ start app]
      in Hval, Htrain.
    pose proof (logged_length log_fn (take n ls) w 0) as Hle.
    rewrite length_take in Hle.
    exists n. rewrite Hval, Htrain, !length_map.
    split; [exact Hn|]. split; [exact Hrun|]. split; [reflexivity|].
    split; [exact Hmost|]. split; [lia|exact Hall].
Qed.

Lemma due_spec (self : EarlyStop.t F) (epoch : Z) :
  0 <= epoch ->
  EarlyStop.due self epoch = Ok true <->
  (EarlyStop.batch self | epoch + 1) /\ EarlyStop.min_epochs self <= epoch + 1.
Proof.
  intros Hepoch. unfold EarlyStop.due, Py.mod_.
  destruct (Z.eqb_spec (EarlyStop.batch self) 0) as [Hb|Hb]; cbn [Py.bind].
  - split; [discriminate|].
    intros [Hdiv _]. rewrite Hb in Hdiv. apply Z.divide_0_l in Hdiv. lia.
  - rewrite <- Z.mod_divide by assumption.
    split.
    + intros [= Hgate]. apply andb_true_iff in Hgate as [Hmod Hfloor]. lia.
    + intros [Hmod Hfloor]. f_equal. apply andb_true_iff. lia.
Qed.

(** C4. For an epoch index [epoch >= 0], the guard of line 140 passes
    exactly when [epoch + 1] is a multiple of [batch] and at least
    [min_epochs]. When it passes, the call is the evaluation of lines
    141-147 on the recorded history: it raises what the quotient raises,
    and otherwise prints the quotient and, if that exceeds the target,
    the stop line, setting [stop_training]. When it does not pass (in
    particular when [epoch + 1 < min_epochs]) the call records the losses
    and returns: no ratio is computed, nothing more is printed, nothing is
    raised and [stop_training] is left alone. With [batch = 0] the guard
    itself raises, after the losses are recorded. *)
Theorem decision_evaluated_iff_due
    (self : EarlyStop.t F) (epoch : Z) (logs : EarlyStop.Logs F) :
  0 <= epoch ->
  let recorded :=
    EarlyStop.record (EarlyStop.emit self (EarlyStop.Message (epoch + 1) logs)) logs in
  let at_interval := (EarlyStop.batch self | epoch + 1) in
  let past_floor := EarlyStop.min_epochs self <= epoch + 1 in
  let evaluated :=
    match EarlyStop.progress_quotient recorded with
    | Raise e => (recorded, Raise e)
    | Ok q =>
        if gt q (EarlyStop.target self)
        then (EarlyStop.halt
                (EarlyStop.emit (EarlyStop.emit recorded (EarlyStop.Progress q))
                   (EarlyStop.Stopped (epoch + 1))), Ok tt)
        else (EarlyStop.emit recorded (EarlyStop.Progress q), Ok tt)
    end in
  (EarlyStop.due recorded epoch = Ok true <-> at_interval /\ past_floor) /\
  (at_interval /\ past_floor ->
     EarlyStop.on_epoch_end self epoch logs = evaluated) /\
  (EarlyStop.batch self <> 0 -> ~ (at_interval /\ past_floor) ->
     EarlyStop.on_epoch_end self epoch logs = (recorded, Ok tt)) /\
  (EarlyStop.batch self <> 0 -> epoch + 1 < EarlyStop.min_epochs self ->
     EarlyStop.on_epoch_end self epoch logs = (recorded, Ok tt)) /\
  (EarlyStop.batch self = 0 ->
     EarlyStop.on_epoch_end self epoch logs = (recorded, Raise ZeroDivisionError)).
Proof.
  intros Hepoch recorded at_interval past_floor evaluated.
  pose proof (due_spec recorded epoch Hepoch) as Hdue.
  change (EarlyStop.batch recorded) with (EarlyStop.batch self) in Hdue.
  change (EarlyStop.min_epochs recorded) with (EarlyStop.min_epochs self) in Hdue.
  assert (Hskip : EarlyStop.batch self <> 0 -> ~ (at_interval /\ past_floor) ->
                  EarlyStop.on_epoch_end self epoch logs = (recorded, Ok tt)).
  { intros Hbatch Hnot. rewrite on_epoch_end_state. fold recorded.
    destruct (EarlyStop.due recorded epoch) as [[|]|e] eqn:Hgate.
    - exfalso. apply Hnot, Hdue. reflexivity.
    - reflexivity.
    - exfalso. unfold EarlyStop.due, Py.mod_ in Hgate.
      change (EarlyStop.batch recorded) with (EarlyStop.batch self) in Hgate.
      destruct (Z.eqb_spec (EarlyStop.batch self) 0); [contradiction|discriminate]. }
  split; [exact Hdue|].
  split; [|split; [exact Hskip|split]].
  - intros Hgate. apply Hdue in Hgate.
    rewrite on_epoch_end_state. fold recorded. rewrite Hgate.
    unfold evaluated, EarlyStop.evaluate.
    destruct (EarlyStop.progress_quotient recorded) as [q|e]; reflexivity.
  - intros Hbatch Hearly. apply (Hskip Hbatch). unfold past_floor. lia.
  - intros Hzero. rewrite on_epoch_end_state. fold recorded.
    unfold EarlyStop.due, Py.mod_.
    change (EarlyStop.batch recorded) with (EarlyStop.batch self).
    rewrite Hzero. reflexivity.
Qed.

Lemma fold_min_elem (rest : list F) : forall x : F,
  fold_left min_step rest x ∈ x :: rest.
Proof.
  induction rest as [|y rest IH]; intros x; cbn [fold_left].
  - left.
  - specialize (IH (min_step x y)). unfold min_step in IH |- *.
    destruct (lt y x).
    + right. exact IH.
    + apply elem_of_cons in IH as [->|IH]; [left|right; right; exact IH].
Qed.

Lemma min_elem (l : list F) (m : F) : min_ l = Ok m -> m ∈ l.
Proof.
  destruct l as [|x rest]; [discriminate|].
  intros [= <-]. apply fold_min_elem.
Qed.

Lemma min_nonempty (l : list F) : l <> [] -> exists m, min_ l = Ok m.
Proof. destruct l; [done|]. intros _. eexists. reflexivity. Qed.

Lemma g_loss_snoc (self : EarlyStop.t F) (l : list F) (x : F) :
  EarlyStop.val_losses self = l ++ [x] ->
  EarlyStop.g_loss self =
  (best <- min_ l ;;
   ratio <- truediv x best ;;
   Ok (mul (of_int 100) (sub ratio (of_int 1)))).
Proof.
  intros Hval. unfold EarlyStop.g_loss.
  now rewrite Hval, get_last_snoc, slice_init_snoc.
Qed.

Lemma all_positive_elem (l : list F) (x : F) :
  all_positive l = true -> x ∈ l -> lt (of_int 0) x = true.
Proof.
  unfold all_positive. rewrite forallb_forall. intros Hall Hx.
  apply Hall. now apply list_elem_of_In.
Qed.

Lemma all_positive_app (l1 l2 : list F) :
  all_positive (l1 ++ l2) = all_positive l1 && all_positive l2.
Proof. apply forallb_app. Qed.

Section Laws.
Context `{!OrderedNumber F}.

Lemma decreasing_snoc_le (l : list F) (x : F) :
  all_positive l = true -> decreasing (l ++ [x]) = true ->
  forall y, y ∈ l -> le x y = true.
Proof.
  induction l as [|a l IH]; intros Hpos Hdec y Hy; [now apply elem_of_nil in Hy|].
  destruct l as [|b l].
  - cbn in Hdec. apply andb_true_iff in Hdec as [Hxa _].
    apply list_elem_of_singleton in Hy as ->. exact Hxa.
  - change (le b a && decreasing ((b :: l) ++ [x]) = true) in Hdec.
    apply andb_true_iff in Hdec as [Hba Hrest].
    change (lt (of_int 0) a && all_positive (b :: l) = true) in Hpos.
    apply andb_true_iff in Hpos as [_ Hpos].
    apply elem_of_cons in Hy as [->|Hy].
    + apply le_through_positive with b; [|apply IH; [exact Hpos|exact Hrest|left]|exact Hba].
      apply (all_positive_elem (b :: l) b Hpos). left.
    + now apply IH.
Qed.

(** The sign of [g_loss] from how the latest loss compares with the best
    earlier one. *)
Lemma g_loss_le_zero (self : EarlyStop.t F) (l : list F) (x best : F) :
  EarlyStop.val_losses self = l ++ [x] ->
  min_ l = Ok best -> lt (of_int 0) best = true -> le x best = true ->
  exists g, EarlyStop.g_loss self = Ok g /\ le g (of_int 0) = true.
Proof.
  intros Hval Hmin Hpos Hle.
  rewrite (g_loss_snoc self l x Hval), Hmin. cbn [Py.bind].
  unfold truediv. cbn [Py.bind].
  eexists. split; [reflexivity|].
  apply percent_le_zero, pred_le_zero. now apply quot_le_one.
Qed.

Lemma g_loss_gt_zero (self : EarlyStop.t F) (l : list F) (x best : F) :
  EarlyStop.val_losses self = l ++ [x] ->
  min_ l = Ok best -> lt (of_int 0) best = true -> lt best x = true ->
  exists g, EarlyStop.g_loss self = Ok g /\ lt (of_int 0) g = true.
Proof.
  intros Hval Hmin Hpos Hlt.
  rewrite (g_loss_snoc self l x Hval), Hmin. cbn [Py.bind].
  unfold truediv. cbn [Py.bind].
  eexists. split; [reflexivity|].
  apply percent_gt_zero, pred_gt_zero. now apply quot_gt_one.
Qed.

Lemma decreasing_g_loss (self : EarlyStop.t F) :
  all_positive (EarlyStop.val_losses self) = true ->
  decreasing (EarlyStop.val_losses self) = true ->
  (2 <= length (EarlyStop.val_losses self))%nat ->
  exists g, EarlyStop.g_loss self = Ok g /\ le g (of_int 0) = true.
Proof.
  intros Hpos Hdec Hlen.
  destruct (EarlyStop.val_losses self) as [|a l] eqn:Hval using rev_ind;
    [cbn in Hlen; lia|].
  clear IHl. rewrite all_positive_app in Hpos.
  apply andb_true_iff in Hpos as [Hpos _].
  destruct (min_nonempty l) as [best Hmin].
  { intros ->. cbn in Hlen. lia. }
  pose proof (min_elem l best Hmin) as Hin.
  apply (g_loss_le_zero self l a best Hval Hmin).
  - now apply all_positive_elem with l.
  - now apply decreasing_snoc_le with l.
Qed.

Lemma evaluate_quotient (self : EarlyStop.t F) (epoch : Z) (q : F) :
  EarlyStop.progress_quotient self = Ok q ->
  EarlyStop.evaluate self epoch =
  if gt q (EarlyStop.target self)
  then (EarlyStop.halt
          (EarlyStop.emit (EarlyStop.emit self (EarlyStop.Progress q))
             (EarlyStop.Stopped (epoch + 1))), Ok tt)
  else (EarlyStop.emit self (EarlyStop.Progress q), Ok tt).
Proof. unfold EarlyStop.evaluate. now intros ->. Qed.

(** C2 (amended). Take a callback whose recorded validation losses are
    positive and never rise, at least two of them. Then [g_loss] is
    computed and is not positive; and if [t_progress] is computed and
    positive and [target] is not negative, the quotient is at most zero, the
    condition of line 145 fails and the evaluation leaves [stop_training]
    as it was. *)
Theorem decreasing_validation_loss_keeps_training
    (self : EarlyStop.t F) (epoch : Z) :
  all_positive (EarlyStop.val_losses self) = true ->
  decreasing (EarlyStop.val_losses self) = true ->
  (2 <= length (EarlyStop.val_losses self))%nat ->
  (exists g, EarlyStop.g_loss self = Ok g /\ le g (of_int 0) = true) /\
  (forall p,
     EarlyStop.t_progress self = Ok p ->
     lt (of_int 0) p = true ->
     le (of_int 0) (EarlyStop.target self) = true ->
     exists q,
       EarlyStop.progress_quotient self = Ok q /\
       gt q (EarlyStop.target self) = false /\
       snd (EarlyStop.evaluate self epoch) = Ok tt /\
       EarlyStop.stop_training (fst (EarlyStop.evaluate self epoch)) =
         EarlyStop.stop_training self).
Proof.
  intros Hpos Hdec Hlen.
  destruct (decreasing_g_loss self Hpos Hdec Hlen) as (g & Hg & Hsign).
  split; [now exists g|].
  intros p Hp Hppos Htarget.
  assert (Hq : EarlyStop.progress_quotient self = Ok (quot g p)).
  { unfold EarlyStop.progress_quotient. rewrite Hg, Hp. reflexivity. }
  assert (Hfail : gt (quot g p) (EarlyStop.target self) = false).
  { unfold gt. apply negb_true_iff.
    change (le (quot g p) (EarlyStop.target self) = true).
    apply le_through_zero; [|exact Htarget].
    now apply quot_le_zero. }
  exists (quot g p). split; [exact Hq|]. split; [exact Hfail|].
  rewrite (evaluate_quotient self epoch _ Hq), Hfail. split; reflexivity.
Qed.

End Laws.

(** *** The call that sets [stop_training] *)

Lemma on_epoch_end_stop (self : EarlyStop.t F) (epoch : Z) (logs : EarlyStop.Logs F) :
  EarlyStop.stop_training (fst (EarlyStop.on_epoch_end self epoch logs)) =
  EarlyStop.stop_training self || EarlyStop.exceeds self epoch logs.
Proof.
  rewrite on_epoch_end_state. unfold EarlyStop.exceeds. cbv zeta.
  set (recorded := EarlyStop.record _ logs).
  change (EarlyStop.stop_training self) with (EarlyStop.stop_training recorded).
  destruct (EarlyStop.due recorded epoch) as [[|]|e];
    cbn [fst]; rewrite ?orb_false_r; try reflexivity.
  unfold EarlyStop.evaluate.
  destruct (EarlyStop.progress_quotient recorded) as [q|e];
    cbn [fst]; rewrite ?orb_false_r; try reflexivity.
  change (EarlyStop.target (EarlyStop.emit recorded (EarlyStop.Progress q)))
    with (EarlyStop.target recorded).
  destruct (gt q (EarlyStop.target recorded)); cbn; now rewrite ?orb_true_r, ?orb_false_r.
Qed.

Lemma calls_snoc (ls : list (EarlyStop.Logs F)) : forall self epoch logs,
  EarlyStop.calls self epoch (ls ++ [logs]) =
  fst (EarlyStop.on_epoch_end (EarlyStop.calls self epoch ls)
         (epoch + Z.of_nat (length ls)) logs).
Proof.
  induction ls as [|l ls IH]; intros self epoch logs; cbn [EarlyStop.calls app length].
  - now rewrite Z.add_0_r.
  - rewrite IH. do 2 f_equal. lia.
Qed.

(** The framework's loop stops after the first call that meets the
    condition, provided no earlier call raised. *)
Lemma epochs_first_exceeding (ls : list (EarlyStop.Logs F)) :
  forall (self : EarlyStop.t F) (epoch : Z) (k : nat) (logs : EarlyStop.Logs F),
    EarlyStop.stop_training self = false ->
    ls !! k = Some logs ->
    EarlyStop.exceeds (EarlyStop.calls self epoch (take k ls))
      (epoch + Z.of_nat k) logs = true ->
    (forall (j : nat) (earlier : EarlyStop.Logs F),
       (j < k)%nat -> ls !! j = Some earlier ->
       let before := EarlyStop.calls self epoch (take j ls) in
       EarlyStop.exceeds before (epoch + Z.of_nat j) earlier = false /\
       Py.raises (snd (EarlyStop.on_epoch_end before (epoch + Z.of_nat j) earlier)) = false) ->
    EarlyStop.epochs self epoch ls =
      (EarlyStop.calls self epoch (take (S k) ls), Ok tt) /\
    EarlyStop.stop_training (EarlyStop.calls self epoch (take (S k) ls)) = true /\
    (forall j : nat, (j <= k)%nat ->
       EarlyStop.stop_training (EarlyStop.calls self epoch (take j ls)) = false).
Proof.
  induction ls as [|first rest IH]; intros self epoch k logs Hstop Hk Hex Hquiet;
    [done|].
  destruct k as [|k].
  - cbn in Hk. injection Hk as ->.
    cbn [take EarlyStop.calls] in Hex |- *. rewrite Z.add_0_r in Hex.
    pose proof (on_epoch_end_stop self epoch logs) as Hflag.
    rewrite Hstop, Hex in Hflag. cbn [orb] in Hflag.
    assert (Hok : snd (EarlyStop.on_epoch_end self epoch logs) = Ok tt).
    { rewrite on_epoch_end_state. unfold EarlyStop.exceeds in Hex. cbv zeta in Hex |- *.
      destruct (EarlyStop.due _ epoch) as [[|]|e]; try discriminate.
      unfold EarlyStop.evaluate.
      destruct (EarlyStop.progress_quotient _) as [q|e]; try discriminate.
      now destruct (gt q _). }
    split; [|split].
    + cbn [EarlyStop.epochs].
      destruct (EarlyStop.on_epoch_end self epoch logs) as [self' r].
      cbn [fst snd] in *. subst r. now rewrite Hflag.
    + exact Hflag.
    + intros j Hj. replace j with 0%nat by lia. exact Hstop.
  - cbn [lookup] in Hk.
    destruct (Hquiet 0%nat first) as [Hno Hfine]; [lia|done|].
    cbn [take EarlyStop.calls] in Hno, Hfine. rewrite Z.add_0_r in Hno, Hfine.
    pose proof (on_epoch_end_stop self epoch first) as Hflag.
    rewrite Hstop, Hno in Hflag. cbn [orb] in Hflag.
    destruct (IH (fst (EarlyStop.on_epoch_end self epoch first)) (epoch + 1) k logs)
      as (Hrun & Hset & Hunset).
    + exact Hflag.
    + exact Hk.
    + cbn [take EarlyStop.calls] in Hex.
      replace (epoch + 1 + Z.of_nat k) with (epoch + Z.of_nat (S k)) by lia.
      exact Hex.
    + intros j earlier Hj Hearlier.
      specialize (Hquiet (S j) earlier ltac:(lia) Hearlier).
      cbn [take EarlyStop.calls] in Hquiet.
      replace (epoch + 1 + Z.of_nat j) with (epoch + Z.of_nat (S j)) by lia.
      exact Hquiet.
    + split; [|split].
      * cbn [EarlyStop.epochs take EarlyStop.calls].
        destruct (EarlyStop.on_epoch_end self epoch first) as [self' r].
        cbn [fst snd] in *. destruct r as [[]|e]; [|discriminate].
        rewrite Hflag. exact Hrun.
      * exact Hset.
      * intros j Hj. destruct j as [|j]; [exact Hstop|].
        cbn [take EarlyStop.calls]. apply Hunset. lia.
Qed.

Section Stopping.
Context `{!OrderedNumber F}.

(** C3. Take a run of the framework's loop over the per-epoch logs [ls],
    started with [stop_training] clear, and let [k] be the first epoch whose
    call meets the condition of line 145 (an evaluated boundary with
    [g_loss / t_progress > target]), no earlier call having raised. If at
    that epoch the validation loss lies above the positive minimum of the
    earlier ones, [g_loss] is positive there; and the loop ends with the
    call of epoch [k]: [stop_training] is set after it and is clear after
    every earlier call. *)
Theorem rising_validation_loss_stops_at_boundary
    (ls : list (EarlyStop.Logs F)) (self : EarlyStop.t F) (epoch : Z)
    (k : nat) (logs : EarlyStop.Logs F) (best : F) :
  let before := EarlyStop.calls self epoch (take k ls) in
  let after := EarlyStop.calls self epoch (take (S k) ls) in
  EarlyStop.stop_training self = false ->
  ls !! k = Some logs ->
  min_ (EarlyStop.val_losses before) = Ok best ->
  lt (of_int 0) best = true ->
  lt best (EarlyStop.val_loss logs) = true ->
  EarlyStop.exceeds before (epoch + Z.of_nat k) logs = true ->
  (forall (j : nat) (earlier : EarlyStop.Logs F),
     (j < k)%nat -> ls !! j = Some earlier ->
     let sofar := EarlyStop.calls self epoch (take j ls) in
     EarlyStop.exceeds sofar (epoch + Z.of_nat j) earlier = false /\
     Py.raises (snd (EarlyStop.on_epoch_end sofar (epoch + Z.of_nat j) earlier)) = false) ->
  (exists g, EarlyStop.g_loss after = Ok g /\ lt (of_int 0) g = true) /\
  EarlyStop.epochs self epoch ls = (after, Ok tt) /\
  EarlyStop.stop_training after = true /\
  (forall j : nat, (j <= k)%nat ->
     EarlyStop.stop_training (EarlyStop.calls self epoch (take j ls)) = false).
Proof.
  intros before after Hclear Hk Hbest Hpos Hrise Hex Hquiet.
  split; [|exact (epochs_first_exceeding ls self epoch k logs Hclear Hk Hex Hquiet)].
  assert (Hafter : after =
                   fst (EarlyStop.on_epoch_end before (epoch + Z.of_nat k) logs)).
  { unfold after, before. rewrite (take_S_r ls k logs Hk), calls_snoc.
    rewrite length_take_le; [reflexivity|].
    apply lookup_lt_Some in Hk. lia. }
  apply (g_loss_gt_zero after (EarlyStop.val_losses before)
           (EarlyStop.val_loss logs) best); try assumption.
  rewrite Hafter. apply on_epoch_end_losses.
Qed.

End Stopping.

Lemma t_progress_window (self : EarlyStop.t F) (least : F) :
  min_ (EarlyStop.denominator_window self) = Ok least ->
  EarlyStop.t_progress self =
  (ratio <- truediv (sum_ (EarlyStop.numerator_window self)) (mul (of_int 2) least) ;;
   Ok (mul (of_int 1000) (sub ratio (of_int 1)))).
Proof. unfold EarlyStop.t_progress. now intros ->. Qed.

(** The slice of line 143 on a short history. *)
Lemma denominator_window_short (self : EarlyStop.t F) :
  -1 <= EarlyStop.batch self ->
  Z.of_nat (length (EarlyStop.train_losses self)) <= EarlyStop.batch self + 2 ->
  EarlyStop.denominator_window self = [].
Proof.
  intros Hb Hshort. rewrite denominator_window_start.
  unfold Py.slice. cbn [from_option]. unfold Py.adjust.
  set (len := Z.of_nat (length (EarlyStop.train_losses self))) in *.
  assert (Hlen : 0 <= len) by (unfold len; lia).
  replace (-1 <? 0) with true by reflexivity.
  destruct (Z.ltb_spec (EarlyStop.batch self + 1) 0) as [?|_]; [lia|].
  replace (Z.to_nat (Z.max 0 (-1 + len) - Z.min (EarlyStop.batch self + 1) len))
    with 0%nat by lia.
  reflexivity.
Qed.

Lemma denominator_window_items (self : EarlyStop.t F) :
  -1 <= EarlyStop.batch self ->
  EarlyStop.denominator_window self =
  drop (Z.to_nat (EarlyStop.batch self + 1))
    (take (length (EarlyStop.train_losses self) - 1) (EarlyStop.train_losses self)).
Proof.
  intros Hb. rewrite denominator_window_start.
  unfold Py.slice. cbn [from_option]. unfold Py.adjust.
  set (l := EarlyStop.train_losses self).
  replace (-1 <? 0) with true by reflexivity.
  destruct (Z.ltb_spec (EarlyStop.batch self + 1) 0) as [?|_]; [lia|].
  rewrite take_drop_commute.
  destruct (Z_le_gt_dec (Z.of_nat (length l)) (EarlyStop.batch self + 1)) as [Hle|Hgt].
  - rewrite !drop_ge; [reflexivity|rewrite length_take; lia..].
  - replace (Z.min (EarlyStop.batch self + 1) (Z.of_nat (length l)))
      with (EarlyStop.batch self + 1) by lia.
    do 2 f_equal. lia.
Qed.

(** The slice of line 142, with the single negation: the last [batch]
    losses before the latest. *)
Lemma numerator_window_length (self : EarlyStop.t F) :
  0 <= EarlyStop.batch self ->
  Z.of_nat (length (EarlyStop.numerator_window self)) =
  Z.min (EarlyStop.batch self)
    (Z.max 0 (Z.of_nat (length (EarlyStop.train_losses self)) - 1)).
Proof.
  intros Hb. unfold EarlyStop.numerator_window, Py.slice.
  cbn [from_option]. unfold Py.adjust.
  set (l := EarlyStop.train_losses self).
  replace (-1 <? 0) with true by reflexivity.
  destruct (Z.ltb_spec (- (EarlyStop.batch self + 1)) 0) as [_|?]; [|lia].
  rewrite length_take, length_drop. lia.
Qed.

(** [g_loss] is computed exactly from two recorded validation losses on. *)
Lemma g_loss_computed (self : EarlyStop.t F) :
  (exists g, EarlyStop.g_loss self = Ok g) <->
  (2 <= length (EarlyStop.val_losses self))%nat.
Proof.
  destruct (EarlyStop.val_losses self) as [|x l] eqn:Hlosses using rev_ind.
  - unfold EarlyStop.g_loss. rewrite Hlosses. cbn. split; [intros [g Hg]|lia].
    discriminate.
  - clear IHl. rewrite (g_loss_snoc self l x Hlosses), length_app. cbn [length].
    destruct l as [|y l]; cbn [min_ Py.bind length].
    + split; [intros [g Hg]; discriminate|lia].
    + split; [lia|]. intros _. unfold truediv. cbn [Py.bind]. eexists. reflexivity.
Qed.

(** [t_progress] is computed exactly when the slice of line 143 is not
    empty. *)
Lemma t_progress_computed (self : EarlyStop.t F) :
  (exists p, EarlyStop.t_progress self = Ok p) <->
  EarlyStop.denominator_window self <> [].
Proof.
  unfold EarlyStop.t_progress.
  destruct (EarlyStop.denominator_window self) as [|x rest]; cbn [min_ Py.bind].
  - split; [intros [p Hp]; discriminate|congruence].
  - split; [discriminate|]. intros _. unfold truediv. cbn [Py.bind].
    eexists. reflexivity.
Qed.

(** C9. The evaluation of lines 141-145 in the code as it is written.
    It raises [ValueError] when a single validation loss is recorded (so
    does the first call on a new callback with interval 1 and floor at
    most 1). Nothing guards the division of lines 144-145, and nothing is
    raised by it either: whenever [g_loss] and [t_progress] are computed,
    the quotient is taken, by a zero [t_progress] too, and
    [stop_training] is set exactly if that quotient exceeds the target.
    The evaluation returns exactly when at least two validation losses
    are recorded and the slice of line 143 is not empty. That slice
    starts at [batch + 1] from the front: with [batch >= 2], two or more
    losses recorded and at most [batch + 2] of them, [g_loss] is computed
    and the slice of line 142 (the single negation) is not empty, yet the
    evaluation raises [ValueError] from line 143. *)
Theorem evaluation_well_defined (self : EarlyStop.t F) (epoch : Z) :
  (length (EarlyStop.val_losses self) = 1%nat ->
     EarlyStop.progress_quotient self = Raise ValueError /\
     snd (EarlyStop.evaluate self epoch) = Raise ValueError) /\
  (forall (min_epochs : Z) (target : F) (logs : EarlyStop.Logs F),
     min_epochs <= 1 ->
     snd (EarlyStop.on_epoch_end (EarlyStop.__init__ min_epochs 1 target) 0 logs) =
       Raise ValueError) /\
  (forall g p : F,
     EarlyStop.g_loss self = Ok g ->
     EarlyStop.t_progress self = Ok p ->
     EarlyStop.progress_quotient self = Ok (quot g p) /\
     snd (EarlyStop.evaluate self epoch) = Ok tt /\
     EarlyStop.stop_training (fst (EarlyStop.evaluate self epoch)) =
       EarlyStop.stop_training self || gt (quot g p) (EarlyStop.target self)) /\
  ((exists q, EarlyStop.progress_quotient self = Ok q) <->
   (2 <= length (EarlyStop.val_losses self))%nat /\
   EarlyStop.denominator_window self <> []) /\
  (2 <= EarlyStop.batch self ->
   (2 <= length (EarlyStop.val_losses self))%nat ->
   (2 <= length (EarlyStop.train_losses self))%nat ->
   Z.of_nat (length (EarlyStop.train_losses self)) <= EarlyStop.batch self + 2 ->
   (exists g, EarlyStop.g_loss self = Ok g) /\
   EarlyStop.numerator_window self <> [] /\
   EarlyStop.denominator_window self = [] /\
   EarlyStop.t_progress self = Raise ValueError /\
   EarlyStop.evaluate self epoch = (self, Raise ValueError)).
Proof.
  split; [|split; [|split; [|split]]].
  - intros Hone.
    assert (Hq : EarlyStop.progress_quotient self = Raise ValueError).
    { unfold EarlyStop.progress_quotient, EarlyStop.g_loss.
      destruct (EarlyStop.val_losses self) as [|x [|y l]]; try discriminate.
      reflexivity. }
    split; [exact Hq|]. unfold EarlyStop.evaluate. now rewrite Hq.
  - intros min_epochs target logs Hfloor.
    rewrite on_epoch_end_state. cbv zeta.
    unfold EarlyStop.due, Py.mod_. cbn [Py.bind EarlyStop.batch EarlyStop.record
      EarlyStop.emit EarlyStop.__init__ EarlyStop.min_epochs].
    change ((0 + 1) mod 1 =? 0) with true. change (1 =? 0) with false. cbv iota.
    change (0 + 1) with 1. cbn [andb].
    destruct (Z.leb_spec min_epochs 1) as [_|Hlt]; [reflexivity|lia].
  - intros g p Hg Hp.
    assert (Hq : EarlyStop.progress_quotient self = Ok (quot g p)).
    { unfold EarlyStop.progress_quotient. rewrite Hg, Hp. reflexivity. }
    split; [exact Hq|].
    unfold EarlyStop.evaluate. rewrite Hq.
    change (EarlyStop.target (EarlyStop.emit self (EarlyStop.Progress (quot g p))))
      with (EarlyStop.target self).
    destruct (gt (quot g p) (EarlyStop.target self)); cbn.
    + now rewrite orb_true_r.
    + now rewrite orb_false_r.
  - split.
    + intros [q Hq]. unfold EarlyStop.progress_quotient in Hq.
      destruct (EarlyStop.g_loss self) as [g|e] eqn:Hg; [|discriminate].
      cbn [Py.bind] in Hq.
      destruct (EarlyStop.t_progress self) as [p|e] eqn:Hp; [|discriminate].
      split.
      * apply g_loss_computed. now exists g.
      * apply t_progress_computed. now exists p.
    + intros [Hval Hwin].
      apply g_loss_computed in Hval as [g Hg].
      apply t_progress_computed in Hwin as [p Hp].
      exists (quot g p). unfold EarlyStop.progress_quotient. now rewrite Hg, Hp.
  - intros Hbatch Hval Htrain Hshort.
    assert (Hg : exists g, EarlyStop.g_loss self = Ok g) by now apply g_loss_computed.
    assert (Hwin : EarlyStop.denominator_window self = []).
    { apply denominator_window_short; lia. }
    assert (Hp : EarlyStop.t_progress self = Raise ValueError).
    { unfold EarlyStop.t_progress. now rewrite Hwin. }
    split; [exact Hg|]. split; [|split; [exact Hwin|split; [exact Hp|]]].
    + intros Hnil. pose proof (numerator_window_length self ltac:(lia)) as Hlen.
      rewrite Hnil in Hlen. cbn [length] in Hlen. lia.
    + destruct Hg as [g Hg].
      unfold EarlyStop.evaluate, EarlyStop.progress_quotient. now rewrite Hg, Hp.
Qed.

End EarlyStopFacts.

(** ** The model wrapper *)

Section DropoutFacts.
Context {Tensor NoiseShape Seed : Type}.
Variable get_noise_shape : Tensor -> NoiseShape.
Variable backend_dropout : Tensor -> float -> NoiseShape -> Seed -> Tensor.






End DropoutFacts.

Section ModelFacts.
Context {Weights Data : Type}.
Variable initialise : nat -> list Model.layer -> Weights.
Variable run_epoch :
  Config.t -> Model.Sequential Weights -> Data -> Z -> Weights * EarlyStop.Logs float.

Lemma tuning_dec (self : Model.t Weights) (w : Model.World Weights) :
  (Model.tuning self w /\
   (if Config.model_tuning (Model.config self)
       && negb (String.eqb (Config.mode (Model.config self)) "supervised")
    then Model.isdir w (Config.model_path (Model.config self))
    else false) = true) \/
  (~ Model.tuning self w /\
   (if Config.model_tuning (Model.config self)
       && negb (String.eqb (Config.mode (Model.config self)) "supervised")
    then Model.isdir w (Config.model_path (Model.config self))
    else false) = false).
Proof.
  unfold Model.tuning.
  destruct (Config.model_tuning (Model.config self)); cbn [andb].
  - destruct (String.eqb_spec (Config.mode (Model.config self)) "supervised") as [Heq|Hne];
      cbn [negb].
    + right. split; [|reflexivity]. intros (_ & Hmode & _). contradiction.
    + destruct (Model.isdir w _).
      * left. split; [|reflexivity]. split; [reflexivity|]. split; [exact Hne|reflexivity].
      * right. split; [|reflexivity]. intros (_ & _ & Hdir). discriminate.
  - right. split; [|reflexivity]. intros (Hoff & _). discriminate.
Qed.

(** What [restore_weights] does in either case. *)
Lemma restore_weights_skipped (self : Model.t Weights) (w : Model.World Weights) :
  ~ Model.tuning self w ->
  Model.restore_weights self w = (w, Ok (Model.model self)).
Proof.
  intros Hnot. destruct (tuning_dec self w) as [[Hyes _]|[_ Hcond]]; [contradiction|].
  unfold Model.restore_weights, Model.bindM, Model.os_path_isdir, Model.ret.
  destruct (Config.model_tuning (Model.config self)
            && negb (String.eqb (Config.mode (Model.config self)) "supervised")).
  - now rewrite Hcond.
  - reflexivity.
Qed.

(** *** What an action adds to the trace *)

Lemma quiet_ret {A} (a : A) : Model.quiet (Model.ret (Weights := Weights) a).
Proof.
  intros w. exists []. split; [now rewrite app_nil_r|].
  intros path Hin. now apply elem_of_nil in Hin.
Qed.

Lemma quiet_raise {A} (e : exn) :
  Model.quiet (Model.raise (Weights := Weights) (A := A) e).
Proof.
  intros w. exists []. split; [now rewrite app_nil_r|].
  intros path Hin. now apply elem_of_nil in Hin.
Qed.

Lemma quiet_bind {A B} (m : Model.M Weights A) (k : A -> Model.M Weights B) :
  Model.quiet m -> (forall a, Model.quiet (k a)) -> Model.quiet (Model.bindM m k).
Proof.
  intros Hm Hk w. unfold Model.bindM.
  destruct (Hm w) as (evs1 & Htrace1 & Hno1).
  destruct (m w) as [w1 [a|e]]; cbn [fst] in Htrace1.
  - destruct (Hk a w1) as (evs2 & Htrace2 & Hno2).
    exists (evs1 ++ evs2). split.
    + now rewrite Htrace2, Htrace1, app_assoc.
    + intros path Hin. apply elem_of_app in Hin as [Hin|Hin];
        [now apply (Hno1 path)|now apply (Hno2 path)].
  - exists evs1. split; [exact Htrace1|exact Hno1].
Qed.

Lemma quiet_emit (e : Model.event Weights) :
  (forall path, e <> Model.LoadWeights path) -> Model.quiet (Model.emit e).
Proof.
  intros Hne w. exists [e]. split; [reflexivity|].
  intros path Hin. apply list_elem_of_singleton in Hin. now apply (Hne path).
Qed.

Lemma quiet_append_file (path : string) (m : Model.message) :
  Model.quiet (Model.append_file (Weights := Weights) path m).
Proof.
  intros w. exists []. split.
  - unfold Model.append_file. destruct (Model.can_open w path); cbn;
      now rewrite app_nil_r.
  - intros p Hin. now apply elem_of_nil in Hin.
Qed.

Lemma quiet_dump (path : string) (history : list (EarlyStop.Logs float)) :
  Model.quiet (Model.dump (Weights := Weights) path history).
Proof.
  intros w. exists []. split.
  - unfold Model.dump. destruct (Model.can_open w path); cbn;
      now rewrite app_nil_r.
  - intros p Hin. now apply elem_of_nil in Hin.
Qed.

Lemma quiet_log (config : Config.t) (m : Model.message) :
  Model.quiet (Model.log (Weights := Weights) config m).
Proof.
  unfold Model.log. apply quiet_bind.
  - destruct (Config.verbose config); [|apply quiet_ret].
    apply quiet_emit. discriminate.
  - intros _. destruct (negb _); [apply quiet_append_file|apply quiet_ret].
Qed.

Lemma quiet_prints (ls : list (EarlyStop.line float)) :
  Model.quiet (Model.prints (Weights := Weights) ls).
Proof.
  induction ls as [|l rest IH]; cbn [Model.prints]; [apply quiet_ret|].
  apply quiet_bind; [|intros _; exact IH].
  apply quiet_emit. discriminate.
Qed.

Lemma quiet_fit_loop (config : Config.t) (data : Data) (n : nat) :
  forall (m : Model.Sequential Weights) (cb : EarlyStop.t float) (epoch : Z)
         (history : list (EarlyStop.Logs float)),
    Model.quiet (Model.fit_loop run_epoch config data n m cb epoch history).
Proof.
  induction n as [|n IH]; intros m cb epoch history; cbn [Model.fit_loop];
    [apply quiet_ret|].
  destruct (run_epoch config m data epoch) as [ws logs].
  apply quiet_bind; [apply quiet_log|]. intros _.
  destruct (EarlyStop.on_epoch_end cb epoch logs) as [cb' [[]|e]];
    [|apply quiet_raise].
  apply quiet_bind; [apply quiet_prints|]. intros _.
  destruct (EarlyStop.stop_training cb'); [apply quiet_ret|apply IH].
Qed.

Lemma restore_weights_attempted (self : Model.t Weights) (w : Model.World Weights) :
  Model.tuning self w ->
  exists evs,
    Model.trace (fst (Model.restore_weights self w)) =
      Model.trace w ++
      Model.LoadWeights (Config.model_path (Model.config self) +:+ "/weights") :: evs.
Proof.
  intros Hyes. destruct (tuning_dec self w) as [[_ Hcond]|[Hnot _]]; [|contradiction].
  unfold Model.restore_weights, Model.bindM, Model.os_path_isdir, Model.ret.
  destruct (Config.model_tuning (Model.config self)
            && negb (String.eqb (Config.mode (Model.config self)) "supervised"));
    [|discriminate].
  rewrite Hcond. unfold Model.load_weights, Model.bindM, Model.emit.
  cbn [Model.checkpoints].
  destruct (Model.checkpoints w !! _) as [ws|]; [|exists []; reflexivity].
  match goal with
  | |- context [Model.log ?c ?m ?w1] =>
      destruct (quiet_log c m w1) as (evs & Htrace & _);
      destruct (Model.log c m w1) as [w2 [[]|e]]
  end; cbn [fst] in Htrace |- *; exists evs; rewrite Htrace; cbn;
    now rewrite <- app_assoc.
Qed.

Lemma after_restore_trace (self : Model.t Weights) (data : Data) (test : bool)
    (experiment : string) (w w1 : Model.World Weights) (m : Model.Sequential Weights) :
  Model.restore_weights self w = (w1, Ok m) ->
  exists evs,
    Model.trace (fst (Model.train run_epoch self data test experiment w)) =
      Model.trace w1 ++ Model.FitStart (Model.weights m) :: evs /\
    forall path, Model.LoadWeights path ∉ evs.
Proof.
  intros Hrestore.
  unfold Model.train. unfold Model.bindM at 1. rewrite Hrestore.
  unfold Model.fit_generator. unfold Model.bindM at 1. unfold Model.bindM at 1.
  cbn [Model.emit].
  match goal with
  | |- context [Model.fit_loop ?r ?c ?d ?n ?m0 ?cb ?e ?h ?w2] =>
      destruct (quiet_fit_loop c d n m0 cb e h w2) as (evs1 & Htrace1 & Hno1);
      destruct (Model.fit_loop r c d n m0 cb e h w2) as [w3 [fitted|err]]
  end; cbn [fst Model.trace] in Htrace1.
  - match goal with
    | |- context [Model.bindM ?a ?k w3] =>
        assert (Hq : Model.quiet (Model.bindM a k))
          by (apply quiet_bind; [apply quiet_dump|intros _; apply quiet_ret]);
        destruct (Hq w3) as (evs2 & Htrace2 & Hno2)
    end.
    exists (evs1 ++ evs2). split.
    + rewrite Htrace2, Htrace1, <- !app_assoc. reflexivity.
    + intros path Hin. apply elem_of_app in Hin as [Hin|Hin];
        [now apply (Hno1 path)|now apply (Hno2 path)].
  - exists evs1. split; [|exact Hno1].
    cbn [fst]. rewrite Htrace1, <- app_assoc. reflexivity.
Qed.

Lemma init_result (config : Config.t) (w w' : Model.World Weights) (self : Model.t Weights) :
  Model.__init__ initialise config w = (w', Ok self) ->
  Model.config self = config /\
  Model.layers (Model.model self) = Model.create_layers config /\
  Model.weights (Model.model self) =
    initialise (Model.rng w) (Model.create_layers config) /\
  Model.stop_training (Model.model self) = false /\
  Model.rng w' = S (Model.rng w).
Proof.
  unfold Model.__init__, Model.create_model, Model.log, Model.bindM, Model.emit,
    Model.fresh_weights, Model.ret, Model.append_file.
  destruct (Config.verbose config); cbn;
    destruct (negb (String.eqb (Config.log_file config) "")); cbn;
    try (destruct (Model.can_open w (Config.log_file config)) eqn:Hopen; cbn;
         rewrite ?Hopen; cbn);
    intros [= <- <-]; cbn; repeat split.
Qed.

Lemma init_returns (config : Config.t) (w : Model.World Weights) :
  Config.log_file config = "" \/ Model.can_open w (Config.log_file config) = true ->
  exists w' self, Model.__init__ initialise config w = (w', Ok self).
Proof.
  unfold Model.__init__, Model.create_model, Model.log, Model.bindM, Model.emit,
    Model.fresh_weights, Model.ret, Model.append_file.
  intros [-> | Hopen]; destruct (Config.verbose config); cbn;
    try destruct (negb (String.eqb (Config.log_file config) "")); cbn;
    rewrite ?Hopen; cbn; rewrite ?Hopen; cbn;
    eexists _, _; reflexivity.
Qed.

Lemma init_trace (config : Config.t) (w : Model.World Weights) :
  exists evs,
    Model.trace (fst (Model.__init__ initialise config w)) =
    Model.trace w ++ Model.GraphReset :: evs.
Proof.
  unfold Model.__init__, Model.create_model, Model.log, Model.bindM, Model.emit,
    Model.fresh_weights, Model.ret, Model.append_file.
  destruct (Config.verbose config); cbn;
    destruct (negb (String.eqb (Config.log_file config) "")); cbn;
    try (destruct (Model.can_open w (Config.log_file config)) eqn:Hopen; cbn;
         rewrite ?Hopen; cbn);
    rewrite <- ?app_assoc; cbn; eexists; reflexivity.
Qed.

(** C10. [__copy__] resets the graph and returns [Model(self.config)],
    which resets it again: the outcome depends on [self] through its
    configuration only. A returned copy has that configuration, the layers
    [create_model] builds from it, weights drawn afresh by the initialisers
    from the random state of the call (not the weights of [self]) and
    [stop_training] clear. The call returns whenever the log file is
    unset or can be opened. *)
Theorem copy_builds_fresh_model (self : Model.t Weights) (w : Model.World Weights) :
  (forall other : Model.t Weights,
     Model.config other = Model.config self ->
     Model.__copy__ initialise other w = Model.__copy__ initialise self w) /\
  (exists evs,
     Model.trace (fst (Model.__copy__ initialise self w)) =
     Model.trace w ++ Model.GraphReset :: Model.GraphReset :: evs) /\
  (forall (w' : Model.World Weights) (c : Model.t Weights),
     Model.__copy__ initialise self w = (w', Ok c) ->
     Model.config c = Model.config self /\
     Model.layers (Model.model c) = Model.create_layers (Model.config self) /\
     Model.weights (Model.model c) =
       initialise (Model.rng w) (Model.create_layers (Model.config self)) /\
     Model.stop_training (Model.model c) = false /\
     Model.rng w' = S (Model.rng w)) /\
  (Config.log_file (Model.config self) = "" \/
   Model.can_open w (Config.log_file (Model.config self)) = true ->
   exists w' c, Model.__copy__ initialise self w = (w', Ok c)).
Proof.
  split; [|split; [|split]].
  - intros other Hconfig. unfold Model.__copy__. now rewrite Hconfig.
  - unfold Model.__copy__, Model.bindM. cbn [Model.emit].
    match goal with
    | |- context [Model.__init__ initialise ?c ?w1] =>
        destruct (init_trace c w1) as [evs Htrace]
    end.
    exists evs. rewrite Htrace. cbn. now rewrite <- app_assoc.
  - intros w' c Hcopy. unfold Model.__copy__, Model.bindM in Hcopy.
    cbn [Model.emit] in Hcopy. apply init_result in Hcopy. exact Hcopy.
  - intros Hlog. unfold Model.__copy__, Model.bindM. cbn [Model.emit].
    apply init_returns. exact Hlog.
Qed.

Lemma drop_new_events {A} (old new : list A) : drop (length old) (old ++ new) = new.
Proof. apply drop_app_length. Qed.

(** C7 (amended). The events of a call of [train] contain a call of [load_weights]
    exactly when model tuning is on, the mode is not ['supervised'] and
    [os.path.isdir(model_path)] holds, and that call is then the first
    event, for [model_path + '/weights']. Otherwise, so whenever the
    directory check fails, the first event is the start of the fit, from
    the weights the model had on entry, and no later event is a load; for a
    model that [Model(config)] just built these are the freshly drawn
    weights. *)
Theorem weights_loaded_iff_tuning_and_directory
    (self : Model.t Weights) (data : Data) (test : bool) (experiment : string)
    (w : Model.World Weights) :
  let events :=
    drop (length (Model.trace w))
      (Model.trace (fst (Model.train run_epoch self data test experiment w))) in
  let attempt :=
    Model.LoadWeights (Config.model_path (Model.config self) +:+ "/weights") in
  let starts_from (ws : Weights) :=
    exists rest,
      events = Model.FitStart ws :: rest /\
      forall path, Model.LoadWeights path ∉ events in
  ((exists path, Model.LoadWeights path ∈ events) <-> Model.tuning self w) /\
  (Model.tuning self w -> exists rest, events = attempt :: rest) /\
  (~ Model.tuning self w -> starts_from (Model.weights (Model.model self))) /\
  (Model.isdir w (Config.model_path (Model.config self)) = false ->
     starts_from (Model.weights (Model.model self))) /\
  (forall (config : Config.t) (w0 : Model.World Weights),
     Model.__init__ initialise config w0 = (w, Ok self) ->
     Model.isdir w (Config.model_path config) = false ->
     starts_from (initialise (Model.rng w0) (Model.create_layers config))).
Proof.
  intros events attempt starts_from.
  assert (Hyes : Model.tuning self w -> exists rest, events = attempt :: rest).
  { intros Htuning.
    destruct (restore_weights_attempted self w Htuning) as [evs Hrestore].
    destruct (Model.restore_weights self w) as [w1 [m|e]] eqn:Hrun;
      cbn [fst] in Hrestore.
    - destruct (after_restore_trace self data test experiment w w1 m Hrun)
        as (evs' & Hrest & _).
      unfold events. rewrite Hrest, Hrestore, <- app_assoc, drop_new_events.
      eexists. reflexivity.
    - unfold events, Model.train. unfold Model.bindM at 1. rewrite Hrun.
      cbn [fst]. rewrite Hrestore, drop_new_events. eexists. reflexivity. }
  assert (Hno : ~ Model.tuning self w ->
                starts_from (Model.weights (Model.model self))).
  { intros Hnot.
    destruct (after_restore_trace self data test experiment w w (Model.model self)
                (restore_weights_skipped self w Hnot)) as (evs & Htrace & Hnone).
    assert (Hevents : events = Model.FitStart (Model.weights (Model.model self)) :: evs).
    { unfold events. rewrite Htrace. apply drop_new_events. }
    exists evs. split; [exact Hevents|].
    intros path Hin. rewrite Hevents in Hin.
    apply elem_of_cons in Hin as [Hin|Hin]; [discriminate|now apply (Hnone path)]. }
  assert (Hdir : Model.isdir w (Config.model_path (Model.config self)) = false ->
                 ~ Model.tuning self w).
  { intros Hmissing (_ & _ & Hthere). rewrite Hmissing in Hthere. discriminate. }
  split; [|split; [exact Hyes|split; [exact Hno|split]]].
  - split.
    + intros [path Hin].
      destruct (tuning_dec self w) as [[Htuning _]|[Hnot _]]; [exact Htuning|].
      destruct (Hno Hnot) as (rest & _ & Hnone). now apply Hnone in Hin.
    + intros Htuning. destruct (Hyes Htuning) as [rest ->].
      eexists. left.
  - intros Hmissing. apply Hno, Hdir, Hmissing.
  - intros config w0 Hinit Hmissing.
    destruct (init_result config w0 w self Hinit) as (Hconfig & _ & Hweights & _).
    rewrite <- Hweights. apply Hno, Hdir. now rewrite Hconfig.
Qed.

(** C6 (amended). When the block of lines 149-152 returns, the fit
    returns its history, and [open('/History/' + experiment, 'wb')]
    succeeds, [train] returns and leaves that file holding exactly the
    pickled history; no other file changes after the fit. The path starts
    at the root: it is absolute. *)
Theorem train_writes_history
    (self : Model.t Weights) (data : Data) (test : bool) (experiment : string)
    (w w1 w2 : Model.World Weights) (m : Model.Sequential Weights)
    (fitted : Model.Sequential Weights * list (EarlyStop.Logs float)) :
  Model.restore_weights self w = (w1, Ok m) ->
  Model.fit_generator run_epoch (Model.config self) m data w1 = (w2, Ok fitted) ->
  Model.can_open w2 ("/History/" +:+ experiment) = true ->
  exists w3,
    Model.train run_epoch self data test experiment w =
      (w3, Ok (Model.set_model self (fst fitted))) /\
    Model.files w3 !! ("/History/" +:+ experiment) = Some [Model.Pickled (snd fitted)] /\
    (forall path, path <> "/History/" +:+ experiment ->
       Model.files w3 !! path = Model.files w2 !! path) /\
    Model.isabs ("/History/" +:+ experiment) = true.
Proof.
  intros Hrestore Hfit Hopen.
  unfold Model.train. unfold Model.bindM at 1. rewrite Hrestore.
  unfold Model.bindM at 1. rewrite Hfit.
  unfold Model.bindM, Model.dump, Model.history_path, Model.ret.
  rewrite Hopen. eexists. split; [reflexivity|].
  cbn [Model.set_files Model.files]. split; [|split].
  - apply lookup_insert_eq.
  - intros path Hpath. now apply lookup_insert_ne.
  - reflexivity.
Qed.

End ModelFacts.

(** ** Sample runs *)

(** Witness of C4, on the six falling epochs with floor 5 and interval 2.
    The sixth epoch is an evaluated boundary: the quotient -50 / 125 is
    printed and does not exceed the target. The fifth is off the interval
    and the second is below the floor: both calls only record. *)
Lemma decision_evaluated_iff_due_witness :
  let start := EarlyStop.__init__ 5 2 1%float in
  let sixth := EarlyStop.calls start 0 (take 5 steady_epochs64) in
  let fifth := EarlyStop.calls start 0 (take 4 steady_epochs64) in
  let second := EarlyStop.calls start 0 (take 1 steady_epochs64) in
  let recorded (self : EarlyStop.t float) (epoch : Z) (logs : EarlyStop.Logs float) :=
    EarlyStop.record (EarlyStop.emit self (EarlyStop.Message (epoch + 1) logs)) logs in
  EarlyStop.on_epoch_end sixth 5 (logs64 3 1) =
    (EarlyStop.emit (recorded sixth 5 (logs64 3 1))
       (EarlyStop.Progress (-50 / 125)%float), Ok tt) /\
  EarlyStop.on_epoch_end fifth 4 (logs64 4 2) = (recorded fifth 4 (logs64 4 2), Ok tt) /\
  EarlyStop.on_epoch_end second 1 (logs64 7 5) = (recorded second 1 (logs64 7 5), Ok tt).
Proof.
  intros start sixth fifth second recorded.
  destruct (decision_evaluated_iff_due sixth 5 (logs64 3 1) ltac:(lia))
    as (_ & Hdue & _).
  destruct (decision_evaluated_iff_due fifth 4 (logs64 4 2) ltac:(lia))
    as (_ & _ & Hoff & _).
  destruct (decision_evaluated_iff_due second 1 (logs64 7 5) ltac:(lia))
    as (_ & _ & _ & Hearly & _).
  split; [|split].
  - rewrite Hdue.
    + vm_compute. reflexivity.
    + split; [exists 3; reflexivity|vm_compute; discriminate].
  - apply Hoff.
    + vm_compute. discriminate.
    + intros [[k Hk] _]. change (EarlyStop.batch fifth) with 2 in Hk. lia.
  - apply Hearly.
    + vm_compute. discriminate.
    + vm_compute. reflexivity.
Defined.

(** C1. The written start index [--(self.batch+1)] is [batch + 1] counted
    from the front, not [-(batch+1)] counted from the end. With the
    callback's defaults (floor 0, interval 5) the slice of line 143 is
    empty at the first evaluated boundary, so [min] raises [ValueError]
    where the slice with the single negation holds four losses; with floor
    7 and interval 2 both slices are non-empty after eight epochs and their
    minima differ. *)
Theorem double_negation_is_not_negation :
  let defaults := EarlyStop.calls (EarlyStop.__init__ 0 5 1%float) 0 five_epochs in
  let later := EarlyStop.calls (EarlyStop.__init__ 7 2 1%float) 0 eight_epochs in
  let negated (self : EarlyStop.t float) :=
    Py.slice (EarlyStop.train_losses self)
      (Some (- (EarlyStop.batch self + 1))) (Some (-1)) in
  (forall self : EarlyStop.t float,
     EarlyStop.denominator_window self =
     Py.slice (EarlyStop.train_losses self)
       (Some (EarlyStop.batch self + 1)) (Some (-1))) /\
  (EarlyStop.denominator_window defaults = [] /\
   min_ (EarlyStop.denominator_window defaults) = Raise ValueError /\
   negated defaults = [8; 4; 2; 1]%float /\
   min_ (negated defaults) = Ok 1%float /\
   snd (EarlyStop.epochs (EarlyStop.__init__ 0 5 1%float) 0 five_epochs) =
     Raise ValueError) /\
  (EarlyStop.denominator_window later = [1; 5; 4; 3]%float /\
   min_ (EarlyStop.denominator_window later) = Ok 1%float /\
   negated later = [4; 3]%float /\
   min_ (negated later) = Ok 3%float).
Proof.
  split; [exact denominator_window_start|].
  vm_compute. repeat split.
Qed.

(** Counterexample to C2 as stated: interval 1, floor 4, target 1/16.
    The validation losses 8, 4, 2, 1 fall throughout; at the fourth epoch
    [g_loss = -50] and [t_progress = -500], their quotient exceeds the
    target and [stop_training] is set. *)
Lemma decreasing_validation_loss_can_stop :
  let run := EarlyStop.epochs (EarlyStop.__init__ 4 1 0.0625%float) 0 falling_epochs in
  EarlyStop.val_losses (fst run) = [8; 4; 2; 1]%float /\
  all_positive (EarlyStop.val_losses (fst run)) = true /\
  decreasing (EarlyStop.val_losses (fst run)) = true /\
  EarlyStop.g_loss (fst run) = Ok (-50)%float /\
  EarlyStop.t_progress (fst run) = Ok (-500)%float /\
  snd run = Ok tt /\
  EarlyStop.stop_training (fst run) = true.
Proof. vm_compute. repeat split. Qed.

(** Witness of C2: interval 2, floor 5, target 1, six epochs of falling
    losses; [t_progress] is 125. *)
Lemma decreasing_validation_loss_keeps_training_witness :
  let self := EarlyStop.calls (EarlyStop.__init__ 5 2 1%float) 0 steady_epochs64 in
  (exists g, EarlyStop.g_loss self = Ok g /\ le g (of_int 0) = true) /\
  (exists q,
     EarlyStop.progress_quotient self = Ok q /\
     gt q (EarlyStop.target self) = false /\
     snd (EarlyStop.evaluate self 5) = Ok tt /\
     EarlyStop.stop_training (fst (EarlyStop.evaluate self 5)) =
       EarlyStop.stop_training self).
Proof.
  intros self.
  destruct (decreasing_validation_loss_keeps_training (F := float) self 5)
    as [Hsign Hstop].
  - vm_compute. reflexivity.
  - vm_compute. reflexivity.
  - vm_compute. lia.
  - split; [exact Hsign|].
    apply (Hstop 125%float); vm_compute; reflexivity.
Defined.

Ltac each_epoch j Hlook :=
  repeat (destruct j as [|j];
          [injection Hlook as <-; vm_compute; split; reflexivity|]).

(** Witness of C3: interval 2, floor 5, target 1. The sixth epoch is an
    evaluated boundary with quotient 25 / 125; at the eighth the validation
    loss 8 lies above the earlier minimum 2, the quotient is 300 / 250, and
    the loop ends there. *)
Lemma rising_validation_loss_stops_at_boundary_witness :
  let start := EarlyStop.__init__ 5 2 1%float in
  let after := EarlyStop.calls start 0 (take 8 rising_epochs64) in
  (exists g, EarlyStop.g_loss after = Ok g /\ lt (of_int 0) g = true) /\
  EarlyStop.epochs start 0 rising_epochs64 = (after, Ok tt) /\
  EarlyStop.stop_training after = true /\
  (forall j : nat, (j <= 7)%nat ->
     EarlyStop.stop_training (EarlyStop.calls start 0 (take j rising_epochs64)) = false).
Proof.
  intros start after.
  apply (rising_validation_loss_stops_at_boundary (F := float)
           rising_epochs64 start 0 7 (logs64 1 8) 2%float).
  - reflexivity.
  - reflexivity.
  - vm_compute. reflexivity.
  - vm_compute. reflexivity.
  - vm_compute. reflexivity.
  - vm_compute. reflexivity.
  - intros j earlier Hj Hlook. each_epoch j Hlook. lia.
Defined.

(** C9 at its failing input: a new callback with interval 2 and floor 0,
    at the end of the second epoch. Two positive validation losses are
    recorded and [g_loss] is -50; the slice with the single negation holds
    the first training loss, and the progress over it would be -500, not
    zero; the slice of line 143 is empty, its [min] raises, and the fit
    ends with [ValueError]. *)
Lemma interval_two_nonzero_progress_raises :
  let start := EarlyStop.__init__ 0 2 1%float in
  let early := EarlyStop.calls start 0 (take 2 falling_epochs) in
  (2 <=? EarlyStop.batch early) = true /\
  EarlyStop.val_losses early = [8; 4]%float /\
  EarlyStop.train_losses early = [8; 4]%float /\
  EarlyStop.g_loss early = Ok (-50)%float /\
  EarlyStop.numerator_window early = [8]%float /\
  (1000 * (8 / (2 * 8) - 1))%float = (-500)%float /\
  is_zero (-500)%float = false /\
  EarlyStop.denominator_window early = [] /\
  EarlyStop.t_progress early = Raise ValueError /\
  EarlyStop.epochs start 0 falling_epochs = (early, Raise ValueError).
Proof. vm_compute. repeat split. Qed.

(** Witness of C9. At the failing input above the evaluation raises from
    line 143. On the six epochs whose training loss is level over the
    fourth and fifth, [t_progress] is zero and [g_loss] is 100: the
    quotient is taken all the same, it is the infinity, nothing is raised,
    and since it exceeds the target [stop_training] is set. *)
Lemma evaluation_well_defined_witness :
  let early := EarlyStop.calls (EarlyStop.__init__ 0 2 1%float) 0 (take 2 falling_epochs) in
  let flat := EarlyStop.calls (EarlyStop.__init__ 5 2 1%float) 0 (take 5 flat_epochs) in
  let level :=
    EarlyStop.record (EarlyStop.emit flat (EarlyStop.Message 6 (logs64 3 4))) (logs64 3 4) in
  (EarlyStop.t_progress early = Raise ValueError /\
   EarlyStop.evaluate early 1 = (early, Raise ValueError)) /\
  (EarlyStop.t_progress level = Ok 0%float /\
   is_zero 0%float = true /\
   EarlyStop.progress_quotient level = Ok infinity /\
   snd (EarlyStop.evaluate level 5) = Ok tt /\
   EarlyStop.stop_training (fst (EarlyStop.evaluate level 5)) = true).
Proof.
  intros early flat level. split.
  - destruct (evaluation_well_defined early 1) as (_ & _ & _ & _ & Hshort).
    destruct Hshort as (_ & _ & _ & Hp & Hraise).
    + vm_compute. discriminate.
    + vm_compute. lia.
    + vm_compute. lia.
    + vm_compute. discriminate.
    + split; [exact Hp|exact Hraise].
  - destruct (evaluation_well_defined level 5) as (_ & _ & Hdiv & _).
    destruct (Hdiv 100%float 0%float) as (Hq & Hok & Hstop).
    + vm_compute. reflexivity.
    + vm_compute. reflexivity.
    + split; [vm_compute; reflexivity|]. split; [reflexivity|].
      split; [exact Hq|]. split; [exact Hok|].
      rewrite Hstop. vm_compute. reflexivity.
Defined.

(** Counterexample to C5 as stated. With [self.log] as [log_fn] and a log
    file that cannot be opened, the call raises [OSError] at line 137 and
    appends nothing; with a dict that lacks ['val_loss'] the formatting of
    line 134 raises [TypeError] and nothing is appended either. Two such
    calls leave both histories empty. *)
Lemma refused_log_appends_nothing :
  let start := EarlyStop.__init__ 10 5 1%float in
  let refused :=
    EarlyStop.on_epoch_end_with (self_log logged_config) start readonly_world 0
      (EarlyStop.dict (logs64 1 1)) in
  let unformatted :=
    EarlyStop.on_epoch_end_with EarlyStop.print start [] 0 (training_only 1) in
  let twice :=
    EarlyStop.calls_with (self_log logged_config) start readonly_world 0
      [EarlyStop.dict (logs64 1 1); EarlyStop.dict (logs64 1 1)] in
  snd refused = Raise OSError /\
  fst (fst refused) = start /\
  EarlyStop.val_losses (fst (fst refused)) = [] /\
  EarlyStop.train_losses (fst (fst refused)) = [] /\
  unformatted = (start, [], Raise TypeError) /\
  length (EarlyStop.val_losses (fst twice)) = 0%nat /\
  length (EarlyStop.train_losses (fst twice)) = 0%nat.
Proof. vm_compute. repeat split. Qed.

(** Witness of C5: the fifth call on a callback with the defaults, with
    [print] as [log_fn]. The evaluation raises (the slice of line 143 is
    empty) and the epoch's losses are appended all the same. *)
Lemma history_grows_by_one_per_epoch_witness :
  let before := EarlyStop.calls (EarlyStop.__init__ 0 5 1%float) 0 (take 4 five_epochs) in
  let call :=
    EarlyStop.on_epoch_end_with EarlyStop.print before [] 4
      (EarlyStop.dict (logs64 0.5 0.5)) in
  snd call = Raise ValueError /\
  EarlyStop.val_losses (fst (fst call)) = [8; 4; 2; 1; 0.5]%float /\
  EarlyStop.train_losses (fst (fst call)) = [8; 4; 2; 1; 0.5]%float.
Proof.
  intros before call. split; [vm_compute; reflexivity|].
  destruct (history_grows_by_one_per_epoch (F := float)) as (Hcall & _ & _).
  destruct (Hcall _ EarlyStop.print before [] 4 (EarlyStop.dict (logs64 0.5 0.5)))
    as (Hpassed & _ & _).
  apply (Hpassed (logs64 0.5 0.5)
           [EarlyStop.Message 5 (logs64 0.5 0.5)]); reflexivity.
Defined.

(** Counterexample to C6 as stated: for the default experiment ["0"] the
    history goes to ["/History/0"], a path from the root. *)
Lemma history_path_is_absolute :
  let w2 := fst (Model.train sample_run_epoch sample_model tt true "0" sample_world) in
  Model.history_path "0" = "/History/0" /\
  Model.isabs (Model.history_path "0") = true /\
  Model.files w2 !! "/History/0" = Some [Model.Pickled (snd sample_fitted)] /\
  Model.files w2 !! "History/0" = None.
Proof. vm_compute. repeat split. Qed.

(** Witness of C6: three epochs on the sample model. *)
Lemma train_writes_history_witness :
  exists w3,
    Model.train sample_run_epoch sample_model tt true "0" sample_world =
      (w3, Ok (Model.set_model sample_model (fst sample_fitted))) /\
    Model.files w3 !! ("/History/" +:+ "0") =
      Some [Model.Pickled (snd sample_fitted)] /\
    (forall path, path <> "/History/" +:+ "0" ->
       Model.files w3 !! path = Model.files sample_after_fit !! path) /\
    Model.isabs ("/History/" +:+ "0") = true.
Proof.
  apply (train_writes_history sample_run_epoch sample_model tt true "0"
           sample_world sample_world sample_after_fit
           (Model.model sample_model) sample_fitted);
    vm_compute; reflexivity.
Defined.

(** Witness of C7: tuning is on and the mode is not supervised, but the
    directory is missing: the fit starts from the model's seven passes and
    nothing is loaded. *)
Lemma weights_loaded_iff_tuning_and_directory_witness :
  let events :=
    drop (length (Model.trace sample_world))
      (Model.trace
         (fst (Model.train sample_run_epoch sample_model tt true "0" sample_world))) in
  exists rest,
    events = Model.FitStart 7%nat :: rest /\
    forall path, Model.LoadWeights path ∉ events.
Proof.
  apply (proj1 (proj2 (proj2 (proj2
           (weights_loaded_iff_tuning_and_directory sample_initialise
              sample_run_epoch sample_model tt true "0" sample_world))))).
  reflexivity.
Defined.

(** Counterexample to C7 as stated. [Model(config)] builds a model with
    the fresh weights (no pass yet); a first [train] of three epochs
    leaves three passes; the directory is missing, so a second [train]
    loads nothing, and its fit starts from the three passes of the first,
    not from freshly initialised weights. *)
Lemma retrained_model_keeps_trained_weights :
  let built := Model.__init__ sample_initialise sample_config sample_world in
  let first :=
    match snd built with
    | Ok self => Model.train sample_run_epoch self tt true "0" (fst built)
    | Raise e => (fst built, Raise e)
    end in
  let second :=
    match snd first with
    | Ok self => Model.train sample_run_epoch self tt true "1" (fst first)
    | Raise e => (fst first, Raise e)
    end in
  let events := drop (length (Model.trace (fst first))) (Model.trace (fst second)) in
  (exists self, snd built = Ok self /\ Model.weights (Model.model self) = 0%nat) /\
  (exists self,
     snd first = Ok self /\ Model.weights (Model.model self) = 3%nat /\
     Model.isdir (fst first) (Config.model_path (Model.config self)) = false) /\
  head events = Some (Model.FitStart 3%nat) /\
  existsb is_load events = false /\
  sample_initialise (Model.rng (fst first)) (Model.create_layers sample_config) <> 3%nat.
Proof.
  vm_compute. repeat split; try (eexists; repeat split); discriminate.
Qed.


(** Witness of C10: the copy of the sample model starts from the random
    state, not from the seven passes. *)
Lemma copy_builds_fresh_model_witness :
  exists w' c,
    Model.__copy__ sample_initialise sample_model sample_world = (w', Ok c) /\
    Model.weights (Model.model c) = 0%nat.
Proof.
  destruct (copy_builds_fresh_model sample_initialise sample_model sample_world)
    as (_ & _ & Hfresh & Hreturns).
  destruct Hreturns as (w' & c & Hcopy); [left; reflexivity|].
  exists w', c. split; [exact Hcopy|].
  apply (Hfresh w' c Hcopy).
Defined.

(** The run of the witness of C3, on binary64 and in exact arithmetic:
    the same boundary and the same two ratios. *)
Lemma rising_run_binary64 :
  let start := EarlyStop.__init__ 5 2 1%float in
  let run := EarlyStop.epochs start 0 rising_epochs64 in
  snd run = Ok tt /\
  fst run = EarlyStop.calls start 0 rising_epochs64 /\
  EarlyStop.stop_training (fst run) = true /\
  EarlyStop.stop_training (EarlyStop.calls start 0 (take 7 rising_epochs64)) = false /\
  EarlyStop.g_loss (fst run) = Ok 300%float /\
  EarlyStop.t_progress (fst run) = Ok 250%float.
Proof. vm_compute. repeat split. Qed.

Lemma rising_run_rationals :
  let start := EarlyStop.__init__ 5 2 1%Q in
  let run := EarlyStop.epochs start 0 rising_epochs in
  snd run = Ok tt /\
  fst run = EarlyStop.calls start 0 rising_epochs /\
  EarlyStop.stop_training (fst run) = true /\
  EarlyStop.stop_training (EarlyStop.calls start 0 (take 7 rising_epochs)) = false /\
  (exists g, EarlyStop.g_loss (fst run) = Ok g /\ (g == 300)%Q) /\
  (exists p, EarlyStop.t_progress (fst run) = Ok p /\ (p == 250)%Q).
Proof. vm_compute. repeat split; eexists; (split; [reflexivity|reflexivity]). Qed.

(** * Further properties of the code *)

(** ** The callback between calls *)

Section EarlyStopRuns.
Context {F : Type} `{Number F}.

Lemma evaluate_settings (self : EarlyStop.t F) (epoch : Z) :
  EarlyStop.min_epochs (fst (EarlyStop.evaluate self epoch)) = EarlyStop.min_epochs self /\
  EarlyStop.batch (fst (EarlyStop.evaluate self epoch)) = EarlyStop.batch self /\
  EarlyStop.target (fst (EarlyStop.evaluate self epoch)) = EarlyStop.target self.
Proof.
  unfold EarlyStop.evaluate.
  destruct (EarlyStop.progress_quotient self) as [q|e]; [|done].
  destruct (gt q _); done.
Qed.

Lemma on_epoch_end_settings (self : EarlyStop.t F) (epoch : Z) (logs : EarlyStop.Logs F) :
  EarlyStop.min_epochs (fst (EarlyStop.on_epoch_end self epoch logs)) =
    EarlyStop.min_epochs self /\
  EarlyStop.batch (fst (EarlyStop.on_epoch_end self epoch logs)) = EarlyStop.batch self /\
  EarlyStop.target (fst (EarlyStop.on_epoch_end self epoch logs)) = EarlyStop.target self.
Proof.
  rewrite on_epoch_end_state. cbv zeta.
  destruct (EarlyStop.due _ epoch) as [[|]|e]; [|done..].
  apply (evaluate_settings
           (EarlyStop.record (EarlyStop.emit self (EarlyStop.Message (epoch + 1) logs)) logs)).
Qed.

Lemma calls_settings (ls : list (EarlyStop.Logs F)) :
  forall (self : EarlyStop.t F) (epoch : Z),
    EarlyStop.min_epochs (EarlyStop.calls self epoch ls) = EarlyStop.min_epochs self /\
    EarlyStop.batch (EarlyStop.calls self epoch ls) = EarlyStop.batch self /\
    EarlyStop.target (EarlyStop.calls self epoch ls) = EarlyStop.target self.
Proof.
  induction ls as [|logs rest IH]; intros self epoch; cbn [EarlyStop.calls]; [done|].
  destruct (IH (fst (EarlyStop.on_epoch_end self epoch logs)) (epoch + 1)) as (-> & -> & ->).
  apply on_epoch_end_settings.
Qed.

Lemma calls_losses (ls : list (EarlyStop.Logs F)) :
  forall (self : EarlyStop.t F) (epoch : Z),
    EarlyStop.val_losses (EarlyStop.calls self epoch ls) =
      EarlyStop.val_losses self ++ map EarlyStop.val_loss ls /\
    EarlyStop.train_losses (EarlyStop.calls self epoch ls) =
      EarlyStop.train_losses self ++ map EarlyStop.loss ls.
Proof.
  induction ls as [|logs rest IH]; intros self epoch; cbn [EarlyStop.calls map].
  - now rewrite !app_nil_r.
  - destruct (IH (fst (EarlyStop.on_epoch_end self epoch logs)) (epoch + 1)) as [-> ->].
    destruct (on_epoch_end_losses self epoch logs) as [-> ->].
    now rewrite <- !app_assoc.
Qed.

(** X1. The two histories are the losses of the logged epochs, in epoch
    order: after any calls of the method, [val_losses] and [train_losses]
    are what they were followed by the [val_loss] and the [loss] of each
    call in which lines 133-137 returned, so that the two lists stay
    aligned item by item; a call in which the formatting or [log_fn]
    raised leaves no entry. A run of the framework's loop on a new
    callback leaves the losses of the logged ones among the [n] calls it
    made. With [print] and the dicts the framework passes every call is
    logged, and the histories are the losses of all the epochs. *)
Theorem history_is_the_logged_losses :
  (forall (W : Type) (log_fn : EarlyStop.line F -> W -> W * result unit)
          (self : EarlyStop.t F) (w : W) (epoch : Z)
          (ls : list (option (EarlyStop.Dict F))),
     let after := fst (EarlyStop.calls_with log_fn self w epoch ls) in
     EarlyStop.val_losses after =
       EarlyStop.val_losses self ++
       map EarlyStop.val_loss (EarlyStop.logged log_fn w epoch ls) /\
     EarlyStop.train_losses after =
       EarlyStop.train_losses self ++
       map EarlyStop.loss (EarlyStop.logged log_fn w epoch ls)) /\
  (forall (W : Type) (log_fn : EarlyStop.line F -> W -> W * result unit)
          (min_epochs batch : Z) (target : F) (w : W)
          (ls : list (option (EarlyStop.Dict F))),
     let run :=
       fst (fst (EarlyStop.epochs_with log_fn
                   (EarlyStop.__init__ min_epochs batch target) w 0 ls)) in
     exists n : nat,
       (n <= length ls)%nat /\
       EarlyStop.val_losses run =
         map EarlyStop.val_loss (EarlyStop.logged log_fn w 0 (take n ls)) /\
       EarlyStop.train_losses run =
         map EarlyStop.loss (EarlyStop.logged log_fn w 0 (take n ls))) /\
  (forall (self : EarlyStop.t F) (terminal : list (EarlyStop.line F)) (epoch : Z)
          (ls : list (EarlyStop.Logs F)),
     let after :=
       fst (EarlyStop.calls_with EarlyStop.print self terminal epoch
              (map EarlyStop.dict ls)) in
     after = EarlyStop.calls self epoch ls /\
     EarlyStop.val_losses after =
       EarlyStop.val_losses self ++ map EarlyStop.val_loss ls /\
     EarlyStop.train_losses after =
       EarlyStop.train_losses self ++ map EarlyStop.loss ls).
Proof.
  split; [|split].
  - intros W log_fn self w epoch ls. apply calls_with_losses.
  - intros W log_fn min_epochs batch target w ls run.
    destruct (epochs_with_prefix log_fn ls (EarlyStop.__init__ min_epochs batch target) w 0)
      as (n & Hn & Hrun & _).
    exists n. split; [exact Hn|]. unfold run. rewrite Hrun.
    destruct (calls_with_losses log_fn (take n ls)
                (EarlyStop.__init__ min_epochs batch target) w 0) as [-> ->].
    split; reflexivity.
  - intros self terminal epoch ls after.
    destruct (calls_with_print ls self terminal epoch) as [_ Hcalls].
    unfold after. rewrite Hcalls. split; [reflexivity|]. apply calls_losses.
Qed.

(** X2. The callback never changes its settings: after any number of
    calls, and after a run of the framework's loop, [min_epochs], [batch]
    and [target] are those it was built with. *)
Theorem callback_settings_never_change
    (self : EarlyStop.t F) (epoch : Z) (ls : list (EarlyStop.Logs F)) :
  (EarlyStop.min_epochs (EarlyStop.calls self epoch ls) = EarlyStop.min_epochs self /\
   EarlyStop.batch (EarlyStop.calls self epoch ls) = EarlyStop.batch self /\
   EarlyStop.target (EarlyStop.calls self epoch ls) = EarlyStop.target self) /\
  (EarlyStop.min_epochs (fst (EarlyStop.epochs self epoch ls)) = EarlyStop.min_epochs self /\
   EarlyStop.batch (fst (EarlyStop.epochs self epoch ls)) = EarlyStop.batch self /\
   EarlyStop.target (fst (EarlyStop.epochs self epoch ls)) = EarlyStop.target self).
Proof.
  split; [apply calls_settings|].
  destruct (epochs_calls_prefix ls self epoch) as (n & _ & ->).
  apply calls_settings.
Qed.

Lemma calls_stop (ls : list (EarlyStop.Logs F)) :
  forall (self : EarlyStop.t F) (epoch : Z),
    EarlyStop.stop_training self = true ->
    EarlyStop.stop_training (EarlyStop.calls self epoch ls) = true.
Proof.
  induction ls as [|logs rest IH]; intros self epoch Hset; cbn [EarlyStop.calls];
    [exact Hset|].
  apply IH. rewrite on_epoch_end_stop, Hset. reflexivity.
Qed.

(** X3. The callback only ever sets [stop_training]: once the flag is
    set, no later call clears it, whether the call is an evaluated
    boundary or not and whether it raises or not. *)
Theorem stop_training_is_never_cleared
    (self : EarlyStop.t F) (epoch : Z) (logs : EarlyStop.Logs F)
    (ls : list (EarlyStop.Logs F)) :
  EarlyStop.stop_training self = true ->
  EarlyStop.stop_training (fst (EarlyStop.on_epoch_end self epoch logs)) = true /\
  EarlyStop.stop_training (EarlyStop.calls self epoch ls) = true.
Proof.
  intros Hset. split.
  - rewrite on_epoch_end_stop, Hset. reflexivity.
  - now apply calls_stop.
Qed.

(** *** An interval of zero *)

(** X4. With [batch = 0] the [%] of line 140 raises: every call records
    the epoch's losses and then raises [ZeroDivisionError], without
    touching [stop_training]; the framework's loop ends with that error at
    its first epoch. *)
Theorem zero_interval_raises
    (self : EarlyStop.t F) (epoch : Z) (logs : EarlyStop.Logs F)
    (rest : list (EarlyStop.Logs F)) :
  EarlyStop.batch self = 0 ->
  EarlyStop.on_epoch_end self epoch logs =
    (EarlyStop.record (EarlyStop.emit self (EarlyStop.Message (epoch + 1) logs)) logs,
     Raise ZeroDivisionError) /\
  snd (EarlyStop.epochs self epoch (logs :: rest)) = Raise ZeroDivisionError /\
  EarlyStop.stop_training (fst (EarlyStop.epochs self epoch (logs :: rest))) =
    EarlyStop.stop_training self.
Proof.
  intros Hzero.
  assert (Hcall : EarlyStop.on_epoch_end self epoch logs =
    (EarlyStop.record (EarlyStop.emit self (EarlyStop.Message (epoch + 1) logs)) logs,
     Raise ZeroDivisionError)).
  { rewrite on_epoch_end_state. cbv zeta. unfold EarlyStop.due, Py.mod_.
    cbn [EarlyStop.batch EarlyStop.record EarlyStop.emit]. rewrite Hzero. reflexivity. }
  split; [exact Hcall|].
  cbn [EarlyStop.epochs]. rewrite Hcall. split; reflexivity.
Qed.

(** *** The first evaluated boundary *)

Lemma evaluate_short (self : EarlyStop.t F) (epoch : Z) :
  -1 <= EarlyStop.batch self ->
  Z.of_nat (length (EarlyStop.train_losses self)) <= EarlyStop.batch self + 2 ->
  EarlyStop.val_losses self <> [] ->
  exists e,
    EarlyStop.evaluate self epoch = (self, Raise e) /\
    (e = ValueError \/ e = ZeroDivisionError).
Proof.
  intros Hb Hshort Hsome.
  assert (Hp : EarlyStop.t_progress self = Raise ValueError).
  { unfold EarlyStop.t_progress. now rewrite denominator_window_short. }
  unfold EarlyStop.evaluate, EarlyStop.progress_quotient. rewrite Hp.
  unfold EarlyStop.g_loss, Py.get_last.
  destruct (last (EarlyStop.val_losses self)) as [latest|] eqn:Hlast.
  2:{ apply last_None in Hlast. contradiction. }
  cbn [Py.bind].
  destruct (min_ _) as [best|e] eqn:Hmin; cbn [Py.bind].
  - unfold truediv. cbn [Py.bind]. eauto.
  - exists e. split; [reflexivity|].
    unfold min_ in Hmin. destruct (Py.slice _ _ _); [|discriminate].
    injection Hmin as <-. now left.
Qed.

Lemma on_epoch_end_before_boundary
    (self : EarlyStop.t F) (epoch : Z) (logs : EarlyStop.Logs F) :
  0 <= epoch -> epoch + 1 < EarlyStop.batch self ->
  EarlyStop.on_epoch_end self epoch logs =
    (EarlyStop.record (EarlyStop.emit self (EarlyStop.Message (epoch + 1) logs)) logs,
     Ok tt).
Proof.
  intros Hepoch Hgap. rewrite on_epoch_end_state. cbv zeta.
  set (recorded := EarlyStop.record _ logs).
  assert (Hdue : EarlyStop.due recorded epoch = Ok false).
  { unfold EarlyStop.due, Py.mod_.
    change (EarlyStop.batch recorded) with (EarlyStop.batch self).
    destruct (Z.eqb_spec (EarlyStop.batch self) 0) as [?|_]; [lia|].
    cbn [Py.bind]. rewrite Z.mod_small by lia.
    f_equal. apply andb_false_iff. left. apply Z.eqb_neq. lia. }
  now rewrite Hdue.
Qed.

Lemma on_epoch_end_at_boundary
    (self : EarlyStop.t F) (epoch : Z) (logs : EarlyStop.Logs F) :
  0 <= epoch ->
  EarlyStop.min_epochs self <= EarlyStop.batch self ->
  Z.of_nat (length (EarlyStop.train_losses self)) = epoch ->
  epoch + 1 = EarlyStop.batch self ->
  exists e,
    EarlyStop.on_epoch_end self epoch logs =
      (EarlyStop.record (EarlyStop.emit self (EarlyStop.Message (epoch + 1) logs)) logs,
       Raise e) /\
    (e = ValueError \/ e = ZeroDivisionError).
Proof.
  intros Hepoch Hfloor Hlen Hgap. rewrite on_epoch_end_state. cbv zeta.
  set (recorded := EarlyStop.record _ logs).
  assert (Hdue : EarlyStop.due recorded epoch = Ok true).
  { unfold EarlyStop.due, Py.mod_.
    change (EarlyStop.batch recorded) with (EarlyStop.batch self).
    change (EarlyStop.min_epochs recorded) with (EarlyStop.min_epochs self).
    destruct (Z.eqb_spec (EarlyStop.batch self) 0) as [?|_]; [lia|].
    cbn [Py.bind]. replace (epoch + 1) with (EarlyStop.batch self) by lia.
    rewrite Z_mod_same_full. f_equal. apply andb_true_iff. split; lia. }
  rewrite Hdue. apply evaluate_short.
  - change (EarlyStop.batch recorded) with (EarlyStop.batch self). lia.
  - change (EarlyStop.batch recorded) with (EarlyStop.batch self).
    unfold recorded. cbn [EarlyStop.train_losses EarlyStop.record EarlyStop.emit].
    rewrite length_app. cbn [length]. lia.
  - unfold recorded. cbn [EarlyStop.val_losses EarlyStop.record EarlyStop.emit].
    intros Hnil. now apply app_nil in Hnil as [_ ?].
Qed.

Lemma epochs_until_boundary (d : nat) :
  forall (self : EarlyStop.t F) (epoch : Z) (ls : list (EarlyStop.Logs F)),
    0 <= epoch ->
    EarlyStop.stop_training self = false ->
    EarlyStop.min_epochs self <= EarlyStop.batch self ->
    Z.of_nat (length (EarlyStop.train_losses self)) = epoch ->
    epoch + Z.of_nat d + 1 = EarlyStop.batch self ->
    (d < length ls)%nat ->
    exists e,
      EarlyStop.epochs self epoch ls =
        (EarlyStop.calls self epoch (take (S d) ls), Raise e) /\
      (e = ValueError \/ e = ZeroDivisionError) /\
      EarlyStop.stop_training (EarlyStop.calls self epoch (take (S d) ls)) = false.
Proof.
  induction d as [|d IH]; intros self epoch ls Hepoch Hclear Hfloor Hlen Hgap Hls;
    (destruct ls as [|logs rest]; [cbn in Hls; lia|]);
    cbn [take EarlyStop.epochs EarlyStop.calls].
  - destruct (on_epoch_end_at_boundary self epoch logs) as (e & -> & He);
      try assumption; try lia.
    exists e. cbn [fst]. split; [reflexivity|]. split; [exact He|exact Hclear].
  - rewrite on_epoch_end_before_boundary by lia. cbn [fst].
    set (recorded := EarlyStop.record _ logs).
    change (EarlyStop.stop_training recorded) with (EarlyStop.stop_training self).
    rewrite Hclear.
    apply IH; try assumption.
    + lia.
    + unfold recorded. cbn [EarlyStop.train_losses EarlyStop.record EarlyStop.emit].
      rewrite length_app. cbn [length]. lia.
    + change (EarlyStop.batch recorded) with (EarlyStop.batch self). lia.
    + cbn [length] in Hls. lia.
Qed.

(** X5. For [batch >= -1] the list whose minimum line 143 takes holds
    the training losses from index [batch + 1] up to, not including, the
    latest: [len - (batch + 2)] of them, none when at most [batch + 2] are
    recorded. [t_progress] raises [ValueError] exactly in that case. *)
Theorem denominator_needs_batch_plus_three (self : EarlyStop.t F) :
  -1 <= EarlyStop.batch self ->
  let len := Z.of_nat (length (EarlyStop.train_losses self)) in
  EarlyStop.denominator_window self =
    drop (Z.to_nat (EarlyStop.batch self + 1))
      (take (length (EarlyStop.train_losses self) - 1) (EarlyStop.train_losses self)) /\
  Z.of_nat (length (EarlyStop.denominator_window self)) =
    Z.max 0 (len - (EarlyStop.batch self + 2)) /\
  (EarlyStop.t_progress self = Raise ValueError <-> len <= EarlyStop.batch self + 2).
Proof.
  intros Hb len.
  pose proof (denominator_window_items self Hb) as Hitems.
  assert (Hcount : Z.of_nat (length (EarlyStop.denominator_window self)) =
                   Z.max 0 (len - (EarlyStop.batch self + 2))).
  { rewrite Hitems, length_drop, length_take. unfold len. lia. }
  split; [exact Hitems|]. split; [exact Hcount|].
  unfold EarlyStop.t_progress.
  destruct (EarlyStop.denominator_window self) as [|x rest] eqn:Hwin.
  - cbn [length] in Hcount. cbn. split; [lia|reflexivity].
  - cbn [length] in Hcount. cbn [min_ Py.bind]. unfold truediv.
    split; [|lia].
    cbn [Py.bind]. discriminate.
Qed.

(** X6. Because the slice of line 143 starts at [batch + 1] from the
    front, it is empty whenever at most [batch + 2] training losses are
    recorded, and the evaluation then raises. So on a new callback with
    [batch >= 1] and [min_epochs <= batch] the framework's loop always
    ends in an error at epoch [batch], the first evaluated boundary,
    whatever the losses are (on the numpy scalars of [logs] the error is
    the [ValueError] of [min]; the statement also admits the
    [ZeroDivisionError] that line 141 raises on Python floats);
    [stop_training] is never set. *)
Theorem first_boundary_always_raises
    (min_epochs batch : Z) (target : F) (ls : list (EarlyStop.Logs F)) :
  1 <= batch -> min_epochs <= batch -> batch <= Z.of_nat (length ls) ->
  let start := EarlyStop.__init__ min_epochs batch target in
  let after := EarlyStop.calls start 0 (take (Z.to_nat batch) ls) in
  exists e,
    EarlyStop.epochs start 0 ls = (after, Raise e) /\
    (e = ValueError \/ e = ZeroDivisionError) /\
    EarlyStop.stop_training after = false.
Proof.
  intros Hb Hfloor Hls start after.
  destruct (epochs_until_boundary (Z.to_nat (batch - 1)) start 0 ls) as (e & Hrun & He & Hclear);
    try reflexivity; try assumption; try (cbn; lia).
  exists e. unfold after.
  replace (Z.to_nat batch) with (S (Z.to_nat (batch - 1))) by lia.
  split; [exact Hrun|]. split; [exact He|exact Hclear].
Qed.

End EarlyStopRuns.

(** ** Logging and the files *)

Section LogFacts.
Context {Weights Data : Type}.
Variable initialise : nat -> list Model.layer -> Weights.
Variable run_epoch :
  Config.t -> Model.Sequential Weights -> Data -> Z -> Weights * EarlyStop.Logs float.

Lemma log_file_set (config : Config.t) :
  Config.log_file config <> "" ->
  negb (String.eqb (Config.log_file config) "") = true.
Proof. intros Hset. apply negb_true_iff. now apply String.eqb_neq. Qed.

Lemma log_unset (config : Config.t) (m : Model.message) (w : Model.World Weights) :
  Config.log_file config = "" ->
  snd (Model.log config m w) = Ok tt /\
  Model.files (fst (Model.log config m w)) = Model.files w.
Proof.
  intros Hunset. unfold Model.log, Model.bindM, Model.emit, Model.ret.
  rewrite Hunset. destruct (Config.verbose config); split; reflexivity.
Qed.

Lemma log_trace (config : Config.t) (m : Model.message) (w : Model.World Weights) :
  Model.trace (fst (Model.log config m w)) = Model.trace w ++ printed config m.
Proof.
  unfold Model.log, Model.bindM, Model.emit, Model.ret, Model.append_file, printed.
  destruct (Config.verbose config); cbn;
    destruct (negb _); cbn; rewrite ?app_nil_r; try reflexivity;
    destruct (Model.can_open w _); cbn; rewrite ?app_nil_r; reflexivity.
Qed.

Lemma log_oracles (config : Config.t) (m : Model.message) (w : Model.World Weights) :
  Model.can_open (fst (Model.log config m w)) = Model.can_open w /\
  Model.isdir (fst (Model.log config m w)) = Model.isdir w /\
  Model.checkpoints (fst (Model.log config m w)) = Model.checkpoints w /\
  Model.rng (fst (Model.log config m w)) = Model.rng w.
Proof.
  unfold Model.log, Model.bindM, Model.emit, Model.ret, Model.append_file.
  destruct (Config.verbose config); cbn;
    destruct (negb _); cbn; try done;
    destruct (Model.can_open w _); cbn; done.
Qed.

Lemma log_opened (config : Config.t) (m : Model.message) (w : Model.World Weights) :
  Config.log_file config <> "" ->
  Model.can_open w (Config.log_file config) = true ->
  snd (Model.log config m w) = Ok tt /\
  Model.files (fst (Model.log config m w)) =
    <[Config.log_file config :=
        default [] (Model.files w !! Config.log_file config) ++ [Model.Text m]]>
      (Model.files w).
Proof.
  intros Hset Hopen. unfold Model.log, Model.bindM, Model.emit, Model.ret, Model.append_file.
  rewrite (log_file_set config Hset).
  destruct (Config.verbose config); cbn; rewrite Hopen; split; reflexivity.
Qed.

Lemma log_refused (config : Config.t) (m : Model.message) (w : Model.World Weights) :
  Config.log_file config <> "" ->
  Model.can_open w (Config.log_file config) = false ->
  snd (Model.log config m w) = Raise OSError /\
  Model.files (fst (Model.log config m w)) = Model.files w.
Proof.
  intros Hset Hopen. unfold Model.log, Model.bindM, Model.emit, Model.ret, Model.append_file.
  rewrite (log_file_set config Hset).
  destruct (Config.verbose config); cbn; rewrite Hopen; split; reflexivity.
Qed.

(** X7. [log] prints the message exactly when [verbose] is set, and
    before it touches the file, so also when it then fails. With no log
    file it writes nothing and returns. With one, the file ends up holding
    what it held followed by the message, every other file as it was; if
    the file cannot be opened the call raises [OSError] and no file
    changes. *)
Theorem log_prints_then_appends
    (config : Config.t) (m : Model.message) (w : Model.World Weights) :
  let after := fst (Model.log config m w) in
  let path := Config.log_file config in
  Model.trace after = Model.trace w ++ printed config m /\
  (path = "" -> snd (Model.log config m w) = Ok tt /\ Model.files after = Model.files w) /\
  (path <> "" -> Model.can_open w path = true ->
     snd (Model.log config m w) = Ok tt /\
     Model.files after !! path = Some (default [] (Model.files w !! path) ++ [Model.Text m]) /\
     forall other, other <> path -> Model.files after !! other = Model.files w !! other) /\
  (path <> "" -> Model.can_open w path = false ->
     snd (Model.log config m w) = Raise OSError /\ Model.files after = Model.files w).
Proof.
  intros after path. split; [apply log_trace|]. split; [apply log_unset|]. split.
  - intros Hset Hopen. destruct (log_opened config m w Hset Hopen) as [Hok Hfiles].
    split; [exact Hok|]. unfold after. rewrite Hfiles. split.
    + apply lookup_insert_eq.
    + intros other Hother. now apply lookup_insert_ne.
  - apply log_refused.
Qed.

(** *** Actions that write the log file only *)

Lemma writes_only_ret {A} (keep : string) (a : A) :
  writes_only keep (Model.ret (Weights := Weights) a).
Proof. intros w path _. reflexivity. Qed.

Lemma writes_only_raise {A} (keep : string) (e : exn) :
  writes_only keep (Model.raise (Weights := Weights) (A := A) e).
Proof. intros w path _. reflexivity. Qed.

Lemma writes_only_emit (keep : string) (e : Model.event Weights) :
  writes_only keep (Model.emit e).
Proof. intros w path _. reflexivity. Qed.

Lemma writes_only_bind {A B} (keep : string)
    (m : Model.M Weights A) (k : A -> Model.M Weights B) :
  writes_only keep m -> (forall a, writes_only keep (k a)) ->
  writes_only keep (Model.bindM m k).
Proof.
  intros Hm Hk w path Hpath. unfold Model.bindM.
  specialize (Hm w path Hpath).
  destruct (m w) as [w1 [a|e]]; cbn [fst] in Hm |- *; [|exact Hm].
  now rewrite (Hk a w1 path Hpath).
Qed.

Lemma writes_only_log (config : Config.t) (m : Model.message) :
  writes_only (Config.log_file config) (Model.log (Weights := Weights) config m).
Proof.
  intros w path Hpath.
  destruct (String.eqb_spec (Config.log_file config) "") as [Hunset|Hset].
  - now rewrite (proj2 (log_unset config m w Hunset)).
  - destruct (Model.can_open w (Config.log_file config)) eqn:Hopen.
    + rewrite (proj2 (log_opened config m w Hset Hopen)). now apply lookup_insert_ne.
    + now rewrite (proj2 (log_refused config m w Hset Hopen)).
Qed.

Lemma writes_only_prints (keep : string) (ls : list (EarlyStop.line float)) :
  writes_only keep (Model.prints (Weights := Weights) ls).
Proof.
  induction ls as [|l rest IH]; cbn [Model.prints]; [apply writes_only_ret|].
  apply writes_only_bind; [apply writes_only_emit|intros _; exact IH].
Qed.

Lemma writes_only_fit_loop (config : Config.t) (data : Data) (n : nat) :
  forall (m : Model.Sequential Weights) (cb : EarlyStop.t float) (epoch : Z)
         (history : list (EarlyStop.Logs float)),
    writes_only (Config.log_file config)
      (Model.fit_loop run_epoch config data n m cb epoch history).
Proof.
  induction n as [|n IH]; intros m cb epoch history; cbn [Model.fit_loop];
    [apply writes_only_ret|].
  destruct (run_epoch config m data epoch) as [ws logs].
  apply writes_only_bind; [apply writes_only_log|]. intros _.
  destruct (EarlyStop.on_epoch_end cb epoch logs) as [cb' [[]|e]];
    [|apply writes_only_raise].
  apply writes_only_bind; [apply writes_only_prints|]. intros _.
  destruct (EarlyStop.stop_training cb'); [apply writes_only_ret|apply IH].
Qed.

Lemma writes_only_fit_generator (config : Config.t) (m : Model.Sequential Weights)
    (data : Data) :
  writes_only (Config.log_file config) (Model.fit_generator run_epoch config m data).
Proof.
  unfold Model.fit_generator.
  apply writes_only_bind; [apply writes_only_emit|]. intros _.
  apply writes_only_fit_loop.
Qed.

Lemma writes_only_restore_weights (self : Model.t Weights) :
  writes_only (Config.log_file (Model.config self)) (Model.restore_weights self).
Proof.
  unfold Model.restore_weights.
  apply writes_only_bind.
  - destruct (_ && _); [|apply writes_only_ret]. intros w path _. reflexivity.
  - intros [|]; [|apply writes_only_ret].
    apply writes_only_bind.
    + unfold Model.load_weights. apply writes_only_bind; [apply writes_only_emit|].
      intros _ w path _. now destruct (Model.checkpoints w !! _).
    + intros m. apply writes_only_bind; [apply writes_only_log|].
      intros _. apply writes_only_ret.
Qed.

Lemma prints_returns (ls : list (EarlyStop.line float)) (w : Model.World Weights) :
  snd (Model.prints ls w) = Ok tt.
Proof.
  revert w. induction ls as [|l rest IH]; intros w; cbn [Model.prints]; [reflexivity|].
  unfold Model.bindM. cbn [Model.emit]. apply IH.
Qed.

End LogFacts.

(** ** Building a model *)

Section InitFacts.
Context {Weights Data : Type}.
Variable initialise : nat -> list Model.layer -> Weights.
Variable run_epoch :
  Config.t -> Model.Sequential Weights -> Data -> Z -> Weights * EarlyStop.Logs float.

(** X8. [Model(config)] resets the graph, builds the model and logs two
    messages: the text of line 28 and then, for line 29, the text [None]
    that [summary()] returns; the summary table itself is printed whatever
    [verbose] is and never reaches the log file. When the log file is
    unset or can be opened the call returns, the file has gained exactly
    these two messages in this order and no other file has changed. *)
Theorem init_logs_none_for_the_summary (config : Config.t) (w : Model.World Weights) :
  Config.log_file config = "" \/ Model.can_open w (Config.log_file config) = true ->
  exists w' self,
    Model.__init__ initialise config w = (w', Ok self) /\
    Model.trace w' =
      Model.trace w ++ [Model.GraphReset] ++ printed config created ++
      [Model.Summary] ++ printed config (Model.Str "None") /\
    (Config.log_file config <> "" ->
       Model.files w' !! Config.log_file config =
         Some (default [] (Model.files w !! Config.log_file config) ++
               [Model.Text created; Model.Text (Model.Str "None")])) /\
    (forall other, other <> Config.log_file config ->
       Model.files w' !! other = Model.files w !! other).
Proof.
  intros Hlog.
  unfold Model.__init__, Model.create_model, Model.log, Model.bindM, Model.emit,
    Model.fresh_weights, Model.ret, Model.append_file, printed, created.
  destruct (String.eqb_spec (Config.log_file config) "") as [Hunset|Hset]; cbn [negb].
  - destruct (Config.verbose config); cbn; eexists _, _;
      (split; [reflexivity|]); cbn; rewrite <- ?app_assoc; cbn;
      (split; [reflexivity|]); (split; [contradiction|reflexivity]).
  - destruct Hlog as [?|Hopen]; [contradiction|].
    destruct (Config.verbose config); cbn; rewrite Hopen; cbn; rewrite Hopen; cbn;
      eexists _, _; (split; [reflexivity|]); cbn; rewrite <- ?app_assoc; cbn;
      (split; [reflexivity|]); split.
    + intros _. rewrite lookup_insert_eq, lookup_insert_eq. cbn.
      now rewrite <- app_assoc.
    + intros other Hother. now rewrite !lookup_insert_ne.
    + intros _. rewrite lookup_insert_eq, lookup_insert_eq. cbn.
      now rewrite <- app_assoc.
    + intros other Hother. now rewrite !lookup_insert_ne.
Qed.

(** X9. [Model(config)] returns exactly when the log file is unset or can
    be opened. Otherwise it raises [OSError] at its first [log], after the
    graph has been reset and the weights drawn (the random state has
    advanced) and, when [verbose] is set, after the message of line 28 has
    been printed; nothing is written. *)
Theorem init_fails_at_its_first_log (config : Config.t) (w : Model.World Weights) :
  ((exists w' self, Model.__init__ initialise config w = (w', Ok self)) <->
   (Config.log_file config = "" \/ Model.can_open w (Config.log_file config) = true)) /\
  (Config.log_file config <> "" ->
   Model.can_open w (Config.log_file config) = false ->
   exists w',
     Model.__init__ initialise config w = (w', Raise OSError) /\
     Model.rng w' = S (Model.rng w) /\
     Model.trace w' = Model.trace w ++ [Model.GraphReset] ++ printed config created /\
     Model.files w' = Model.files w).
Proof.
  assert (Hfail : Config.log_file config <> "" ->
    Model.can_open w (Config.log_file config) = false ->
    exists w',
      Model.__init__ initialise config w = (w', Raise OSError) /\
      Model.rng w' = S (Model.rng w) /\
      Model.trace w' = Model.trace w ++ [Model.GraphReset] ++ printed config created /\
      Model.files w' = Model.files w).
  { intros Hset Hopen.
    unfold Model.__init__, Model.create_model, Model.log, Model.bindM, Model.emit,
      Model.fresh_weights, Model.ret, Model.append_file, printed, created.
    rewrite (log_file_set config Hset).
    destruct (Config.verbose config); cbn; rewrite Hopen; cbn;
      eexists; (split; [reflexivity|]); cbn; rewrite <- ?app_assoc; cbn;
      repeat split; now rewrite ?app_nil_r. }
  split; [|exact Hfail]. split.
  - intros (w' & self & Hinit).
    destruct (String.eqb_spec (Config.log_file config) "") as [?|Hset]; [now left|].
    destruct (Model.can_open w (Config.log_file config)) eqn:Hopen; [now right|].
    destruct (Hfail Hset eq_refl) as (w1 & Hraise & _). rewrite Hraise in Hinit.
    discriminate.
  - intros Hlog.
    exact (init_returns initialise config w Hlog).
Qed.

End InitFacts.

(** ** Training *)

Section TrainFacts.
Context {Weights Data : Type}.
Variable initialise : nat -> list Model.layer -> Weights.
Variable run_epoch :
  Config.t -> Model.Sequential Weights -> Data -> Z -> Weights * EarlyStop.Logs float.

(** *** Restoring weights *)

Lemma restore_weights_missing (self : Model.t Weights) (w : Model.World Weights) :
  Model.tuning self w ->
  Model.checkpoints w !! (Config.model_path (Model.config self) +:+ "/weights") = None ->
  exists w1,
    Model.restore_weights self w = (w1, Raise OSError) /\
    Model.trace w1 =
      Model.trace w ++
      [Model.LoadWeights (Config.model_path (Model.config self) +:+ "/weights")] /\
    Model.files w1 = Model.files w.
Proof.
  intros Hyes Hnone. destruct (tuning_dec self w) as [[_ Hcond]|[Hnot _]]; [|contradiction].
  unfold Model.restore_weights, Model.bindM, Model.os_path_isdir, Model.ret.
  destruct (Config.model_tuning (Model.config self)
            && negb (String.eqb (Config.mode (Model.config self)) "supervised"));
    [|discriminate].
  rewrite Hcond. unfold Model.load_weights, Model.bindM, Model.emit.
  cbn [Model.checkpoints]. rewrite Hnone.
  eexists. split; [reflexivity|]. split; reflexivity.
Qed.

Lemma restore_weights_loaded (self : Model.t Weights) (w : Model.World Weights)
    (ws : Weights) :
  Model.tuning self w ->
  Model.checkpoints w !! (Config.model_path (Model.config self) +:+ "/weights") = Some ws ->
  Config.log_file (Model.config self) = "" \/
    Model.can_open w (Config.log_file (Model.config self)) = true ->
  exists w1,
    Model.restore_weights self w = (w1, Ok (Model.set_weights (Model.model self) ws)) /\
    Model.trace w1 =
      Model.trace w ++
      [Model.LoadWeights (Config.model_path (Model.config self) +:+ "/weights")] ++
      printed (Model.config self) (Model.Str "Model Restored").
Proof.
  intros Hyes Hsome Hlog.
  destruct (tuning_dec self w) as [[_ Hcond]|[Hnot _]]; [|contradiction].
  unfold Model.restore_weights, Model.bindM, Model.os_path_isdir, Model.ret.
  destruct (Config.model_tuning (Model.config self)
            && negb (String.eqb (Config.mode (Model.config self)) "supervised"));
    [|discriminate].
  rewrite Hcond. unfold Model.load_weights, Model.bindM, Model.emit.
  cbn [Model.checkpoints]. rewrite Hsome.
  match goal with
  | |- context [Model.log ?c ?m ?w1] =>
      pose proof (log_trace (Weights := Weights) c m w1) as Htrace;
      assert (Hok : snd (Model.log c m w1) = Ok tt);
      [|destruct (Model.log c m w1) as [w2 r]]
  end.
  - destruct Hlog as [Hunset|Hopen].
    + now apply log_unset.
    + destruct (String.eqb_spec (Config.log_file (Model.config self)) "") as [Hunset|Hset].
      * now apply log_unset.
      * now apply log_opened.
  - cbn [fst snd] in *. subst r. eexists. split; [reflexivity|].
    rewrite Htrace. cbn. now rewrite <- app_assoc.
Qed.

(** X10. The guard of line 150 asks for the directory [model_path], the
    load of line 151 needs the file [model_path + '/weights']. When the
    guard passes and that file is missing, [train] raises [OSError] right
    after the call of [load_weights]: no fit starts and no file is
    written. *)
Theorem missing_weights_file_raises
    (self : Model.t Weights) (data : Data) (test : bool) (experiment : string)
    (w : Model.World Weights) :
  Model.tuning self w ->
  Model.checkpoints w !! (Config.model_path (Model.config self) +:+ "/weights") = None ->
  let run := Model.train run_epoch self data test experiment w in
  snd run = Raise OSError /\
  Model.trace (fst run) =
    Model.trace w ++
    [Model.LoadWeights (Config.model_path (Model.config self) +:+ "/weights")] /\
  Model.files (fst run) = Model.files w.
Proof.
  intros Hyes Hnone run.
  destruct (restore_weights_missing self w Hyes Hnone) as (w1 & Hrestore & Htrace & Hfiles).
  assert (Hrun : run = (w1, Raise OSError)).
  { unfold run, Model.train. unfold Model.bindM at 1. now rewrite Hrestore. }
  rewrite Hrun. cbn [fst snd]. split; [reflexivity|]. split; [exact Htrace|exact Hfiles].
Qed.

(** X11. When the guard of line 150 passes, the weights file can be
    read and the log can be written, [train] loads the weights, logs
    ['Model Restored'] and starts the fit from the loaded weights, not
    from those the model held. *)
Theorem restored_weights_start_the_fit
    (self : Model.t Weights) (data : Data) (test : bool) (experiment : string)
    (w : Model.World Weights) (ws : Weights) :
  Model.tuning self w ->
  Model.checkpoints w !! (Config.model_path (Model.config self) +:+ "/weights") = Some ws ->
  Config.log_file (Model.config self) = "" \/
    Model.can_open w (Config.log_file (Model.config self)) = true ->
  exists rest,
    drop (length (Model.trace w))
      (Model.trace (fst (Model.train run_epoch self data test experiment w))) =
    [Model.LoadWeights (Config.model_path (Model.config self) +:+ "/weights")] ++
    printed (Model.config self) (Model.Str "Model Restored") ++
    Model.FitStart ws :: rest.
Proof.
  intros Hyes Hsome Hlog.
  destruct (restore_weights_loaded self w ws Hyes Hsome Hlog) as (w1 & Hrestore & Htrace).
  destruct (after_restore_trace run_epoch self data test experiment w w1 _ Hrestore)
    as (rest & Hrun & _).
  exists rest. rewrite Hrun, Htrace. cbn [Model.weights Model.set_weights].
  rewrite <- !app_assoc. apply drop_new_events.
Qed.

(** *** The epochs of a fit *)

Lemma log_returned (config : Config.t) (m : Model.message) (w : Model.World Weights) :
  snd (Model.log config m w) = Ok tt ->
  (Config.log_file config = "" ->
     Model.files (fst (Model.log config m w)) = Model.files w) /\
  (Config.log_file config <> "" ->
     Model.files (fst (Model.log config m w)) !! Config.log_file config =
       Some (default [] (Model.files w !! Config.log_file config) ++ [Model.Text m])).
Proof.
  intros Hok. split.
  - intros Hunset. now apply log_unset.
  - intros Hset. destruct (Model.can_open w (Config.log_file config)) eqn:Hopen.
    + rewrite (proj2 (log_opened config m w Hset Hopen)). apply lookup_insert_eq.
    + rewrite (proj1 (log_refused config m w Hset Hopen)) in Hok. discriminate.
Qed.

Lemma prints_files (ls : list (EarlyStop.line float)) (w : Model.World Weights) :
  Model.files (fst (Model.prints ls w)) = Model.files w.
Proof.
  revert w. induction ls as [|l rest IH]; intros w; cbn [Model.prints]; [reflexivity|].
  unfold Model.bindM. cbn [Model.emit]. now rewrite IH.
Qed.

Lemma epoch_line_succ (epoch : Z) (new : list (EarlyStop.Logs float)) :
  imap (epoch_line epoch ∘ S) new = imap (epoch_line (epoch + 1)) new.
Proof.
  apply imap_ext. intros i logs _. unfold epoch_line. cbn. do 3 f_equal. lia.
Qed.

(** An epoch of the fit is the callback's method called with [self.log]
    as its [log_fn] (line 167) and the dict of the epoch's logs: a raise
    of [self.log] ends the fit before anything is appended. *)
Lemma fit_loop_calls_the_method
    (config : Config.t) (data : Data) (n : nat) (m : Model.Sequential Weights)
    (cb : EarlyStop.t float) (epoch : Z) (history : list (EarlyStop.Logs float))
    (w : Model.World Weights) :
  let m' := Model.set_weights m (fst (run_epoch config m data epoch)) in
  let logs := snd (run_epoch config m data epoch) in
  Model.fit_loop run_epoch config data (S n) m cb epoch history w =
  match EarlyStop.on_epoch_end_with (fun l => Model.log config (Model.Line l))
          cb w epoch (EarlyStop.dict logs) with
  | (_, w', Raise e) => (w', Raise e)
  | (cb', w', Ok _) =>
      Model.bindM
        (Model.prints (drop (S (length (EarlyStop.out cb))) (EarlyStop.out cb')))
        (fun _ =>
           if EarlyStop.stop_training cb'
           then Model.ret (Model.set_stop_training m' true, history ++ [logs])
           else Model.fit_loop run_epoch config data n m' cb' (epoch + 1)
                  (history ++ [logs])) w'
  end.
Proof.
  cbv zeta. cbn [Model.fit_loop].
  destruct (run_epoch config m data epoch) as [ws logs]. cbn [fst snd].
  unfold EarlyStop.on_epoch_end_with. rewrite formatted_dict.
  unfold Model.bindM at 1.
  destruct (Model.log config (Model.Line (EarlyStop.Message (epoch + 1) logs)) w)
    as [w' [[]|e]]; [|reflexivity].
  destruct (EarlyStop.on_epoch_end cb epoch logs) as [cb' [[]|e]]; reflexivity.
Qed.

Lemma fit_loop_returned (config : Config.t) (data : Data) (n : nat) :
  forall (m : Model.Sequential Weights) (cb : EarlyStop.t float) (epoch : Z)
         (history : list (EarlyStop.Logs float)) (w w' : Model.World Weights)
         (m' : Model.Sequential Weights) (history' : list (EarlyStop.Logs float)),
    Model.fit_loop run_epoch config data n m cb epoch history w = (w', Ok (m', history')) ->
    Model.stop_training m = false ->
    exists new,
      history' = history ++ new /\
      (length new <= n)%nat /\
      (Model.stop_training m' = false -> length new = n) /\
      (Model.stop_training m' = true -> new <> []) /\
      (Config.log_file config = "" -> Model.files w' = Model.files w) /\
      (Config.log_file config <> "" ->
         default [] (Model.files w' !! Config.log_file config) =
         default [] (Model.files w !! Config.log_file config) ++
         imap (epoch_line epoch) new).
Proof.
  induction n as [|n IH]; intros m cb epoch history w w' m' history' Hrun Hclear.
  - cbn in Hrun. injection Hrun as <- <- <-. exists [].
    rewrite !app_nil_r. repeat split; try done. intros Hset. congruence.
  - cbn [Model.fit_loop] in Hrun.
    destruct (run_epoch config m data epoch) as [ws logs].
    unfold Model.bindM at 1 in Hrun.
    pose proof (log_returned config
                  (Model.Line (EarlyStop.Message (epoch + 1) logs)) w) as Hlog.
    destruct (Model.log config _ w) as [w1 [[]|e]]; [|discriminate].
    cbn [fst snd] in Hlog. specialize (Hlog eq_refl) as [Hunset Hset].
    destruct (EarlyStop.on_epoch_end cb epoch logs) as [cb' [[]|e]]; [|discriminate].
    unfold Model.bindM at 1 in Hrun.
    pose proof (prints_returns (Weights := Weights)
                  (drop (S (length (EarlyStop.out cb))) (EarlyStop.out cb')) w1) as Hp.
    pose proof (prints_files (drop (S (length (EarlyStop.out cb))) (EarlyStop.out cb')) w1)
      as Hpf.
    destruct (Model.prints _ w1) as [w2 r]. cbn [fst snd] in Hp, Hpf. subst r.
    destruct (EarlyStop.stop_training cb').
    + injection Hrun as <- <- <-. exists [logs].
      split; [reflexivity|]. split; [cbn; lia|]. split; [discriminate|].
      split; [discriminate|]. split.
      * intros Hu. rewrite Hpf. now apply Hunset.
      * intros Hs. rewrite Hpf, (Hset Hs). cbn. unfold epoch_line.
        rewrite Z.add_0_r. reflexivity.
    + apply IH in Hrun as (new & -> & Hlen & Hfull & Hsome & Hu & Hs); [|exact Hclear].
      exists (logs :: new). rewrite <- app_assoc. split; [reflexivity|].
      split; [cbn; lia|]. split; [intros Hc; cbn; now rewrite (Hfull Hc)|].
      split; [discriminate|]. split.
      * intros Hunset'. rewrite (Hu Hunset'), Hpf. now apply Hunset.
      * intros Hset'. rewrite (Hs Hset'), Hpf, (Hset Hset'). cbn [from_option id].
        rewrite <- app_assoc. f_equal. cbn [imap app]. f_equal.
        -- unfold epoch_line. now rewrite Z.add_0_r.
        -- symmetry. apply epoch_line_succ.
Qed.

(** X12. A fit that returns has run at most [max_epochs] epochs and its
    history holds one entry per epoch run. It holds [max_epochs] entries
    unless it stopped early with [stop_training] set, which takes at
    least one epoch; with [max_epochs <= 0] no epoch runs and the history
    is empty. *)
Theorem fit_history_has_one_entry_per_epoch
    (config : Config.t) (m m' : Model.Sequential Weights) (data : Data)
    (w w' : Model.World Weights) (history : list (EarlyStop.Logs float)) :
  Model.fit_generator run_epoch config m data w = (w', Ok (m', history)) ->
  (length history <= Z.to_nat (Config.max_epochs config))%nat /\
  (Model.stop_training m' = false ->
     length history = Z.to_nat (Config.max_epochs config)) /\
  (Model.stop_training m' = true -> history <> []) /\
  (Config.max_epochs config <= 0 -> history = []).
Proof.
  intros Hfit. unfold Model.fit_generator, Model.bindM in Hfit. cbn [Model.emit] in Hfit.
  apply fit_loop_returned in Hfit as (new & -> & Hlen & Hfull & Hsome & _); [|reflexivity].
  cbn [app]. split; [exact Hlen|]. split; [exact Hfull|]. split; [exact Hsome|].
  intros Hnone. replace (Z.to_nat (Config.max_epochs config)) with 0%nat in Hlen by lia.
  destruct new; [reflexivity|cbn in Hlen; lia].
Qed.

(** X13. The only lines a fit writes to the log file are the epoch
    messages of line 137, one per epoch of the history and in epoch
    order, numbered from 1; the lines of 144 and 146 go through [print]
    and never reach the file. No other file changes, and with no log file
    set no file changes at all. *)
Theorem log_file_gets_one_line_per_epoch
    (config : Config.t) (m m' : Model.Sequential Weights) (data : Data)
    (w w' : Model.World Weights) (history : list (EarlyStop.Logs float)) :
  Model.fit_generator run_epoch config m data w = (w', Ok (m', history)) ->
  (Config.log_file config <> "" ->
     default [] (Model.files w' !! Config.log_file config) =
     default [] (Model.files w !! Config.log_file config) ++ imap (epoch_line 0) history) /\
  (forall other, other <> Config.log_file config ->
     Model.files w' !! other = Model.files w !! other) /\
  (Config.log_file config = "" -> Model.files w' = Model.files w).
Proof.
  intros Hfit.
  pose proof (writes_only_fit_generator run_epoch config m data w) as Hothers.
  rewrite Hfit in Hothers. cbn [fst] in Hothers.
  unfold Model.fit_generator, Model.bindM in Hfit. cbn [Model.emit] in Hfit.
  apply fit_loop_returned in Hfit as (new & -> & _ & _ & _ & Hunset & Hset); [|reflexivity].
  cbn [app Model.files] in *. split; [exact Hset|]. split; [exact Hothers|exact Hunset].
Qed.

(** *** The first evaluated boundary of a fit *)

Lemma fit_loop_until_boundary (config : Config.t) (data : Data) (d : nat) :
  forall (n : nat) (m : Model.Sequential Weights) (cb : EarlyStop.t float) (epoch : Z)
         (history : list (EarlyStop.Logs float)) (w : Model.World Weights),
    0 <= epoch ->
    EarlyStop.stop_training cb = false ->
    EarlyStop.min_epochs cb <= EarlyStop.batch cb ->
    Z.of_nat (length (EarlyStop.train_losses cb)) = epoch ->
    epoch + Z.of_nat d + 1 = EarlyStop.batch cb ->
    (d < n)%nat ->
    exists e, snd (Model.fit_loop run_epoch config data n m cb epoch history w) = Raise e.
Proof.
  induction d as [|d IH]; intros n m cb epoch history w Hepoch Hclear Hfloor Hlen Hgap Hn;
    (destruct n as [|n]; [lia|]); cbn [Model.fit_loop];
    destruct (run_epoch config m data epoch) as [ws logs];
    unfold Model.bindM at 1;
    destruct (Model.log config _ w) as [w1 [[]|e]]; try (cbn; eauto; fail).
  - destruct (on_epoch_end_at_boundary cb epoch logs) as (e & -> & _);
      try assumption; try lia.
    cbn. eauto.
  - rewrite on_epoch_end_before_boundary by lia.
    unfold Model.bindM at 1.
    pose proof (prints_returns (Weights := Weights)
      (drop (S (length (EarlyStop.out cb)))
         (EarlyStop.out (EarlyStop.record
            (EarlyStop.emit cb (EarlyStop.Message (epoch + 1) logs)) logs))) w1) as Hp.
    destruct (Model.prints _ w1) as [w2 r]. cbn [snd] in Hp. subst r.
    set (recorded := EarlyStop.record _ logs).
    change (EarlyStop.stop_training recorded) with (EarlyStop.stop_training cb).
    rewrite Hclear. apply IH; try assumption.
    + lia.
    + unfold recorded. cbn [EarlyStop.train_losses EarlyStop.record EarlyStop.emit].
      rewrite length_app. cbn [length]. lia.
    + change (EarlyStop.batch recorded) with (EarlyStop.batch cb). lia.
    + lia.
Qed.

(** X14. With [1 <= batch_epochs <= max_epochs] and
    [min_epochs <= batch_epochs] in the configuration, [train] never
    returns: whatever the data and the losses, the callback's evaluation
    at epoch [batch_epochs] raises (if nothing raised before it), the
    error leaves [fit_generator] and [train], and the history file is not
    written; only the log file can have changed. *)
Theorem train_raises_at_first_boundary
    (self : Model.t Weights) (data : Data) (test : bool) (experiment : string)
    (w : Model.World Weights) :
  1 <= Config.batch_epochs (Model.config self) ->
  Config.min_epochs (Model.config self) <= Config.batch_epochs (Model.config self) ->
  Config.batch_epochs (Model.config self) <= Config.max_epochs (Model.config self) ->
  let run := Model.train run_epoch self data test experiment w in
  (exists e, snd run = Raise e) /\
  (forall path, path <> Config.log_file (Model.config self) ->
     Model.files (fst run) !! path = Model.files w !! path).
Proof.
  intros Hb Hfloor Hmax run. unfold run, Model.train, Model.bindM.
  pose proof (writes_only_restore_weights self w) as Hrestore.
  destruct (Model.restore_weights self w) as [w1 [m|e]]; cbn [fst] in Hrestore.
  2:{ cbn. split; [eauto|exact Hrestore]. }
  fold (Model.bindM (A := unit) (B := Model.Sequential Weights * list (EarlyStop.Logs float))
          (Weights := Weights)).
  pose proof (writes_only_fit_generator run_epoch (Model.config self) m data w1) as Hfit.
  assert (Hraise : exists e,
            snd (Model.fit_generator run_epoch (Model.config self) m data w1) = Raise e).
  { unfold Model.fit_generator, Model.bindM. cbn [Model.emit].
    apply (fit_loop_until_boundary (Model.config self) data
             (Z.to_nat (Config.batch_epochs (Model.config self) - 1)));
      cbn; try reflexivity; try assumption; lia. }
  destruct Hraise as [e He].
  destruct (Model.fit_generator run_epoch (Model.config self) m data w1) as [w2 r].
  cbn [fst snd] in *. subst r. cbn. split; [eauto|].
  intros path Hpath. now rewrite (Hfit path Hpath), (Hrestore path Hpath).
Qed.

(** X15. [train] opens the history file only after the fit: when the
    fit returns and ['/History/' + experiment] cannot be opened for
    writing, [train] raises [OSError] at line 169, after every epoch has
    run; the world is as the fit left it, no history is written and the
    trained model is not returned. *)
Theorem unwritable_history_fails_after_the_fit
    (self : Model.t Weights) (data : Data) (test : bool) (experiment : string)
    (w w1 w2 : Model.World Weights) (m : Model.Sequential Weights)
    (fitted : Model.Sequential Weights * list (EarlyStop.Logs float)) :
  Model.restore_weights self w = (w1, Ok m) ->
  Model.fit_generator run_epoch (Model.config self) m data w1 = (w2, Ok fitted) ->
  Model.can_open w2 ("/History/" +:+ experiment) = false ->
  Model.train run_epoch self data test experiment w = (w2, Raise OSError) /\
  (exists evs, Model.trace w2 = Model.trace w1 ++ Model.FitStart (Model.weights m) :: evs) /\
  (length (snd fitted) <= Z.to_nat (Config.max_epochs (Model.config self)))%nat.
Proof.
  intros Hrestore Hfit Hopen. split; [|split].
  - unfold Model.train. unfold Model.bindM at 1. rewrite Hrestore.
    unfold Model.bindM at 1. rewrite Hfit.
    unfold Model.bindM, Model.dump, Model.history_path. now rewrite Hopen.
  - unfold Model.fit_generator, Model.bindM in Hfit. cbn [Model.emit] in Hfit.
    match type of Hfit with
    | Model.fit_loop ?r ?c ?d ?n ?m0 ?cb ?e ?h ?w0 = _ =>
        destruct (quiet_fit_loop r c d n m0 cb e h w0) as (evs & Htrace & _)
    end.
    rewrite Hfit in Htrace. cbn [fst Model.trace] in Htrace.
    exists evs. rewrite Htrace, <- app_assoc. reflexivity.
  - destruct fitted as [m' history]. cbn [snd].
    unfold Model.fit_generator, Model.bindM in Hfit. cbn [Model.emit] in Hfit.
    apply fit_loop_returned in Hfit as (new & -> & Hlen & _); [|reflexivity].
    exact Hlen.
Qed.

End TrainFacts.

(** ** What the callback prints *)

Section CallbackLines.
Context {F : Type} `{Number F}.

Lemma on_epoch_end_out (self : EarlyStop.t F) (epoch : Z) (logs : EarlyStop.Logs F) :
  exists rest,
    EarlyStop.out (fst (EarlyStop.on_epoch_end self epoch logs)) =
      EarlyStop.out self ++ EarlyStop.Message (epoch + 1) logs :: rest /\
    ((rest = [] /\ EarlyStop.exceeds self epoch logs = false) \/
     (exists q, rest = [EarlyStop.Progress q] /\
                EarlyStop.exceeds self epoch logs = false) \/
     (exists q, rest = [EarlyStop.Progress q; EarlyStop.Stopped (epoch + 1)] /\
                EarlyStop.exceeds self epoch logs = true)).
Proof.
  rewrite on_epoch_end_state. unfold EarlyStop.exceeds. cbv zeta.
  set (recorded := EarlyStop.record _ logs).
  assert (Hout : EarlyStop.out recorded =
                 EarlyStop.out self ++ [EarlyStop.Message (epoch + 1) logs]) by reflexivity.
  destruct (EarlyStop.due recorded epoch) as [[|]|e]; cbn [fst].
  - unfold EarlyStop.evaluate.
    destruct (EarlyStop.progress_quotient recorded) as [q|e]; cbn [fst].
    + change (EarlyStop.target (EarlyStop.emit recorded (EarlyStop.Progress q)))
        with (EarlyStop.target recorded).
      destruct (gt q (EarlyStop.target recorded)); cbn [fst].
      * exists [EarlyStop.Progress q; EarlyStop.Stopped (epoch + 1)].
        cbn [EarlyStop.out EarlyStop.halt EarlyStop.emit]. rewrite Hout, <- !app_assoc.
        split; [reflexivity|]. right. right. eauto.
      * exists [EarlyStop.Progress q].
        cbn [EarlyStop.out EarlyStop.emit]. rewrite Hout, <- !app_assoc.
        split; [reflexivity|]. right. left. eauto.
    + exists []. rewrite Hout. split; [reflexivity|]. now left.
  - exists []. rewrite Hout. split; [reflexivity|]. now left.
  - exists []. rewrite Hout. split; [reflexivity|]. now left.
Qed.

(** X16. A call of [on_epoch_end] writes its epoch message first and, when
    the epoch is an evaluated boundary whose evaluation returns, the
    progress line after it; the line ['Stopped at epoch n'] is written
    exactly when the call meets the condition of line 145, which is when it
    sets [stop_training], and [n] is then the number of the epoch counted
    from 1. Nothing written before is removed. *)
Theorem stopped_line_iff_condition_met
    (self : EarlyStop.t F) (epoch : Z) (logs : EarlyStop.Logs F) :
  let after := fst (EarlyStop.on_epoch_end self epoch logs) in
  exists rest,
    EarlyStop.out after =
      EarlyStop.out self ++ EarlyStop.Message (epoch + 1) logs :: rest /\
    (forall l, l ∈ rest -> callback_line l = true) /\
    ((exists n, EarlyStop.Stopped n ∈ rest) <->
     EarlyStop.exceeds self epoch logs = true) /\
    (forall n, EarlyStop.Stopped n ∈ rest -> n = epoch + 1) /\
    EarlyStop.stop_training after =
      EarlyStop.stop_training self || EarlyStop.exceeds self epoch logs.
Proof.
  intros after. destruct (on_epoch_end_out self epoch logs) as (rest & Hout & Hcases).
  exists rest. split; [exact Hout|].
  split; [|split; [|split; [|apply on_epoch_end_stop]]].
  - intros l Hl.
    destruct Hcases as [[-> _]|[(q & -> & _)|(q & -> & _)]].
    + now apply elem_of_nil in Hl.
    + apply list_elem_of_singleton in Hl as ->. reflexivity.
    + apply elem_of_cons in Hl as [->|Hl]; [reflexivity|].
      apply list_elem_of_singleton in Hl as ->. reflexivity.
  - destruct Hcases as [[-> Hex]|[(q & -> & Hex)|(q & -> & Hex)]]; rewrite Hex; split.
    + intros [n Hn]. now apply elem_of_nil in Hn.
    + discriminate.
    + intros [n Hn]. apply list_elem_of_singleton in Hn. discriminate.
    + discriminate.
    + reflexivity.
    + intros _. exists (epoch + 1). right. left.
  - intros n Hn.
    destruct Hcases as [[-> _]|[(q & -> & _)|(q & -> & _)]].
    + now apply elem_of_nil in Hn.
    + apply list_elem_of_singleton in Hn. discriminate.
    + apply elem_of_cons in Hn as [Hn|Hn]; [discriminate|].
      apply list_elem_of_singleton in Hn. now injection Hn.
Qed.

End CallbackLines.

Section QuietFit.
Context {Weights Data : Type}.
Variable run_epoch :
  Config.t -> Model.Sequential Weights -> Data -> Z -> Weights * EarlyStop.Logs float.

Lemma prints_trace (ls : list (EarlyStop.line float)) (w : Model.World Weights) :
  Model.trace (fst (Model.prints ls w)) =
  Model.trace w ++ map (fun l => Model.Printed (Model.Line l)) ls.
Proof.
  revert w. induction ls as [|l rest IH]; intros w; cbn [Model.prints map].
  - unfold Model.ret. cbn. now rewrite app_nil_r.
  - unfold Model.bindM. cbn [Model.emit]. rewrite IH. cbn [Model.trace].
    now rewrite <- app_assoc.
Qed.

Lemma new_lines (cb : EarlyStop.t float) (epoch : Z) (logs : EarlyStop.Logs float) :
  Forall (fun l => callback_line l = true)
    (drop (S (length (EarlyStop.out cb)))
       (EarlyStop.out (fst (EarlyStop.on_epoch_end cb epoch logs)))).
Proof.
  destruct (on_epoch_end_out cb epoch logs) as (rest & -> & Hcases).
  rewrite cons_middle, app_assoc.
  replace (S (length (EarlyStop.out cb)))
    with (length (EarlyStop.out cb ++ [EarlyStop.Message (epoch + 1) logs]))
    by (rewrite length_app; cbn; lia).
  rewrite drop_app_length.
  destruct Hcases as [[-> _]|[(q & -> & _)|(q & -> & _)]]; repeat constructor.
Qed.

Lemma fit_loop_quiet_trace (config : Config.t) (data : Data) (n : nat) :
  Config.verbose config = false ->
  forall (m : Model.Sequential Weights) (cb : EarlyStop.t float) (epoch : Z)
         (history : list (EarlyStop.Logs float)) (w : Model.World Weights),
    exists evs,
      Model.trace (fst (Model.fit_loop run_epoch config data n m cb epoch history w)) =
        Model.trace w ++ evs /\
      Forall callback_print evs.
Proof.
  intros Hquiet. induction n as [|n IH]; intros m cb epoch history w;
    cbn [Model.fit_loop].
  - exists []. split; [now rewrite app_nil_r|constructor].
  - destruct (run_epoch config m data epoch) as [ws logs].
    unfold Model.bindM at 1.
    pose proof (log_trace (Weights := Weights) config
                  (Model.Line (EarlyStop.Message (epoch + 1) logs)) w) as Hlog.
    unfold printed in Hlog. rewrite Hquiet, app_nil_r in Hlog.
    destruct (Model.log config _ w) as [w1 [[]|e]]; cbn [fst] in Hlog.
    2:{ exists []. cbn [fst]. split; [now rewrite app_nil_r|constructor]. }
    pose proof (new_lines cb epoch logs) as Hnew.
    destruct (EarlyStop.on_epoch_end cb epoch logs) as [cb' [[]|e]]; cbn [fst] in Hnew.
    2:{ exists []. cbn [fst Model.raise]. split; [now rewrite app_nil_r|constructor]. }
    unfold Model.bindM at 1.
    pose proof (prints_trace (drop (S (length (EarlyStop.out cb))) (EarlyStop.out cb')) w1)
      as Hprints.
    pose proof (prints_returns (Weights := Weights)
                  (drop (S (length (EarlyStop.out cb))) (EarlyStop.out cb')) w1) as Hp.
    destruct (Model.prints _ w1) as [w2 r]. cbn [fst snd] in Hprints, Hp. subst r.
    assert (Hevs : Forall (callback_print (Weights := Weights))
              (map (fun l => Model.Printed (Model.Line l))
                 (drop (S (length (EarlyStop.out cb))) (EarlyStop.out cb')))).
    { apply Forall_map. eapply Forall_impl; [exact Hnew|]. intros l Hl. exact Hl. }
    destruct (EarlyStop.stop_training cb').
    + eexists. cbn [fst Model.ret]. rewrite Hprints, Hlog. split; [reflexivity|exact Hevs].
    + destruct (IH (Model.set_weights m ws) cb' (epoch + 1) (history ++ [logs]) w2)
        as (evs & Htrace & Hall).
      eexists. rewrite Htrace, Hprints, Hlog, <- app_assoc.
      split; [reflexivity|]. apply Forall_app. split; assumption.
Qed.

(** X17. Turning [verbose] off silences the epoch messages only: in a fit
    with [verbose] unset everything printed is a progress or a stop line
    of the callback, which lines 144 and 146 write with [print] whatever
    [verbose] is. *)
Theorem quiet_fit_prints_callback_lines_only
    (config : Config.t) (m : Model.Sequential Weights) (data : Data)
    (w : Model.World Weights) :
  Config.verbose config = false ->
  exists evs,
    Model.trace (fst (Model.fit_generator run_epoch config m data w)) =
      Model.trace w ++ Model.FitStart (Model.weights m) :: evs /\
    Forall callback_print evs.
Proof.
  intros Hquiet. unfold Model.fit_generator, Model.bindM. cbn [Model.emit].
  match goal with
  | |- context [Model.fit_loop ?r ?c ?d ?n ?m0 ?cb ?e ?h ?w1] =>
      destruct (fit_loop_quiet_trace c d n Hquiet m0 cb e h w1) as (evs & Htrace & Hall)
  end.
  exists evs. rewrite Htrace. cbn [Model.trace]. rewrite <- app_assoc.
  split; [reflexivity|exact Hall].
Qed.

End QuietFit.

(** ** The layers of the model *)

Ltac each_layer i Hl :=
  repeat (destruct i as [|i];
          [cbn in Hl; injection Hl as <-; try discriminate; try reflexivity|]);
  cbn in Hl; discriminate.

Ltac each_pool i Hl :=
  do 27 (destruct i as [|i]; [cbn in Hl; first [discriminate|reflexivity]|]);
  cbn in Hl; discriminate.

(** X18. In the list [create_model] builds, for either value of the
    [bayesian] flag, every convolution is directly followed by a batch
    normalisation; there are seven convolutions and three poolings; and
    with the flag set every pooling is directly followed by an
    [AlwaysDropout] layer. *)
Theorem convolutions_are_batch_normalised (config : Config.t) :
  let layers := Model.create_layers config in
  (forall (i : nat) (l : Model.layer),
     layers !! i = Some l -> is_conv l = true ->
     layers !! S i = Some Model.BatchNormalization) /\
  length (filter (fun l => is_conv l = true) layers) = 7%nat /\
  length (filter (fun l => is_pool l = true) layers) = 3%nat /\
  (Config.bayesian config = true ->
   forall i : nat, layers !! i = Some Model.MaxPool2D ->
     layers !! S i = Some (Model.AlwaysDropout 0.25%float)).
Proof.
  intros layers. unfold layers, Model.create_layers.
  destruct (Config.bayesian config); cbn [Model.dropout_if app].
  - split; [|split; [|split]].
    + intros i l Hl Hconv. each_layer i Hl.
    + reflexivity.
    + reflexivity.
    + intros _ i Hl. each_pool i Hl.
  - split; [|split; [|split]].
    + intros i l Hl Hconv. each_layer i Hl.
    + reflexivity.
    + reflexivity.
    + discriminate.
Qed.

(** X19. The [bayesian] flag only inserts dropout layers: two
    configurations with the same input shape and number of classes give
    the same layers once the [AlwaysDropout] layers are left out, whatever
    else differs between them; the list has 27 layers with the flag and 23
    without. *)
Theorem bayesian_flag_only_inserts_dropout (c1 c2 : Config.t) :
  Config.input_height c1 = Config.input_height c2 ->
  Config.input_width c1 = Config.input_width c2 ->
  Config.input_channels c1 = Config.input_channels c2 ->
  Config.num_classes c1 = Config.num_classes c2 ->
  without_dropout (Model.create_layers c1) = without_dropout (Model.create_layers c2) /\
  length (Model.create_layers c1) = (if Config.bayesian c1 then 27 else 23)%nat /\
  length (without_dropout (Model.create_layers c1)) = 23%nat.
Proof.
  intros Hh Hw Hc Hn. unfold Model.create_layers. rewrite Hh, Hw, Hc, Hn.
  destruct (Config.bayesian c1), (Config.bayesian c2); cbn [Model.dropout_if app];
    repeat split.
Qed.

(** X20. The last layer [create_model] adds is the dense layer with
    [num_classes] units and softmax activation, and it is the only
    softmax layer of the model, for either value of the [bayesian] flag. *)
Theorem output_layer_is_softmax_over_classes (config : Config.t) :
  let layers := Model.create_layers config in
  last layers = Some (Model.Dense (Config.num_classes config) Model.softmax) /\
  (forall (i : nat) (l : Model.layer),
     layers !! i = Some l -> is_softmax l = true -> S i = length layers).
Proof.
  intros layers. unfold layers, Model.create_layers.
  destruct (Config.bayesian config); cbn [Model.dropout_if app];
    (split; [reflexivity|]); intros i l Hl Hsoft; each_layer i Hl.
Qed.

(** ** Losses that are not numbers *)

Lemma Fnan_spec (x : float) : Fnan x = true <-> Prim2SF x = S754_nan.
Proof. unfold Fnan. destruct (Prim2SF x); cbn; split; congruence. Qed.

Lemma Fnan_div_l (x y : float) : Fnan x = true -> Fnan (x / y) = true.
Proof. rewrite !Fnan_spec, div_spec. now intros ->. Qed.

Lemma Fnan_div_r (x y : float) : Fnan y = true -> Fnan (x / y) = true.
Proof. rewrite !Fnan_spec, div_spec. intros ->. now destruct (Prim2SF x). Qed.

Lemma Fnan_sub_l (x y : float) : Fnan x = true -> Fnan (x - y) = true.
Proof. rewrite !Fnan_spec, sub_spec. now intros ->. Qed.

Lemma Fnan_mul_r (x y : float) : Fnan y = true -> Fnan (x * y) = true.
Proof. rewrite !Fnan_spec, mul_spec. intros ->. now destruct (Prim2SF x). Qed.

Lemma Fnan_add_l (x y : float) : Fnan x = true -> Fnan (x + y) = true.
Proof. rewrite !Fnan_spec, add_spec. now intros ->. Qed.

Lemma Fnan_add_r (x y : float) : Fnan y = true -> Fnan (x + y) = true.
Proof. rewrite !Fnan_spec, add_spec. intros ->. now destruct (Prim2SF x). Qed.

Lemma gt_nan (q target : float) : Fnan q = true -> gt q target = false.
Proof.
  intros Hq. unfold gt. cbn [lt float_number].
  apply ltb_false_iff. right. left. exact Hq.
Qed.

Lemma evaluate_nan (self : EarlyStop.t float) (epoch : Z) :
  (forall q, EarlyStop.progress_quotient self = Ok q -> Fnan q = true) ->
  EarlyStop.stop_training (fst (EarlyStop.evaluate self epoch)) =
    EarlyStop.stop_training self.
Proof.
  intros Hq. unfold EarlyStop.evaluate.
  destruct (EarlyStop.progress_quotient self) as [q|e]; [|reflexivity].
  cbn [EarlyStop.target EarlyStop.emit]. rewrite (gt_nan q _ (Hq q eq_refl)).
  reflexivity.
Qed.

Lemma g_loss_nan (self : EarlyStop.t float) (latest g : float) :
  last (EarlyStop.val_losses self) = Some latest -> Fnan latest = true ->
  EarlyStop.g_loss self = Ok g -> Fnan g = true.
Proof.
  intros Hlast Hnan. unfold EarlyStop.g_loss, Py.get_last. rewrite Hlast. cbn [Py.bind].
  destruct (min_ _) as [best|e]; [|discriminate]. cbn [Py.bind].
  unfold truediv. cbn [Py.bind].
  intros [= <-]. cbn [mul sub quot float_number].
  apply Fnan_mul_r, Fnan_sub_l, Fnan_div_l, Hnan.
Qed.

Lemma quotient_nan_l (self : EarlyStop.t float) :
  (forall g, EarlyStop.g_loss self = Ok g -> Fnan g = true) ->
  forall q, EarlyStop.progress_quotient self = Ok q -> Fnan q = true.
Proof.
  intros Hg q. unfold EarlyStop.progress_quotient.
  destruct (EarlyStop.g_loss self) as [g|e]; [|discriminate]. cbn [Py.bind].
  destruct (EarlyStop.t_progress self) as [p|e]; [|discriminate]. cbn [Py.bind].
  unfold truediv.
  intros [= <-]. cbn [quot float_number]. apply Fnan_div_l, Hg. reflexivity.
Qed.

(** X21. An epoch whose validation loss is NaN never stops the fit:
    whatever the history, the interval and the target are, the call of
    [on_epoch_end] for it leaves [stop_training] as it was, since [g_loss]
    is then NaN (if it is computed at all) and line 145 compares NaN with
    the target. *)
Theorem nan_validation_loss_never_stops
    (self : EarlyStop.t float) (epoch : Z) (logs : EarlyStop.Logs float) :
  Fnan (EarlyStop.val_loss logs) = true ->
  let after := fst (EarlyStop.on_epoch_end self epoch logs) in
  EarlyStop.stop_training after = EarlyStop.stop_training self /\
  (forall g, EarlyStop.g_loss after = Ok g -> Fnan g = true).
Proof.
  intros Hnan after.
  set (recorded :=
    EarlyStop.record (EarlyStop.emit self (EarlyStop.Message (epoch + 1) logs)) logs).
  assert (Hg : forall g, EarlyStop.g_loss recorded = Ok g -> Fnan g = true).
  { intros g. apply (g_loss_nan recorded (EarlyStop.val_loss logs)); [|exact Hnan].
    unfold recorded. cbn [EarlyStop.val_losses EarlyStop.record EarlyStop.emit].
    apply last_snoc. }
  split.
  - unfold after. rewrite on_epoch_end_state. cbv zeta. fold recorded.
    change (EarlyStop.stop_training self) with (EarlyStop.stop_training recorded).
    destruct (EarlyStop.due recorded epoch) as [[|]|e]; try reflexivity.
    apply evaluate_nan, quotient_nan_l, Hg.
  - intros g. unfold after, EarlyStop.g_loss.
    destruct (on_epoch_end_losses self epoch logs) as [-> _].
    apply Hg.
Qed.

Lemma sum_nan (l : list float) : forall acc : float,
  Fnan acc = true \/ (exists x, x ∈ l /\ Fnan x = true) ->
  Fnan (fold_left PrimFloat.add l acc) = true.
Proof.
  induction l as [|y l IH]; intros acc Hsome; cbn [fold_left].
  - destruct Hsome as [?|(x & Hx & _)]; [assumption|]. now apply elem_of_nil in Hx.
  - apply IH. destruct Hsome as [Hacc|(x & Hx & Hnan)].
    + left. now apply Fnan_add_l.
    + apply elem_of_cons in Hx as [->|Hx].
      * left. now apply Fnan_add_r.
      * right. eauto.
Qed.

(** X22. A NaN among the training losses that line 142 sums makes
    [t_progress] NaN, and the evaluation then cannot stop the fit: it
    either raises or leaves [stop_training] as it was. *)
Theorem nan_training_loss_never_stops
    (self : EarlyStop.t float) (epoch : Z) (x : float) :
  x ∈ EarlyStop.numerator_window self -> Fnan x = true ->
  (forall p, EarlyStop.t_progress self = Ok p -> Fnan p = true) /\
  EarlyStop.stop_training (fst (EarlyStop.evaluate self epoch)) =
    EarlyStop.stop_training self.
Proof.
  intros Hx Hnan.
  assert (Hp : forall p, EarlyStop.t_progress self = Ok p -> Fnan p = true).
  { intros p. unfold EarlyStop.t_progress.
    destruct (min_ _) as [least|e]; [|discriminate]. cbn [Py.bind].
    unfold truediv. cbn [Py.bind].
    intros [= <-]. cbn [mul sub quot float_number].
    apply Fnan_mul_r, Fnan_sub_l, Fnan_div_l.
    unfold sum_. cbn [add float_number]. apply sum_nan. right. eauto. }
  split; [exact Hp|].
  apply evaluate_nan. intros q. unfold EarlyStop.progress_quotient.
  destruct (EarlyStop.g_loss self) as [g|e]; [|discriminate]. cbn [Py.bind].
  destruct (EarlyStop.t_progress self) as [p|e] eqn:Hpe; [|discriminate]. cbn [Py.bind].
  unfold truediv.
  intros [= <-]. cbn [quot float_number]. apply Fnan_div_r, Hp. reflexivity.
Qed.

(** ** The epoch number in the texts *)

Lemma length_zeros (k : nat) : String.length (zeros k) = k.
Proof. induction k as [|k IH]; cbn; [reflexivity|now rewrite IH]. Qed.

Lemma length_app_string (s t : string) :
  String.length (s +:+ t) = (String.length s + String.length t)%nat.
Proof.
  induction s as [|c s IH]; [reflexivity|].
  change (S (String.length (s +:+ t)) = S (String.length s + String.length t)%nat).
  now rewrite IH.
Qed.

Lemma length_string_of_uint (d : Decimal.uint) :
  String.length (NilEmpty.string_of_uint d) = Decimal.nb_digits d.
Proof. induction d; cbn; congruence. Qed.

Lemma of_uint_acc_upper (d : Decimal.uint) : forall acc : positive,
  Zpos (Pos.of_uint_acc d acc) < (Zpos acc + 1) * 10 ^ Z.of_nat (Decimal.nb_digits d).
Proof.
  induction d as [|d IH|d IH|d IH|d IH|d IH|d IH|d IH|d IH|d IH|d IH]; intros acc;
    cbn [Pos.of_uint_acc Decimal.nb_digits];
    [cbn; lia|..];
    rewrite Nat2Z.inj_succ, Z.pow_succ_r by lia;
    match goal with
    | |- Zpos (Pos.of_uint_acc d ?a) < _ => pose proof (IH a) as Hup
    end;
    assert (0 < 10 ^ Z.of_nat (Decimal.nb_digits d)) by (apply Z.pow_pos_nonneg; lia);
    nia.
Qed.

Lemma of_uint_upper (d : Decimal.uint) :
  Z.of_uint d < 10 ^ Z.of_nat (Decimal.nb_digits d).
Proof.
  unfold Z.of_uint.
  induction d as [|d IH|d IH|d IH|d IH|d IH|d IH|d IH|d IH|d IH|d IH];
    cbn [Pos.of_uint Decimal.nb_digits];
    [cbn; lia|..];
    rewrite Nat2Z.inj_succ, Z.pow_succ_r by lia;
    assert (0 < 10 ^ Z.of_nat (Decimal.nb_digits d)) by (apply Z.pow_pos_nonneg; lia);
    [lia|..];
    match goal with
    | |- Z.of_N (N.pos (Pos.of_uint_acc d ?a)) < _ =>
        pose proof (of_uint_acc_upper d a) as Hup
    end;
    cbn [Z.of_N]; lia.
Qed.

Lemma digits_value (n : Z) : 0 <= n -> Z.of_uint (digits n) = n.
Proof.
  intros Hn. pose proof (DecimalZ.of_to n) as Hof. unfold digits.
  destruct n as [|p|p]; [reflexivity| |lia]. cbn in *. exact Hof.
Qed.

Lemma digits_nonnil (n : Z) : digits n <> Decimal.Nil.
Proof.
  unfold digits. destruct n as [|p|p]; cbn; [discriminate|..];
    apply Unsigned.to_uint_nonnil.
Qed.

Lemma str_digits (n : Z) : 0 <= n -> str n = NilEmpty.string_of_uint (digits n).
Proof.
  intros Hn. pose proof (digits_nonnil n) as Hd. unfold str, digits in *.
  destruct n as [|p|p]; [reflexivity| |lia]. cbn in *.
  destruct (Pos.to_uint p); [contradiction|reflexivity..].
Qed.

Lemma app_string_nil_r (s : string) : s +:+ "" = s.
Proof.
  induction s as [|c s IH]; [reflexivity|].
  change (String c (s +:+ "") = String c s). now rewrite IH.
Qed.

(** The first character of the digits is no sign. *)
Lemma zfill_digits (d : Decimal.uint) (width : Z) :
  zfill (NilEmpty.string_of_uint d) width =
  zeros (Z.to_nat (width - Z.of_nat (String.length (NilEmpty.string_of_uint d)))) +:+
  NilEmpty.string_of_uint d.
Proof.
  unfold zfill. destruct d; cbn [NilEmpty.string_of_uint]; try reflexivity.
  now rewrite app_string_nil_r.
Qed.

Lemma read_zeros (k : nat) (d : Decimal.uint) :
  NilEmpty.uint_of_string (zeros k +:+ NilEmpty.string_of_uint d) =
  Some (Nat.iter k Decimal.D0 d).
Proof.
  induction k as [|k IH].
  - apply NilEmpty.usu.
  - change (uint_of_char "0"%char
              (NilEmpty.uint_of_string (zeros k +:+ NilEmpty.string_of_uint d)) =
            Some (Decimal.D0 (Nat.iter k Decimal.D0 d))).
    now rewrite IH.
Qed.

Lemma value_zeros (k : nat) (d : Decimal.uint) :
  Z.of_uint (Nat.iter k Decimal.D0 d) = Z.of_uint d.
Proof. induction k as [|k IH]; cbn [Nat.iter]; [reflexivity|exact IH]. Qed.

Lemma app_string_inj (p s t : string) : p +:+ s = p +:+ t -> s = t.
Proof. induction p as [|c p IH]; cbn; [easy|]. intros [= Heq]. now apply IH. Qed.

Lemma str_short (n : Z) : 0 <= n < 10000 -> (String.length (str n) <= 4)%nat.
Proof.
  intros Hn.
  assert (Hall : forallb (fun k => String.length (str (Z.of_nat k)) <=? 4)%nat
                   (seq 0 (Z.to_nat 10000)) = true) by (vm_compute; reflexivity).
  rewrite forallb_forall in Hall.
  specialize (Hall (Z.to_nat n)). rewrite Z2Nat.id in Hall by lia.
  apply Nat.leb_le, Hall, in_seq. lia.
Qed.

Lemma str_long (n : Z) : 10000 <= n -> (5 <= String.length (str n))%nat.
Proof.
  intros Hn. rewrite str_digits, length_string_of_uint by lia.
  pose proof (of_uint_upper (digits n)) as Hup. rewrite digits_value in Hup by lia.
  destruct (le_lt_dec 5 (Decimal.nb_digits (digits n))) as [?|Hfew]; [assumption|].
  assert (10 ^ Z.of_nat (Decimal.nb_digits (digits n)) <= 10 ^ 4)
    by (apply Z.pow_le_mono_r; lia).
  change (10 ^ 4) with 10000 in *. lia.
Qed.

(** X23. For an epoch index that is not negative, the number in the
    message of line 132 is [epoch + 1] in decimal with zeros in front up to
    four characters: exactly four characters up to epoch number 9999, and
    the plain number, never cut, from 10000 on. *)
Theorem epoch_number_is_zero_padded (epoch : Z) :
  0 <= epoch ->
  let text := str (epoch + 1) in
  let field := zfill text 4 in
  field = zeros (4 - String.length text) +:+ text /\
  String.length field = Nat.max 4 (String.length text) /\
  (epoch + 1 < 10000 -> String.length field = 4%nat) /\
  (10000 <= epoch + 1 -> field = text).
Proof.
  intros Hepoch text field.
  assert (Hfield : field = zeros (4 - String.length text) +:+ text).
  { unfold field, text. rewrite str_digits, zfill_digits by lia. do 2 f_equal. lia. }
  assert (Hlen : String.length field = Nat.max 4 (String.length text)).
  { rewrite Hfield, length_app_string, length_zeros. lia. }
  split; [exact Hfield|]. split; [exact Hlen|]. split.
  - intros Hsmall. pose proof (str_short (epoch + 1) ltac:(lia)). fold text in H.
    rewrite Hlen. lia.
  - intros Hbig. pose proof (str_long (epoch + 1) Hbig). fold text in H.
    rewrite Hfield. replace (4 - String.length text)%nat with 0%nat by lia. reflexivity.
Qed.

Lemma str_inj (n m : Z) : str n = str m -> n = m.
Proof.
  unfold str. intros Heq.
  assert (Hint : forall z, NilZero.int_of_string (NilZero.string_of_int (Z.to_int z)) =
                           Some (Z.to_int z)).
  { intros z. apply NilZero.isi; destruct z; cbn; try discriminate;
      intros [= Hnil]; now apply Unsigned.to_uint_nonnil in Hnil. }
  pose proof (Hint n) as Hn. rewrite Heq, Hint in Hn. injection Hn as Hn.
  rewrite <- (DecimalZ.of_to n), <- (DecimalZ.of_to m). now rewrite Hn.
Qed.

(** X24. The texts tell the epochs apart: two epoch indices that are not
    negative and give the same ['Epoch: ...'] text of line 132 are the same
    epoch, and so are any two epochs with the same ['Stopped at epoch ...']
    text of line 146. *)
Theorem epoch_texts_are_distinct (epoch other : Z) :
  0 <= epoch -> 0 <= other ->
  (epoch_text epoch = epoch_text other -> epoch = other) /\
  (stopped_text epoch = stopped_text other -> epoch = other).
Proof.
  intros Hepoch Hother. split.
  - unfold epoch_text. intros Heq. apply app_string_inj in Heq.
    rewrite !str_digits, !zfill_digits in Heq by lia.
    apply (f_equal NilEmpty.uint_of_string) in Heq.
    rewrite !read_zeros in Heq. injection Heq as Heq.
    apply (f_equal Z.of_uint) in Heq.
    rewrite !value_zeros, !digits_value in Heq by lia. lia.
  - unfold stopped_text. intros Heq. apply app_string_inj, str_inj in Heq. lia.
Qed.

(** ** Sample runs for the further properties *)

(** Witness of X3: the run of eight epochs that ends with the flag set,
    and two more calls. *)
Lemma stop_training_is_never_cleared_witness :
  let self := EarlyStop.calls (EarlyStop.__init__ 5 2 1%float) 0 rising_epochs64 in
  EarlyStop.stop_training (fst (EarlyStop.on_epoch_end self 8 (logs64 1 1))) = true /\
  EarlyStop.stop_training (EarlyStop.calls self 8 [logs64 1 1; logs64 1 1]) = true.
Proof.
  intros self.
  apply (stop_training_is_never_cleared self 8 (logs64 1 1) [logs64 1 1; logs64 1 1]).
  vm_compute. reflexivity.
Defined.

(** Witness of X4: a new callback with interval 0, at its first epoch. *)
Lemma zero_interval_raises_witness :
  snd (EarlyStop.epochs (EarlyStop.__init__ 0 0 1%float) 0 five_epochs) =
    Raise ZeroDivisionError.
Proof.
  apply (proj1 (proj2 (zero_interval_raises (EarlyStop.__init__ 0 0 1%float) 0
                         (logs64 8 8) (tail five_epochs) eq_refl))).
Defined.

(** Witness of X6: the callback's defaults on five epochs. *)
Lemma first_boundary_always_raises_witness :
  let start := EarlyStop.__init__ 0 5 1%float in
  exists e,
    EarlyStop.epochs start 0 five_epochs =
      (EarlyStop.calls start 0 (take (Z.to_nat 5) five_epochs), Raise e) /\
    (e = ValueError \/ e = ZeroDivisionError) /\
    EarlyStop.stop_training (EarlyStop.calls start 0 (take (Z.to_nat 5) five_epochs)) = false.
Proof.
  intros start.
  apply (first_boundary_always_raises 0 5 1%float five_epochs); [lia|lia|cbn; lia].
Defined.

(** Witness of X5: interval 2 after eight epochs: four items. *)
Lemma denominator_needs_batch_plus_three_witness :
  let self := EarlyStop.calls (EarlyStop.__init__ 7 2 1%float) 0 eight_epochs in
  Z.of_nat (length (EarlyStop.denominator_window self)) = Z.max 0 (8 - (2 + 2)).
Proof.
  intros self.
  apply (proj1 (proj2 (denominator_needs_batch_plus_three self ltac:(vm_compute; discriminate)))).
Defined.

(** Witness of X8: the sample configuration, which prints and has no log
    file. *)
Lemma init_logs_none_for_the_summary_witness :
  exists w' self,
    Model.__init__ sample_initialise sample_config sample_world = (w', Ok self) /\
    Model.trace w' =
      [Model.GraphReset; Model.Printed created; Model.Summary;
       Model.Printed (Model.Str "None")].
Proof.
  destruct (init_logs_none_for_the_summary sample_initialise sample_config sample_world)
    as (w' & self & Hinit & Htrace & _); [left; reflexivity|].
  exists w', self. split; [exact Hinit|exact Htrace].
Defined.

(** Witness of X10: the directory is there and holds no weights. *)
Lemma missing_weights_file_raises_witness :
  snd (Model.train sample_run_epoch sample_model tt true "0" (tuned_world ∅)) =
    Raise OSError.
Proof.
  apply (missing_weights_file_raises sample_run_epoch sample_model tt true "0"
           (tuned_world ∅)).
  - split; [reflexivity|]. split; [discriminate|reflexivity].
  - reflexivity.
Defined.

(** Witness of X11: the directory holds weights that have seen 42
    passes. *)
Lemma restored_weights_start_the_fit_witness :
  let w := tuned_world {["Models/weights" := 42%nat]} in
  exists rest,
    drop (length (Model.trace w))
      (Model.trace (fst (Model.train sample_run_epoch sample_model tt true "0" w))) =
    [Model.LoadWeights "Models/weights"] ++
    [Model.Printed (Model.Str "Model Restored")] ++
    Model.FitStart 42%nat :: rest.
Proof.
  intros w.
  apply (restored_weights_start_the_fit sample_run_epoch sample_model tt true "0" w 42%nat).
  - split; [reflexivity|]. split; [discriminate|reflexivity].
  - vm_compute. reflexivity.
  - left. reflexivity.
Defined.

(** Witness of X12: the sample run of three epochs. *)
Lemma fit_history_has_one_entry_per_epoch_witness :
  length (snd sample_fitted) = Z.to_nat (Config.max_epochs sample_config).
Proof.
  apply (proj1 (proj2 (fit_history_has_one_entry_per_epoch sample_run_epoch sample_config
                         (Model.model sample_model) (fst sample_fitted) tt
                         sample_world sample_after_fit (snd sample_fitted)
                         ltac:(vm_compute; reflexivity)))).
  reflexivity.
Defined.

(** Witness of X13: three epochs logged to [train.log]. *)
Lemma log_file_gets_one_line_per_epoch_witness :
  let run := Model.fit_generator sample_run_epoch logged_config
               (Model.model sample_model) tt sample_world in
  default [] (Model.files (fst run) !! "train.log") =
    [epoch_line 0 0 (logs64 1 1); epoch_line 0 1 (logs64 1 1); epoch_line 0 2 (logs64 1 1)].
Proof.
  intros run.
  apply (proj1 (log_file_gets_one_line_per_epoch sample_run_epoch logged_config
                  (Model.model sample_model) (fst sample_fitted) tt
                  sample_world (fst run) (snd sample_fitted)
                  ltac:(vm_compute; reflexivity))).
  discriminate.
Defined.

(** Witness of X14: interval 2 from the first epoch on. *)
Lemma train_raises_at_first_boundary_witness :
  exists e,
    snd (Model.train sample_run_epoch (sample_model_with boundary_config) tt true "0"
           sample_world) = Raise e.
Proof.
  apply (proj1 (train_raises_at_first_boundary sample_run_epoch
                  (sample_model_with boundary_config) tt true "0" sample_world
                  ltac:(cbn; lia) ltac:(cbn; lia) ltac:(cbn; lia))).
Defined.

(** Witness of X19: the sample configuration and one without the flag. *)
Lemma bayesian_flag_only_inserts_dropout_witness :
  without_dropout (Model.create_layers sample_config) =
  without_dropout (Model.create_layers logged_config).
Proof.
  apply (proj1 (bayesian_flag_only_inserts_dropout sample_config logged_config
                  eq_refl eq_refl eq_refl eq_refl)).
Defined.

(** Witness of X21: the sixth epoch, an evaluated boundary, logs a
    validation loss that is not a number. *)
Lemma nan_validation_loss_never_stops_witness :
  let self := EarlyStop.calls (EarlyStop.__init__ 5 2 1%float) 0 (take 5 diverged_epochs) in
  EarlyStop.stop_training (fst (EarlyStop.on_epoch_end self 5 (logs64 3 nan))) =
    EarlyStop.stop_training self.
Proof.
  intros self.
  apply (proj1 (nan_validation_loss_never_stops self 5 (logs64 3 nan)
                  ltac:(vm_compute; reflexivity))).
Defined.

(** Witness of X22: the fifth training loss is not a number and is
    summed at the sixth epoch. *)
Lemma nan_training_loss_never_stops_witness :
  let self := EarlyStop.calls (EarlyStop.__init__ 5 2 1%float) 0 unstable_epochs in
  EarlyStop.stop_training (fst (EarlyStop.evaluate self 5)) =
    EarlyStop.stop_training self.
Proof.
  intros self.
  apply (proj2 (nan_training_loss_never_stops self 5 nan
                  ltac:(apply (list_elem_of_lookup_2 _ 1%nat); vm_compute; reflexivity)
                  ltac:(vm_compute; reflexivity))).
Defined.

(** Witness of X15: every file can be opened but the history file. *)
Lemma unwritable_history_fails_after_the_fit_witness :
  snd (Model.train sample_run_epoch sample_model tt true "0" rootless_world) =
    Raise OSError.
Proof.
  pose proof (unwritable_history_fails_after_the_fit sample_run_epoch sample_model tt
                true "0" rootless_world rootless_world
                (fst (Model.fit_generator sample_run_epoch sample_config
                        (Model.model sample_model) tt rootless_world))
                (Model.model sample_model) sample_fitted
                ltac:(vm_compute; reflexivity) ltac:(vm_compute; reflexivity)
                ltac:(vm_compute; reflexivity)) as [Hrun _].
  now rewrite Hrun.
Defined.

(** Witness of X17: six silent epochs, the sixth an evaluated boundary
    with quotient -50 / 125. *)
Lemma quiet_fit_prints_callback_lines_only_witness :
  exists evs,
    Model.trace (fst (Model.fit_generator (scripted_run_epoch steady_epochs64)
                        silent_config (sample_keras_model 7) tt sample_world)) =
      Model.trace sample_world ++ Model.FitStart 7%nat :: evs /\
    Forall callback_print evs.
Proof.
  apply (quiet_fit_prints_callback_lines_only (scripted_run_epoch steady_epochs64)
           silent_config (sample_keras_model 7) tt sample_world).
  reflexivity.
Defined.

(** The run of that witness: one line is printed, the progress line of
    the sixth epoch. *)
Lemma silent_run_prints_progress :
  exists q : float,
    Model.trace (fst (Model.fit_generator (scripted_run_epoch steady_epochs64)
                        silent_config (sample_keras_model 7) tt sample_world)) =
    [Model.FitStart 7%nat; Model.Printed (Model.Line (EarlyStop.Progress q))].
Proof. vm_compute. eexists. reflexivity. Qed.

(** Witness of X23: the first epoch and the ten-thousandth. *)
Lemma epoch_number_is_zero_padded_witness :
  zfill (str (0 + 1)) 4 = "0001" /\ zfill (str (9999 + 1)) 4 = "10000".
Proof.
  destruct (epoch_number_is_zero_padded 0 ltac:(lia)) as (Hfirst & _).
  destruct (epoch_number_is_zero_padded 9999 ltac:(lia)) as (Hlate & _).
  split; [rewrite Hfirst|rewrite Hlate]; reflexivity.
Defined.

(** Witness of X24: the first two epochs. *)
Lemma epoch_texts_are_distinct_witness :
  epoch_text 0 = "Epoch: 0001" /\ epoch_text 1 = "Epoch: 0002" /\
  (epoch_text 0 = epoch_text 1 -> 0 = 1).
Proof.
  split; [reflexivity|]. split; [reflexivity|].
  apply (proj1 (epoch_texts_are_distinct 0 1 ltac:(lia) ltac:(lia))).
Defined.
